(** * DevFlow prompt optimizer: COSTAR scoring, triage and synthesis

    A shallow embedding of [src/core/prompt-optimizer.ts].

    - JavaScript strings are sequences of UTF-16 code units ([list N]).
    - JavaScript numbers are IEEE-754 binary64 values, taken from the
      Standard Library's [SpecFloat] (precision 53, maximal exponent 1024).
    - Each regular expression of the source is embedded by a matcher that
      follows the backtracking order of the ECMAScript semantics
      (leftmost start, alternatives in order, greedy quantifiers). *)

From Stdlib Require Import ZArith NArith List Bool Lia String Ascii.
From Stdlib Require Import Floats.SpecFloat.
From Stdlib Require DecimalString.
Import ListNotations.

Set Implicit Arguments.

(* ================================================================= *)
(** ** JavaScript strings *)

Module JS.

Definition code_unit := N.
Definition jsstring := list code_unit.

(** A source literal (all literals of the file are ASCII). *)
Definition lit (s : string) : jsstring :=
  List.map N_of_ascii (list_ascii_of_string s).

Definition LF : code_unit := 10%N.
Definition nl : jsstring := [LF].

Open Scope N_scope.

Definition in_range (lo hi c : code_unit) : bool := (lo <=? c) && (c <=? hi).

Definition is_upper (c : code_unit) : bool := in_range 65 90 c.
Definition is_lower (c : code_unit) : bool := in_range 97 122 c.
Definition is_digit (c : code_unit) : bool := in_range 48 57 c.

(** Case folding of the [i] flag without the [u] flag: a code unit at or
    above 128 never folds onto an ASCII one, so against an ASCII pattern
    only the ASCII letters fold. *)
Definition canon (c : code_unit) : code_unit :=
  if is_upper c then c + 32 else c.

(** [\w] *)
Definition is_word_char (c : code_unit) : bool :=
  is_upper c || is_lower c || is_digit c || (c =? 95).

(** Line terminators: LF, CR, LS, PS. The dot of a regular expression
    matches everything else. *)
Definition is_line_terminator (c : code_unit) : bool :=
  (c =? 10) || (c =? 13) || (c =? 8232) || (c =? 8233).

(** [\s], which is also what [String.prototype.trim] strips: white space
    and line terminators. *)
Definition is_space (c : code_unit) : bool :=
  in_range 9 13 c || (c =? 32) || (c =? 160) || (c =? 5760)
  || in_range 8192 8202 c || (c =? 8232) || (c =? 8233)
  || (c =? 8239) || (c =? 8287) || (c =? 12288) || (c =? 65279).

Close Scope N_scope.

Fixpoint trimStart (s : jsstring) : jsstring :=
  match s with
  | [] => []
  | c :: s' => if is_space c then trimStart s' else s
  end.

Fixpoint trimEnd (s : jsstring) : jsstring :=
  match s with
  | [] => []
  | c :: s' =>
      match trimEnd s' with
      | [] => if is_space c then [] else [c]
      | t => c :: t
      end
  end.

Definition trim (s : jsstring) : jsstring := trimEnd (trimStart s).

(** Truthiness of a string. *)
Definition truthy (s : jsstring) : bool :=
  match s with [] => false | _ => true end.

(** [s.split('\n')]; the empty string splits into one empty line. *)
Fixpoint split_lines (s : jsstring) : list jsstring :=
  match s with
  | [] => [[]]
  | c :: s' =>
      if (c =? LF)%N then [] :: split_lines s'
      else match split_lines s' with
           | l :: ls => (c :: l) :: ls
           | [] => [[c]]
           end
  end.

(** [xs.join(sep)] *)
Fixpoint join (sep : jsstring) (xs : list jsstring) : jsstring :=
  match xs with
  | [] => []
  | [x] => x
  | x :: xs' => x ++ sep ++ join sep xs'
  end.

(** [s.substring(0, n)] *)
Definition substring0 (n : nat) (s : jsstring) : jsstring := firstn n s.

(** Template interpolation of a non-negative integer. *)
Definition of_nat (n : nat) : jsstring :=
  lit (DecimalString.NilZero.string_of_uint (Nat.to_uint n)).

(* ----------------------------------------------------------------- *)
(** *** Regular expressions *)

(** The code unit before the current position, for [\b]. *)
Definition prev_char := option code_unit.

Definition word_side (o : option code_unit) : bool :=
  match o with Some c => is_word_char c | None => false end.

(** [\b] between [prev] and the head of [s]. *)
Definition at_boundary (prev : prev_char) (s : jsstring) : bool :=
  xorb (word_side prev) (word_side (hd_error s)).

(** A literal under the [i] flag: the rest of the input behind it, with
    the last code unit consumed. *)
Fixpoint match_lit (w : jsstring) (prev : prev_char) (s : jsstring)
  : option (prev_char * jsstring) :=
  match w with
  | [] => Some (prev, s)
  | p :: w' =>
      match s with
      | [] => None
      | c :: s' => if (canon c =? canon p)%N then match_lit w' (Some c) s' else None
      end
  end.

(** An unanchored search: the first start position, from the left, at
    which [here] succeeds. *)
Fixpoint search (A : Type) (here : prev_char -> jsstring -> option A)
  (prev : prev_char) (s : jsstring) : option A :=
  match here prev s with
  | Some r => Some r
  | None =>
      match s with
      | [] => None
      | c :: s' => search here (Some c) s'
      end
  end.

Definition is_some (A : Type) (o : option A) : bool :=
  match o with Some _ => true | None => false end.

(** The first alternative, in order, on which [f] succeeds. *)
Fixpoint first_alt (A B : Type) (f : A -> option B) (alts : list A) : option B :=
  match alts with
  | [] => None
  | a :: alts' =>
      match f a with
      | Some r => Some r
      | None => first_alt f alts'
      end
  end.

(** [(w1|...|wn)\b] at the current position. *)
Definition alt_then_boundary (alts : list jsstring) (prev : prev_char) (s : jsstring)
  : option unit :=
  first_alt (fun w =>
    match match_lit w prev s with
    | Some (prev', r) => if at_boundary prev' r then Some tt else None
    | None => None
    end) alts.

(** [/\b(w1|...|wn)\b/i.test(s)] *)
Definition test_words (alts : list jsstring) (s : jsstring) : bool :=
  is_some (search (fun prev s' =>
    if at_boundary prev s' then alt_then_boundary alts prev s' else None) None s).

(** [/^(w1|...|wn)\b/i.test(s)] *)
Definition test_prefix_word (alts : list jsstring) (s : jsstring) : bool :=
  is_some (alt_then_boundary alts None s).

(** [/^(w1|...|wn)$/i.test(s)] *)
Definition test_whole (alts : list jsstring) (s : jsstring) : bool :=
  is_some (first_alt (fun w =>
    match match_lit w None s with
    | Some (_, []) => Some tt
    | _ => None
    end) alts).

(** [/w1|...|wn/i.test(s)] *)
Definition test_sub (alts : list jsstring) (s : jsstring) : bool :=
  is_some (search (fun prev s' =>
    first_alt (fun w =>
      match match_lit w prev s' with Some _ => Some tt | None => None end) alts) None s).

(** The longest prefix of code units satisfying [p] (a greedy class). *)
Fixpoint take_while (p : code_unit -> bool) (s : jsstring) : jsstring :=
  match s with
  | [] => []
  | c :: s' => if p c then c :: take_while p s' else []
  end.

(** [\s*(C+)] for a character class [C]: the white space is taken
    greedily and given back one unit at a time until a unit of [C]
    follows; the group is then the longest run of [C]. *)
Fixpoint spaces_then_run (cls : code_unit -> bool) (s : jsstring) : option jsstring :=
  match s with
  | [] => None
  | c :: s' =>
      if is_space c then
        match spaces_then_run cls s' with
        | Some g => Some g
        | None => if cls c then Some (take_while cls s) else None
        end
      else if cls c then Some (take_while cls s) else None
  end.

Definition not_LF (c : code_unit) : bool := negb (c =? LF)%N.
Definition dot (c : code_unit) : bool := negb (is_line_terminator c).

(** [/(k1|...|kn):\s*([^\n]+)/i], the second group of [s.match(...)]. *)
Definition match_labelled (keys : list jsstring) (s : jsstring) : option jsstring :=
  search (fun prev s' =>
    first_alt (fun k =>
      match match_lit (k ++ lit ":") prev s' with
      | Some (_, r) => spaces_then_run not_LF r
      | None => None
      end) keys) None s.

(** [/^(v1|...|vn)\s+(.+)/i], both groups of [s.match(...)]. *)
Definition match_action (verbs : list jsstring) (s : jsstring)
  : option (jsstring * jsstring) :=
  first_alt (fun v =>
    match match_lit v None s with
    | Some (_, c :: r) =>
        if is_space c then
          match spaces_then_run dot r with
          | Some g => Some (firstn (List.length v) s, g)
          | None => None
          end
        else None
    | _ => None
    end) verbs.

End JS.

(* ================================================================= *)
(** ** JavaScript numbers *)

Module Num.

Open Scope Z_scope.

Definition prec : Z := 53.
Definition emax : Z := 1024.

(** A JavaScript number: an IEEE-754 binary64 value. *)
Definition number := spec_float.

(** An integer literal of the source. *)
Definition num (z : Z) : number := binary_normalize prec emax z 0 false.

Definition add : number -> number -> number := SFadd prec emax.
Definition mul : number -> number -> number := SFmul prec emax.

(** A decimal literal [n/d] denotes the binary64 value nearest to the
    rational, which is what the correctly rounded division returns. *)
Definition decimal (n d : Z) : number := SFdiv prec emax (num n) (num d).

(** [x < y] and [x >= y]; both are false when an operand is NaN. *)
Definition lt (x y : number) : bool := SFltb x y.
Definition ge (x y : number) : bool := SFleb y x.

(** [Math.min(x, y)] *)
Definition Math_min (x y : number) : number :=
  match x, y with
  | S754_nan, _ | _, S754_nan => S754_nan
  | S754_zero sx, S754_zero sy => S754_zero (sx || sy)
  | _, _ => if SFltb y x then y else x
  end.

(** [Math.round(x)]: the integer nearest to [x], a tie going towards
    plus infinity; the sign of a zero result is the sign of [x]. *)
Definition Math_round (x : number) : number :=
  match x with
  | S754_finite s m e =>
      if 0 <=? e then x
      else
        let d := Z.pow 2 (- e) in
        let sm := if s then Z.neg m else Z.pos m in
        let n := (2 * sm + d) / (2 * d) in
        if n =? 0 then S754_zero s else binary_normalize prec emax n 0 false
  | _ => x
  end.

(** The integer a number stands for, when it is one. *)
Definition to_Z (x : number) : option Z :=
  match x with
  | S754_zero _ => Some 0
  | S754_finite s m e =>
      if 0 <=? e then Some ((if s then Z.neg m else Z.pos m) * 2 ^ e)
      else
        let d := Z.pow 2 (- e) in
        if Z.pos m mod d =? 0 then Some ((if s then Z.neg m else Z.pos m) / d)
        else None
  | _ => None
  end.

End Num.

(* ================================================================= *)
(** ** The optimizer's data model *)

Import JS Num.

Open Scope string_scope.
Open Scope list_scope.

(** The alternatives of a group, written as in the source: ["a|b|c"]. *)
Fixpoint split_bar (cur : jsstring) (s : jsstring) : list jsstring :=
  match s with
  | [] => [rev cur]
  | c :: s' => if (c =? 124)%N then rev cur :: split_bar [] s' else split_bar (c :: cur) s'
  end.

Definition alts (s : string) : list jsstring := split_bar [] (lit s).

Inductive OptimizerMode := fast | deep.

Record ContextAnalysis := {
  c_score : number;
  hasBackground : bool;
  hasConstraints : bool;
  situationClarity : number;
  c_issues : list jsstring;
  c_suggestions : list jsstring }.

Record ObjectiveAnalysis := {
  o_score : number;
  goalClarity : bool;
  measurable : bool;
  achievable : bool;
  clarityScore : number;
  o_issues : list jsstring;
  o_suggestions : list jsstring }.

Record StyleAnalysis := {
  s_score : number;
  formatSpecified : bool;
  structureDefined : bool;
  presentationClear : bool;
  s_issues : list jsstring;
  s_suggestions : list jsstring }.

Inductive Formality := formal | casual | technical | unspecified.

Record ToneAnalysis := {
  t_score : number;
  toneSpecified : bool;
  voiceConsistency : bool;
  formalityLevel : Formality;
  t_issues : list jsstring;
  t_suggestions : list jsstring }.

Record AudienceAnalysis := {
  a_score : number;
  audienceSpecified : bool;
  skillLevelDefined : bool;
  needsAddressed : bool;
  a_issues : list jsstring;
  a_suggestions : list jsstring }.

Record ResponseAnalysis := {
  r_score : number;
  outputFormatClear : bool;
  deliverablesSpecified : bool;
  examplesProvided : bool;
  r_issues : list jsstring;
  r_suggestions : list jsstring }.

(** The argument of the aggregator, the synthesizer and the recorder:
    three components always, three optional ([undefined] is [None]). *)
Record Analysis := {
  context : ContextAnalysis;
  objective : ObjectiveAnalysis;
  style : StyleAnalysis;
  tone : option ToneAnalysis;
  audience : option AudienceAnalysis;
  response : option ResponseAnalysis }.

Inductive Component := tag_C | tag_O | tag_S | tag_T | tag_A | tag_R.

Record Change := { component : Component; change : jsstring }.

Record COSTARResult := {
  analysis : Analysis;
  overallScore : number;
  improvedPrompt : jsstring;
  changesSummary : list Change }.

Inductive Rating := excellent | good | needs_improvement | poor.

Record COSTARScore := {
  overall : number;
  sc_context : number;
  sc_objective : number;
  sc_style : number;
  sc_tone : option number;
  sc_audience : option number;
  sc_response : option number;
  rating : Rating }.

Record TriageResult := {
  needsDeepAnalysis : bool;
  reasons : list jsstring }.

(** [xs.push(x)] on a list held in a local variable. *)
Definition push (X : Type) (xs : list X) (x : X) : list X := xs ++ [x].

(** [if (b) score += w] *)
Definition bump (b : bool) (w : Z) (score : number) : number :=
  if b then add score (num w) else score.

(** [if (!b) xs.push(x)] *)
Definition push_unless (X : Type) (b : bool) (x : X) (xs : list X) : list X :=
  if b then xs else push xs x.

(** [if (b) xs.push(x)] *)
Definition push_if (X : Type) (b : bool) (x : X) (xs : list X) : list X :=
  if b then push xs x else xs.

(* ================================================================= *)
(** ** Lexical helpers of the class *)

Definition hasContext (prompt : jsstring) : bool :=
  test_words (alts "background|context|currently|existing|problem|issue|because|given|situation") prompt.

Definition hasSuccessCriteria (prompt : jsstring) : bool :=
  test_words (alts "success|complete|done|measure|metric|goal|should be able to") prompt.

Definition hasTechnicalDetails (prompt : jsstring) : bool :=
  test_words (alts "react|vue|angular|node|python|java|typescript|api|database|sql|nosql|aws|docker|kubernetes") prompt
  || test_words (alts "integrate|performance|scale|security") prompt.

Definition hasUserNeeds (prompt : jsstring) : bool :=
  test_words (alts "user|customer|client|team|developer|admin|visitor|audience") prompt.

Definition hasExpectedOutput (prompt : jsstring) : bool :=
  test_words (alts "output|result|deliverable|should|look like|include|contain|provide|return") prompt.

(** [build an? app] is written out as its two readings, the longer first. *)
Definition too_broad : list jsstring :=
  alts "build an app|build a app|create a system|make a platform|develop everything".

Definition hasUnrealisticScope (prompt : jsstring) : bool :=
  let tooBroad := test_whole too_broad (trim prompt) in
  tooBroad || ((List.length prompt <? 30)%nat && test_words (alts "app|system|platform") prompt).

Definition countMissingCriticalElements (prompt : jsstring) : nat :=
  let missing := 0%nat in
  let missing := if negb (hasContext prompt) then S missing else missing in
  let missing := if negb (hasTechnicalDetails prompt) then S missing else missing in
  let missing := if negb (hasSuccessCriteria prompt) then S missing else missing in
  let missing := if negb (hasUserNeeds prompt) then S missing else missing in
  let missing := if negb (hasExpectedOutput prompt) then S missing else missing in
  missing.

(* ================================================================= *)
(** ** The six component analyzers *)

Definition analyzeContext (prompt : jsstring) : ContextAnalysis :=
  let issues := [] in
  let suggestions := [] in
  let hasBackground :=
    test_words (alts "background|context|currently|existing|situation|given that|considering") prompt
    || test_words (alts "you are|you're working|the project|this is") prompt in
  let issues := push_unless hasBackground
    (lit "No background or situational context provided") issues in
  let suggestions := push_unless hasBackground
    (lit "[C] Add background: Explain the current situation or problem context") suggestions in
  let hasConstraints :=
    test_words (alts "constraint|limitation|requirement|must|cannot|should not|restricted") prompt
    || test_words (alts "using|with|without|requires|needs") prompt in
  let issues := push_unless hasConstraints
    (lit "Constraints or requirements not specified") issues in
  let suggestions := push_unless hasConstraints
    (lit "[C] Specify constraints: Technologies, limitations, or requirements that apply") suggestions in
  let situationClarity := num 0 in
  let situationClarity := bump hasBackground 50 situationClarity in
  let situationClarity := bump hasConstraints 30 situationClarity in
  let situationClarity := bump (hasTechnicalDetails prompt) 20 situationClarity in
  let score := num 0 in
  let score := bump hasBackground 50 score in
  let score := bump hasConstraints 30 score in
  let score := bump (hasTechnicalDetails prompt) 20 score in
  {| c_score := Math_min (num 100) score;
     hasBackground := hasBackground;
     hasConstraints := hasConstraints;
     situationClarity := situationClarity;
     c_issues := issues;
     c_suggestions := suggestions |}.

Definition action_verbs : list jsstring :=
  alts "create|build|develop|implement|add|update|fix|refactor|design|generate".

Definition analyzeObjective (prompt : jsstring) : ObjectiveAnalysis :=
  let issues := [] in
  let suggestions := [] in
  let goalClarity :=
    test_prefix_word action_verbs (trim prompt)
    || test_words (alts "objective|goal|purpose|aim|want to|need to") prompt in
  let issues := push_unless goalClarity
    (lit "Goal or objective not clearly stated") issues in
  let suggestions := push_unless goalClarity
    (lit "[O] State objective clearly: Use action verbs (create, build, implement)") suggestions in
  let measurable :=
    hasSuccessCriteria prompt
    || test_words (alts "measure|metric|complete when|done when|success") prompt in
  let issues := push_unless measurable (lit "Objective not measurable") issues in
  let suggestions := push_unless measurable
    (lit "[O] Make objective measurable: Define what success looks like") suggestions in
  let achievable := negb (hasUnrealisticScope prompt) in
  let issues := push_unless achievable
    (lit "Objective may be too broad or unrealistic") issues in
  let suggestions := push_unless achievable
    (lit "[O] Refine scope: Break down into achievable, focused goal") suggestions in
  let clarityScore := num 0 in
  let clarityScore := bump goalClarity 40 clarityScore in
  let clarityScore := bump measurable 30 clarityScore in
  let clarityScore := bump achievable 30 clarityScore in
  let score := num 0 in
  let score := bump goalClarity 40 score in
  let score := bump measurable 30 score in
  let score := bump achievable 30 score in
  {| o_score := Math_min (num 100) score;
     goalClarity := goalClarity;
     measurable := measurable;
     achievable := achievable;
     clarityScore := clarityScore;
     o_issues := issues;
     o_suggestions := suggestions |}.

Definition example_words : list jsstring := alts "example|sample|like|such as".

Definition analyzeStyle (prompt : jsstring) : StyleAnalysis :=
  let issues := [] in
  let suggestions := [] in
  let formatSpecified :=
    test_words (alts "format|markdown|json|code|list|table|bullet|numbered|xml|yaml") prompt
    || test_words (alts "provide as|structure as|present as|organize") prompt in
  let issues := push_unless formatSpecified (lit "Output format not specified") issues in
  let suggestions := push_unless formatSpecified
    (lit "[S] Specify format: Define how output should be presented (markdown, code, list)") suggestions in
  let structureDefined :=
    test_words (alts "section|heading|organize|structure|step|phase|part") prompt
    || test_words (alts "include|contain|with|having") prompt in
  let issues := push_unless structureDefined
    (lit "Structure or organization not defined") issues in
  let suggestions := push_unless structureDefined
    (lit "[S] Define structure: Specify how information should be organized") suggestions in
  let presentationClear :=
    formatSpecified && (structureDefined || test_words example_words prompt) in
  let suggestions := push_unless presentationClear
    (lit "[S] Clarify presentation: Add examples or specify organization preferences") suggestions in
  let score := num 0 in
  let score := bump formatSpecified 40 score in
  let score := bump structureDefined 35 score in
  let score := bump presentationClear 25 score in
  {| s_score := Math_min (num 100) score;
     formatSpecified := formatSpecified;
     structureDefined := structureDefined;
     presentationClear := presentationClear;
     s_issues := issues;
     s_suggestions := suggestions |}.

Definition is_unspecified (f : Formality) : bool :=
  match f with unspecified => true | _ => false end.

Definition analyzeTone (prompt : jsstring) : ToneAnalysis :=
  let issues := [] in
  let suggestions := [] in
  let toneSpecified :=
    test_words (alts "tone|voice|style|formal|informal|casual|professional|friendly|technical") prompt in
  let issues := push_unless toneSpecified (lit "Tone or voice not specified") issues in
  let suggestions := push_unless toneSpecified
    (lit "[T] Specify tone: Define desired communication style (professional, casual, technical)") suggestions in
  let voiceConsistency :=
    test_words (alts "consistent|throughout|maintain|keep") prompt && toneSpecified in
  let formalityLevel :=
    if test_words (alts "formal|professional|business") prompt then formal
    else if test_words (alts "casual|friendly|conversational|informal") prompt then casual
    else if test_words (alts "technical|precise|expert|developer") prompt then technical
    else unspecified in
  let suggestions := push_if (is_unspecified formalityLevel && toneSpecified)
    (lit "[T] Clarify formality: Specify whether formal, casual, or technical tone is preferred") suggestions in
  let score := num 0 in
  let score := bump toneSpecified 50 score in
  let score := bump voiceConsistency 25 score in
  let score := bump (negb (is_unspecified formalityLevel)) 25 score in
  {| t_score := Math_min (num 100) score;
     toneSpecified := toneSpecified;
     voiceConsistency := voiceConsistency;
     formalityLevel := formalityLevel;
     t_issues := issues;
     t_suggestions := suggestions |}.

Definition analyzeAudience (prompt : jsstring) : AudienceAnalysis :=
  let issues := [] in
  let suggestions := [] in
  let audienceSpecified :=
    test_words (alts "for|target|audience|user|developer|beginner|expert|senior|junior|team") prompt
    || test_words (alts "who will|intended for|designed for") prompt in
  let issues := push_unless audienceSpecified (lit "Target audience not specified") issues in
  let suggestions := push_unless audienceSpecified
    (lit "[A] Define audience: Specify who will use this (developers, beginners, experts)") suggestions in
  let skillLevelDefined :=
    test_words (alts "beginner|intermediate|advanced|expert|senior|junior|novice|experienced") prompt
    || test_words (alts "familiar with|knowledge of|assumes") prompt in
  let suggestions := push_if (negb skillLevelDefined && audienceSpecified)
    (lit "[A] Specify skill level: Define expertise level of target audience") suggestions in
  let needsAddressed :=
    audienceSpecified
    && (skillLevelDefined || test_words (alts "needs|requires|wants|looking for") prompt) in
  let suggestions := push_if (negb needsAddressed && audienceSpecified)
    (lit "[A] Address needs: Consider specific needs of the target audience") suggestions in
  let score := num 0 in
  let score := bump audienceSpecified 40 score in
  let score := bump skillLevelDefined 35 score in
  let score := bump needsAddressed 25 score in
  {| a_score := Math_min (num 100) score;
     audienceSpecified := audienceSpecified;
     skillLevelDefined := skillLevelDefined;
     needsAddressed := needsAddressed;
     a_issues := issues;
     a_suggestions := suggestions |}.

Definition analyzeResponse (prompt : jsstring) : ResponseAnalysis :=
  let issues := [] in
  let suggestions := [] in
  let outputFormatClear :=
    test_words (alts "output|result|deliverable|return|provide|generate") prompt
    || hasExpectedOutput prompt in
  let issues := push_unless outputFormatClear (lit "Expected output format not clear") issues in
  let suggestions := push_unless outputFormatClear
    (lit "[R] Clarify output: Specify what should be returned or delivered") suggestions in
  let deliverablesSpecified :=
    test_words (alts "deliverable|include|provide|contain|with|having") prompt
    && test_words (alts "code|documentation|test|example|file") prompt in
  let issues := push_unless deliverablesSpecified (lit "Specific deliverables not listed") issues in
  let suggestions := push_unless deliverablesSpecified
    (lit "[R] List deliverables: Specify concrete outputs (code, docs, tests, examples)") suggestions in
  let examplesProvided :=
    test_words (alts "example|sample|such as|like|e.g.|for instance|similar to") prompt in
  let suggestions := push_unless examplesProvided
    (lit "[R] Provide examples: Include sample outputs or references") suggestions in
  let score := num 0 in
  let score := bump outputFormatClear 40 score in
  let score := bump deliverablesSpecified 40 score in
  let score := bump examplesProvided 20 score in
  {| r_score := Math_min (num 100) score;
     outputFormatClear := outputFormatClear;
     deliverablesSpecified := deliverablesSpecified;
     examplesProvided := examplesProvided;
     r_issues := issues;
     r_suggestions := suggestions |}.

(* ================================================================= *)
(** ** Score aggregator *)

Definition w_035 : number := decimal 35 100.
Definition w_03 : number := decimal 3 10.
Definition w_02 : number := decimal 2 10.
Definition w_015 : number := decimal 15 100.

(** The weighted sum, before any rounding. *)
Definition weighted (analysis : Analysis) : number :=
  match tone analysis, audience analysis, response analysis with
  | Some tone, Some audience, Some response =>
      add (add (add (add (add
        (mul (c_score (context analysis)) w_02)
        (mul (o_score (objective analysis)) w_02))
        (mul (s_score (style analysis)) w_015))
        (mul (t_score tone) w_015))
        (mul (a_score audience) w_015))
        (mul (r_score response) w_015)
  | _, _, _ =>
      add (add
        (mul (c_score (context analysis)) w_035)
        (mul (o_score (objective analysis)) w_035))
        (mul (s_score (style analysis)) w_03)
  end.

(** The [if]/[else if] chain of the rating. *)
Definition rating_of (overall : number) : Rating :=
  if ge overall (num 80) then excellent
  else if ge overall (num 60) then good
  else if ge overall (num 40) then needs_improvement
  else poor.

Definition calculateCOSTARScore (analysis : Analysis) : COSTARScore :=
  let overall := weighted analysis in
  let rating := rating_of overall in
  {| overall := Math_round overall;
     sc_context := c_score (context analysis);
     sc_objective := o_score (objective analysis);
     sc_style := s_score (style analysis);
     sc_tone := option_map t_score (tone analysis);
     sc_audience := option_map a_score (audience analysis);
     sc_response := option_map r_score (response analysis);
     rating := rating |}.

(* ================================================================= *)
(** ** Triage advisor *)

Definition performTriage (prompt : jsstring) (costarResult : option COSTARResult)
  : TriageResult :=
  let reasons := [] in
  let reasons :=
    match costarResult with
    | Some costarResult =>
        let an := analysis costarResult in
        let reasons := push_if (lt (c_score (context an)) (num 60))
          (lit "Context score below 60% - needs richer background information") reasons in
        let reasons := push_if (lt (o_score (objective an)) (num 60))
          (lit "Objective score below 60% - goal needs clarification") reasons in
        let reasons := push_if (lt (s_score (style an)) (num 50))
          (lit "Style score below 50% - output format not well-defined") reasons in
        reasons
    | None =>
        let reasons := push_if (List.length (trim prompt) <? 20)%nat
          (lit "Prompt is very short (< 20 characters)") reasons in
        let criticalElements := countMissingCriticalElements prompt in
        let reasons := push_if (3 <=? criticalElements)%nat
          (lit "Missing " ++ of_nat criticalElements ++ lit " critical elements") reasons in
        reasons
    end in
  {| needsDeepAnalysis := (0 <? List.length reasons)%nat;
     reasons := reasons |}.

(* ================================================================= *)
(** ** Prompt synthesizer *)

Definition extractOrInferTechnical (original : jsstring) : jsstring :=
  let techStack := [] in
  let techStack := push_if (test_sub (alts "react") original) (lit "React") techStack in
  let techStack := push_if (test_sub (alts "typescript") original) (lit "TypeScript") techStack in
  let techStack := push_if (test_sub (alts "node") original) (lit "Node.js") techStack in
  let techStack := push_if (test_sub (alts "python") original) (lit "Python") techStack in
  if (0 <? List.length techStack)%nat then
    lit "- Technology stack: " ++ join (lit ", ") techStack ++ nl ++ lit "- [Add other constraints]"
  else
    lit "- [Specify technologies, integrations, performance requirements]".

Definition extractOrInferContext (prompt : jsstring) : jsstring :=
  match match_labelled (alts "background|context|currently|given|situation") prompt with
  | Some g2 => g2
  | None =>
      if hasTechnicalDetails prompt then
        lit "Working in a development environment with " ++ extractOrInferTechnical prompt
      else
        lit "Development project requiring implementation of new functionality"
  end.

(** [a || b] on strings. *)
Definition or_else (a b : jsstring) : jsstring := if truthy a then a else b.

Definition extractOrInferObjective (prompt : jsstring) : jsstring :=
  match match_action action_verbs prompt with
  | Some (g1, g2) => g1 ++ lit " " ++ g2
  | None =>
      match match_labelled (alts "objective|goal|purpose") prompt with
      | Some g2 => g2
      | None => or_else (hd [] (split_lines prompt)) (substring0 100 prompt)
      end
  end.

Definition extractOrInferRequirements (prompt : jsstring) : jsstring :=
  let lines := filter (fun line => truthy (trim line)) (split_lines prompt) in
  if (1 <? List.length lines)%nat then
    join nl (List.map (fun line => lit "- " ++ line) (tl lines))
  else
    lit "- " ++ prompt ++ nl ++ lit "- [Add specific requirements based on objective]".

Definition extractToneGuidance (prompt : jsstring) : jsstring :=
  if test_sub (alts "professional") prompt then lit "Professional tone"
  else if test_sub (alts "casual") prompt then lit "Casual, friendly tone"
  else if test_sub (alts "technical") prompt then lit "Technical, precise tone"
  else lit "Professional, clear tone".

Definition extractAudienceDefinition (prompt : jsstring) : jsstring :=
  if test_sub (alts "beginner") prompt then
    lit "Target audience: Beginners with basic programming knowledge"
  else if test_sub (alts "senior|expert") prompt then
    lit "Target audience: Senior developers with deep expertise"
  else lit "Target audience: Intermediate to advanced developers".

Definition extractDeliverables (prompt : jsstring) : jsstring :=
  let deliverables := [] in
  let deliverables := push_if (test_sub (alts "code") prompt)
    (lit "- Complete code implementation") deliverables in
  let deliverables := push_if (test_sub (alts "documentation|docs") prompt)
    (lit "- Documentation") deliverables in
  let deliverables := push_if (test_sub (alts "test") prompt)
    (lit "- Test coverage") deliverables in
  let deliverables := push_if (test_sub (alts "example") prompt)
    (lit "- Usage examples") deliverables in
  if (0 <? List.length deliverables)%nat then join nl deliverables
  else lit "- [Specify deliverables]".

(** The three always-present sections. *)
Definition context_section (original : jsstring) (an : Analysis) : jsstring :=
  let improved := lit "## CONTEXT" ++ nl ++ nl in
  let improved :=
    if negb (hasBackground (context an)) then
      improved ++ lit "Background: " ++ extractOrInferContext original ++ nl ++ nl
    else
      improved ++ extractOrInferContext original ++ nl ++ nl in
  if negb (hasConstraints (context an)) && hasTechnicalDetails original then
    improved ++ lit "Constraints: " ++ extractOrInferTechnical original ++ nl ++ nl
  else improved.

Definition objective_section (original : jsstring) : jsstring :=
  lit "## OBJECTIVE" ++ nl ++ nl ++ extractOrInferObjective original ++ nl ++ nl.

Definition style_section (an : Analysis) : jsstring :=
  let improved := lit "## STYLE" ++ nl ++ nl in
  let improved :=
    if negb (formatSpecified (style an)) then
      improved ++ lit "Format: Provide response as structured, well-organized output" ++ nl
    else improved in
  let improved :=
    if negb (structureDefined (style an)) then
      improved ++ lit "Structure: Organize with clear sections and headings" ++ nl
    else improved in
  improved ++ nl.

(** The three sections of deep mode; an absent component adds nothing. *)
Definition tone_section (original : jsstring) (an : Analysis) : jsstring :=
  match tone an with
  | Some tone =>
      lit "## TONE" ++ nl ++ nl ++
      (if negb (toneSpecified tone) then
         lit "Use a professional, technical tone appropriate for developers" ++ nl ++ nl
       else extractToneGuidance original ++ nl ++ nl)
  | None => []
  end.

Definition audience_section (original : jsstring) (an : Analysis) : jsstring :=
  match audience an with
  | Some audience =>
      lit "## AUDIENCE" ++ nl ++ nl ++
      (if negb (audienceSpecified audience) then
         lit "Target audience: Senior developers with expertise in the relevant technology stack"
           ++ nl ++ nl
       else extractAudienceDefinition original ++ nl ++ nl)
  | None => []
  end.

Definition response_section (original : jsstring) (an : Analysis) : jsstring :=
  match response an with
  | Some response =>
      lit "## RESPONSE" ++ nl ++ nl ++
      lit "Expected deliverables:" ++ nl ++
      (if negb (deliverablesSpecified response) then
         lit "- Complete implementation" ++ nl ++
         lit "- Documentation" ++ nl ++
         lit "- Test coverage" ++ nl ++ nl
       else extractDeliverables original ++ nl ++ nl)
  | None => []
  end.

Definition requirements_section (original : jsstring) : jsstring :=
  lit "---" ++ nl ++ nl ++ lit "# Requirements" ++ nl ++ nl
  ++ extractOrInferRequirements original.

(** The string [improved] before the final [trim()]. *)
Definition improved_untrimmed (original : jsstring) (an : Analysis) : jsstring :=
  context_section original an
  ++ objective_section original
  ++ style_section an
  ++ tone_section original an
  ++ audience_section original an
  ++ response_section original an
  ++ requirements_section original.

Definition generateCOSTARImprovedPrompt (original : jsstring) (an : Analysis) : jsstring :=
  trim (improved_untrimmed original an).

(* ================================================================= *)
(** ** Change recorder *)

Definition mk (c : Component) (s : string) : Change :=
  {| component := c; change := lit s |}.

(** A present optional component whose flag is false. *)
Definition present_without (X : Type) (o : option X) (flag : X -> bool) : bool :=
  match o with Some x => negb (flag x) | None => false end.

(** The pushes of the walk, before the fallback. *)
Definition recorded_gaps (an : Analysis) : list Change :=
  let changes := [] in
  let changes := push_unless (hasBackground (context an))
    (mk tag_C "Added background context and situational details") changes in
  let changes := push_unless (hasConstraints (context an))
    (mk tag_C "Specified constraints and requirements") changes in
  let changes := push_unless (goalClarity (objective an))
    (mk tag_O "Clarified objective with clear goal statement") changes in
  let changes := push_unless (measurable (objective an))
    (mk tag_O "Made objective measurable with success criteria") changes in
  let changes := push_unless (formatSpecified (style an))
    (mk tag_S "Specified output format and presentation style") changes in
  let changes := push_unless (structureDefined (style an))
    (mk tag_S "Defined structure and organization approach") changes in
  let changes := push_if (present_without (tone an) toneSpecified)
    (mk tag_T "Added tone guidance for appropriate communication style") changes in
  let changes := push_if (present_without (audience an) audienceSpecified)
    (mk tag_A "Defined target audience and skill level") changes in
  let changes := push_if (present_without (response an) outputFormatClear)
    (mk tag_R "Specified expected deliverables and response format") changes in
  changes.

Definition fallback_change : Change :=
  mk tag_O "Structured the prompt with COSTAR framework sections".

Definition generateCOSTARChangesSummary (original _improved : jsstring) (an : Analysis)
  : list Change :=
  let changes := recorded_gaps an in
  if (List.length changes =? 0)%nat then push changes fallback_change else changes.

(* ================================================================= *)
(** ** The full analysis *)

Definition applyCOSTARFramework (prompt : jsstring) (mode : OptimizerMode) : COSTARResult :=
  let context := analyzeContext prompt in
  let objective := analyzeObjective prompt in
  let style := analyzeStyle prompt in
  let tone := match mode with deep => Some (analyzeTone prompt) | fast => None end in
  let audience := match mode with deep => Some (analyzeAudience prompt) | fast => None end in
  let response := match mode with deep => Some (analyzeResponse prompt) | fast => None end in
  let an := {| context := context; objective := objective; style := style;
               tone := tone; audience := audience; response := response |} in
  let improvedPrompt := generateCOSTARImprovedPrompt prompt an in
  let changesSummary := generateCOSTARChangesSummary prompt improvedPrompt an in
  let overallScore := overall (calculateCOSTARScore an) in
  {| analysis := an;
     overallScore := overallScore;
     improvedPrompt := improvedPrompt;
     changesSummary := changesSummary |}.

(* ================================================================= *)
(** ** Vocabulary of the statements *)

(** The score each analyzer computes, as a function of the flags it has
    just set (source lines 340-346, 398-404, 454-460, 509-515, 563-569
    and 616-622). *)
Definition context_score (hasBackground hasConstraints technical : bool) : number :=
  Math_min (num 100)
    (bump technical 20 (bump hasConstraints 30 (bump hasBackground 50 (num 0)))).

Definition objective_score (goalClarity measurable achievable : bool) : number :=
  Math_min (num 100)
    (bump achievable 30 (bump measurable 30 (bump goalClarity 40 (num 0)))).

Definition style_score (formatSpecified structureDefined presentationClear : bool) : number :=
  Math_min (num 100)
    (bump presentationClear 25 (bump structureDefined 35 (bump formatSpecified 40 (num 0)))).

Definition tone_score (toneSpecified voiceConsistency : bool) (level : Formality) : number :=
  Math_min (num 100)
    (bump (negb (is_unspecified level)) 25
       (bump voiceConsistency 25 (bump toneSpecified 50 (num 0)))).

Definition audience_score (audienceSpecified skillLevelDefined needsAddressed : bool) : number :=
  Math_min (num 100)
    (bump needsAddressed 25 (bump skillLevelDefined 35 (bump audienceSpecified 40 (num 0)))).

Definition response_score (outputFormatClear deliverablesSpecified examplesProvided : bool)
  : number :=
  Math_min (num 100)
    (bump examplesProvided 20 (bump deliverablesSpecified 40 (bump outputFormatClear 40 (num 0)))).

(** [x <= y] on numbers. *)
Definition le (x y : number) : bool := SFleb x y.

Definition b2z (b : bool) : Z := if b then 1%Z else 0%Z.

(** Two strings equal up to the case of ASCII letters. *)
Definition ci_eq (a b : jsstring) : Prop := List.map canon a = List.map canon b.

(** The code unit before the position reached after reading [m]. *)
Definition last_of (prev : prev_char) (m : jsstring) : prev_char :=
  fold_left (fun _ c => Some c) m prev.

(** [s] starts with [w], in any case, and a word boundary follows. *)
Definition word_at (w : jsstring) (prev : prev_char) (s : jsstring) : Prop :=
  exists m r, s = m ++ r /\ ci_eq m w /\ at_boundary (last_of prev m) r = true.

(** [w] occurs in [s], in any case, between two word boundaries. *)
Definition occurs_as_word (w s : jsstring) : Prop :=
  exists pre post, s = pre ++ post
    /\ at_boundary (last_of None pre) post = true
    /\ word_at w (last_of None pre) post.

Definition HASH : code_unit := 35%N.

(** The lines of a text that open with a hash sign, in order: its
    Markdown headings. *)
Definition starts_hash (line : jsstring) : bool :=
  match line with c :: _ => (c =? HASH)%N | [] => false end.

Definition heading_lines (text : jsstring) : list jsstring :=
  filter starts_hash (split_lines text).

(** The component headings, two hash signs and a blank. *)
Definition is_component_heading (line : jsstring) : bool :=
  match line with
  | a :: b :: c :: _ => (a =? HASH)%N && (b =? HASH)%N && (c =? 32)%N
  | _ => false
  end.

Definition component_headings (text : jsstring) : list jsstring :=
  filter is_component_heading (split_lines text).

Definition no_hash (s : jsstring) : bool := forallb (fun c => negb (c =? HASH)%N) s.

Definition heading_if (X : Type) (o : option X) (h : string) : list jsstring :=
  match o with Some _ => [lit h] | None => [] end.

(** The headings the synthesizer writes for an analysis. *)
Definition expected_headings (an : Analysis) : list jsstring :=
  [lit "## CONTEXT"; lit "## OBJECTIVE"; lit "## STYLE"]
  ++ heading_if (tone an) "## TONE"
  ++ heading_if (audience an) "## AUDIENCE"
  ++ heading_if (response an) "## RESPONSE"
  ++ [lit "# Requirements"].

(** Exact (case-sensitive) substring test, [text.includes(needle)]. *)
Fixpoint starts_with (needle text : jsstring) : bool :=
  match needle, text with
  | [], _ => true
  | p :: needle', c :: text' => (c =? p)%N && starts_with needle' text'
  | _ :: _, [] => false
  end.

Fixpoint includes (needle text : jsstring) : bool :=
  starts_with needle text
  || match text with [] => false | _ :: text' => includes needle text' end.

Definition tags (changes : list Change) : list Component :=
  List.map component changes.

Definition is_tag_R (c : Component) : bool :=
  match c with tag_R => true | _ => false end.

(** The number of [true] among the given tests. *)
Definition count_true (bs : list bool) : nat := List.length (filter (fun b => b) bs).

(** The flags the recorder walks, as "is a gap" tests, in walk order. *)
Definition gap_flags (an : Analysis) : list bool :=
  [ negb (hasBackground (context an));
    negb (hasConstraints (context an));
    negb (goalClarity (objective an));
    negb (measurable (objective an));
    negb (formatSpecified (style an));
    negb (structureDefined (style an));
    present_without (tone an) toneSpecified;
    present_without (audience an) audienceSpecified;
    present_without (response an) outputFormatClear ].

(** The record pushed for each walked flag, in walk order. *)
Definition gap_changes : list Change :=
  [ mk tag_C "Added background context and situational details";
    mk tag_C "Specified constraints and requirements";
    mk tag_O "Clarified objective with clear goal statement";
    mk tag_O "Made objective measurable with success criteria";
    mk tag_S "Specified output format and presentation style";
    mk tag_S "Defined structure and organization approach";
    mk tag_T "Added tone guidance for appropriate communication style";
    mk tag_A "Defined target audience and skill level";
    mk tag_R "Specified expected deliverables and response format" ].

(** The entries of [xs] whose flag is set. *)
Fixpoint select (X : Type) (bs : list bool) (xs : list X) : list X :=
  match bs, xs with
  | b :: bs', x :: xs' => if b then x :: select bs' xs' else select bs' xs'
  | _, _ => []
  end.

(** An analysis record whose every score is an integer of [0, 100]. *)
Definition simple_context (z : Z) : ContextAnalysis :=
  {| c_score := num z; hasBackground := true; hasConstraints := true;
     situationClarity := num z; c_issues := []; c_suggestions := [] |}.

Definition simple_objective (z : Z) : ObjectiveAnalysis :=
  {| o_score := num z; goalClarity := true; measurable := true; achievable := true;
     clarityScore := num z; o_issues := []; o_suggestions := [] |}.

Definition simple_style (z : Z) : StyleAnalysis :=
  {| s_score := num z; formatSpecified := true; structureDefined := true;
     presentationClear := true; s_issues := []; s_suggestions := [] |}.

Definition simple_tone (z : Z) : ToneAnalysis :=
  {| t_score := num z; toneSpecified := true; voiceConsistency := true;
     formalityLevel := formal; t_issues := []; t_suggestions := [] |}.

Definition simple_audience (z : Z) : AudienceAnalysis :=
  {| a_score := num z; audienceSpecified := true; skillLevelDefined := true;
     needsAddressed := true; a_issues := []; a_suggestions := [] |}.

Definition simple_response (z : Z) : ResponseAnalysis :=
  {| r_score := num z; outputFormatClear := true; deliverablesSpecified := true;
     examplesProvided := true; r_issues := []; r_suggestions := [] |}.

Definition fast_record (c o s : Z) : Analysis :=
  {| context := simple_context c; objective := simple_objective o; style := simple_style s;
     tone := None; audience := None; response := None |}.

(** The analysis with its optional components dropped. *)
Definition core_only (an : Analysis) : Analysis :=
  {| context := context an; objective := objective an; style := style an;
     tone := None; audience := None; response := None |}.

Definition all_present (an : Analysis) : bool :=
  is_some (tone an) && is_some (audience an) && is_some (response an).

Definition some_present (an : Analysis) : bool :=
  is_some (tone an) || is_some (audience an) || is_some (response an).

(** The triage reasons of the source. *)
Definition reason_context : jsstring :=
  lit "Context score below 60% - needs richer background information".
Definition reason_objective : jsstring :=
  lit "Objective score below 60% - goal needs clarification".
Definition reason_style : jsstring :=
  lit "Style score below 50% - output format not well-defined".
Definition reason_short : jsstring :=
  lit "Prompt is very short (< 20 characters)".
Definition reason_missing (n : nat) : jsstring :=
  lit "Missing " ++ of_nat n ++ lit " critical elements".

Definition when (X : Type) (b : bool) (x : X) : list X := if b then [x] else [].

(** The five critical elements, as "is missing" tests. *)
Definition critical_missing (prompt : jsstring) : list bool :=
  [ negb (hasContext prompt); negb (hasTechnicalDetails prompt);
    negb (hasSuccessCriteria prompt); negb (hasUserNeeds prompt);
    negb (hasExpectedOutput prompt) ].

(** A flag function of three booleans never loses score when one flag
    goes from false to true, the other two being held fixed. *)
Definition monotone3 (f : bool -> bool -> bool -> number) : Prop :=
  forall x y : bool,
    le (f false x y) (f true x y) = true
    /\ le (f x false y) (f x true y) = true
    /\ le (f x y false) (f x y true) = true.

(** The integer percentages. *)
Definition percents : list Z := List.map Z.of_nat (seq 0 101).

(** Tone supplied, audience and response not. *)
Definition tone_only : Analysis :=
  {| context := simple_context 50; objective := simple_objective 80;
     style := simple_style 40; tone := Some (simple_tone 100);
     audience := None; response := None |}.

(** The "unrealistic scope" rule, in words: the trimmed prompt is, in any
    case, one of the five bare requests, or the prompt is shorter than 30
    code units and has app, system or platform as a word. *)
Definition unrealistic (prompt : jsstring) : Prop :=
  (exists w, In w [lit "build an app"; lit "build a app"; lit "create a system";
                   lit "make a platform"; lit "develop everything"]
             /\ ci_eq (trim prompt) w)
  \/ ((List.length prompt < 30)%nat
      /\ exists w, In w [lit "app"; lit "system"; lit "platform"] /\ occurs_as_word w prompt).

(** The "clear goal" rule, in words: the trimmed prompt starts with an
    action verb as a word, or the prompt has an objective keyword as a
    word. *)
Definition clear_goal (prompt : jsstring) : Prop :=
  (exists v, In v [lit "create"; lit "build"; lit "develop"; lit "implement"; lit "add";
                   lit "update"; lit "fix"; lit "refactor"; lit "design"; lit "generate"]
             /\ word_at v None (trim prompt))
  \/ (exists k, In k [lit "objective"; lit "goal"; lit "purpose"; lit "aim";
                      lit "want to"; lit "need to"]
                /\ occurs_as_word k prompt).

(** [xs] can be read off [ys] from left to right, skipping entries. *)
Inductive Subseq (X : Type) : list X -> list X -> Prop :=
| Subseq_nil : forall ys, Subseq [] ys
| Subseq_keep : forall x xs ys, Subseq xs ys -> Subseq (x :: xs) (x :: ys)
| Subseq_skip : forall y xs ys, Subseq xs ys -> Subseq xs (y :: ys).

(** The component headings of a mode, in COSTAR order. *)
Definition mode_components (mode : OptimizerMode) : list jsstring :=
  match mode with
  | fast => [lit "## CONTEXT"; lit "## OBJECTIVE"; lit "## STYLE"]
  | deep => [lit "## CONTEXT"; lit "## OBJECTIVE"; lit "## STYLE";
             lit "## TONE"; lit "## AUDIENCE"; lit "## RESPONSE"]
  end.

(** All the headings of a mode: its components, then Requirements. *)
Definition mode_headings (mode : OptimizerMode) : list jsstring :=
  mode_components mode ++ [lit "# Requirements"].

(** An integer of [0, 100]. *)
Definition is_percent (x : number) : bool :=
  match to_Z x with
  | Some z => (0 <=? z)%Z && (z <=? 100)%Z
  | None => false
  end.

(** The synthesized prompt of the empty prompt, in fast mode up to the
    Style section. *)
Definition empty_core_sections : jsstring :=
  lit "## CONTEXT" ++ nl ++ nl
  ++ lit "Background: Development project requiring implementation of new functionality"
  ++ nl ++ nl
  ++ lit "## OBJECTIVE" ++ nl ++ nl
  ++ nl ++ nl
  ++ lit "## STYLE" ++ nl ++ nl
  ++ lit "Format: Provide response as structured, well-organized output" ++ nl
  ++ lit "Structure: Organize with clear sections and headings" ++ nl
  ++ nl.

Definition empty_deep_sections : jsstring :=
  lit "## TONE" ++ nl ++ nl
  ++ lit "Use a professional, technical tone appropriate for developers" ++ nl ++ nl
  ++ lit "## AUDIENCE" ++ nl ++ nl
  ++ lit "Target audience: Senior developers with expertise in the relevant technology stack"
  ++ nl ++ nl
  ++ lit "## RESPONSE" ++ nl ++ nl
  ++ lit "Expected deliverables:" ++ nl
  ++ lit "- Complete implementation" ++ nl
  ++ lit "- Documentation" ++ nl
  ++ lit "- Test coverage" ++ nl ++ nl.

Definition empty_requirements : jsstring :=
  lit "---" ++ nl ++ nl
  ++ lit "# Requirements" ++ nl ++ nl
  ++ lit "- " ++ nl
  ++ lit "- [Add specific requirements based on objective]".

(** The numbers of issues and of suggestions of the six analyses, the
    optional ones counting when present. *)
Definition issue_counts (an : Analysis) : list nat :=
  [ List.length (c_issues (context an)); List.length (o_issues (objective an));
    List.length (s_issues (style an)) ]
  ++ match tone an with Some t => [List.length (t_issues t)] | None => [] end
  ++ match audience an with Some a => [List.length (a_issues a)] | None => [] end
  ++ match response an with Some r => [List.length (r_issues r)] | None => [] end.

Definition suggestion_counts (an : Analysis) : list nat :=
  [ List.length (c_suggestions (context an)); List.length (o_suggestions (objective an));
    List.length (s_suggestions (style an)) ]
  ++ match tone an with Some t => [List.length (t_suggestions t)] | None => [] end
  ++ match audience an with Some a => [List.length (a_suggestions a)] | None => [] end
  ++ match response an with Some r => [List.length (r_suggestions r)] | None => [] end.

(** The six component scores, the optional ones when present. *)
Definition component_scores (an : Analysis) : list number :=
  [ c_score (context an); o_score (objective an); s_score (style an) ]
  ++ match tone an with Some t => [t_score t] | None => [] end
  ++ match audience an with Some a => [a_score a] | None => [] end
  ++ match response an with Some r => [r_score r] | None => [] end.

(** The scores the three core analyzers can return: the sums of the
    weights of each component. *)
Definition context_scores : list Z := [0; 20; 30; 50; 70; 80; 100]%Z.
Definition objective_scores : list Z := [0; 30; 40; 60; 70; 100]%Z.
Definition style_scores : list Z := [0; 35; 40; 65; 75; 100]%Z.

(** The rating bands, on the exact weighted sum in hundredths. *)
Definition band (hundredths : Z) : Rating :=
  if (8000 <=? hundredths)%Z then excellent
  else if (6000 <=? hundredths)%Z then good
  else if (4000 <=? hundredths)%Z then needs_improvement
  else poor.

(** Rounding to the nearest integer, a half going up, of a number of
    hundredths. *)
Definition round_half_up (hundredths : Z) : Z := ((hundredths + 50) / 100)%Z.

Definition rating_eqb (a b : Rating) : bool :=
  match a, b with
  | excellent, excellent | good, good | needs_improvement, needs_improvement
  | poor, poor => true
  | _, _ => false
  end.

(** The returned overall and rating of a record agree with the exact
    rounding and the band of the unrounded sum [h]. *)
Definition agrees (an : Analysis) (h : Z) : bool :=
  match to_Z (overall (calculateCOSTARScore an)) with
  | Some z => (z =? round_half_up h)%Z
  | None => false
  end
  && rating_eqb (rating (calculateCOSTARScore an)) (band h).

Definition fast_table : bool :=
  forallb (fun c => forallb (fun o => forallb (fun s =>
    agrees (fast_record c o s) (35 * c + 35 * o + 30 * s)%Z)
    style_scores) objective_scores) context_scores.

(* ================================================================= *)
(** ** The legacy analysis of the class *)

(** The double quote of the message templates. *)
Definition QUOTE : code_unit := 34%N.

Record PromptAnalysis := {
  gaps : list jsstring;
  ambiguities : list jsstring;
  strengths : list jsstring;
  suggestions : list jsstring }.

Definition findGaps (prompt : jsstring) : list jsstring :=
  let gaps := [] in
  let gaps := push_unless (hasContext prompt)
    (lit "Missing context: What is the background or current situation?") gaps in
  let gaps := push_unless (hasSuccessCriteria prompt)
    (lit "No success criteria: How will you know when this is complete?") gaps in
  let gaps := push_unless (hasTechnicalDetails prompt)
    (lit "Missing technical details: What technologies or constraints apply?") gaps in
  let gaps := push_unless (hasUserNeeds prompt)
    (lit "No user perspective: Who will use this and what do they need?") gaps in
  let gaps := push_unless (hasExpectedOutput prompt)
    (lit "Unclear expected output: What should the final deliverable look like?") gaps in
  gaps.

(** [/(w1|...|wn)\s+/i.test(s)]: an alternative followed by white space. *)
Definition test_then_space (ws : list jsstring) (s : jsstring) : bool :=
  is_some (search (fun prev s' =>
    first_alt (fun w =>
      match match_lit w prev s' with
      | Some (_, c :: _) => if is_space c then Some tt else None
      | _ => None
      end) ws) None s).

Definition vagueTerms : list jsstring :=
  [lit "some"; lit "maybe"; lit "probably"; lit "should"; lit "could"; lit "nice to have"].

(** The loop over [vagueTerms]; each term is tested as
    [new RegExp('\\b' + term + '\\b', 'i')]. *)
Fixpoint vague_loop (terms : list jsstring) (prompt : jsstring) (ambiguities : list jsstring)
  : list jsstring :=
  match terms with
  | [] => ambiguities
  | term :: terms' =>
      vague_loop terms' prompt
        (push_if (test_words [term] prompt)
           (lit "Vague term: " ++ [QUOTE] ++ term ++ [QUOTE] ++ lit " - be more specific")
           ambiguities)
  end.

Definition findAmbiguities (prompt : jsstring) : list jsstring :=
  let ambiguities := [] in
  let ambiguities := vague_loop vagueTerms prompt ambiguities in
  let ambiguities := push_if
    (test_then_space (alts "this|that|these|those|it") prompt
     && (List.length prompt <? 100)%nat)
    (lit "Undefined references: What does " ++ [QUOTE] ++ lit "this" ++ [QUOTE]
     ++ lit " or " ++ [QUOTE] ++ lit "it" ++ [QUOTE] ++ lit " refer to?") ambiguities in
  let ambiguities := push_if (test_words (alts "many|several|few|some") prompt)
    (lit "Unspecified quantities: How many exactly?") ambiguities in
  ambiguities.

Definition findStrengths (prompt : jsstring) : list jsstring :=
  let strengths := [] in
  let strengths := push_if (hasContext prompt) (lit "Clear context provided") strengths in
  let strengths := push_if (hasTechnicalDetails prompt)
    (lit "Technical constraints specified") strengths in
  let strengths := push_if (hasSuccessCriteria prompt)
    (lit "Success criteria defined") strengths in
  let strengths := push_if (200 <? List.length prompt)%nat
    (lit "Comprehensive detail provided") strengths in
  let strengths := push_if (test_sub (alts "example|such as|like|e.g.") prompt)
    (lit "Includes examples for clarity") strengths in
  strengths.

Definition generateSuggestions (prompt : jsstring) : list jsstring :=
  let suggestions := [] in
  let suggestions := push_unless (hasContext prompt)
    (lit "Add background: Explain the current situation or problem") suggestions in
  let suggestions := push_unless (hasSuccessCriteria prompt)
    (lit "Define success: Specify measurable criteria for completion") suggestions in
  let suggestions := push_unless (hasTechnicalDetails prompt)
    (lit "Add constraints: Specify technologies, integrations, or performance needs")
    suggestions in
  let suggestions := push_if (List.length prompt <? 50)%nat
    (lit "Expand detail: Add more specific requirements and context") suggestions in
  let suggestions := push_unless (hasUserNeeds prompt)
    (lit "Consider users: Who will use this and what do they need?") suggestions in
  suggestions.

Definition analyze (prompt : jsstring) : PromptAnalysis :=
  {| gaps := findGaps prompt;
     ambiguities := findAmbiguities prompt;
     strengths := findStrengths prompt;
     suggestions := generateSuggestions prompt |}.

(* ----------------------------------------------------------------- *)
(** *** Quality assessment *)

Definition hasClearGoal (prompt : jsstring) : bool :=
  test_prefix_word
    (alts "create|build|develop|implement|add|update|fix|refactor|design|make|write")
    (trim prompt)
  || test_sub (alts "objective|goal|purpose") prompt.

Definition hasActionableLanguage (prompt : jsstring) : bool :=
  test_words
    (alts "create|build|implement|add|update|remove|fix|test|deploy|configure|setup") prompt.

(** [build an? app] is written out as its two readings, as in [too_broad]. *)
Definition too_vague : list jsstring :=
  alts "build an app|build a app|create a system|make a platform".

Definition hasReasonableScope (prompt : jsstring) : bool :=
  let tooVague := test_whole too_vague (trim prompt) in
  let tooSpecific := (1000 <? List.length prompt)%nat in
  negb tooVague && negb tooSpecific.

Record Criteria := {
  clearGoal : bool;
  sufficientContext : bool;
  actionableLanguage : bool;
  reasonableScope : bool }.

Record QualityAssessment := {
  isAlreadyGood : bool;
  criteriaMetCount : nat;
  totalCriteria : nat;
  criteriaResults : Criteria }.

(** [Object.values(criteria)], in the order the keys were written. *)
Definition criteria_values (c : Criteria) : list bool :=
  [clearGoal c; sufficientContext c; actionableLanguage c; reasonableScope c].

Definition assessQuality (prompt : jsstring) : QualityAssessment :=
  let criteria :=
    {| clearGoal := hasClearGoal prompt;
       sufficientContext := hasContext prompt;
       actionableLanguage := hasActionableLanguage prompt;
       reasonableScope := hasReasonableScope prompt |} in
  let metCount := List.length (filter (fun b : bool => b) (criteria_values criteria)) in
  let total := List.length (criteria_values criteria) in
  {| isAlreadyGood := (3 <=? metCount)%nat;
     criteriaMetCount := metCount;
     totalCriteria := total;
     criteriaResults := criteria |}.

(* ----------------------------------------------------------------- *)
(** *** The legacy improved prompt and its changes summary *)

Definition extractOrInferOutput (original : jsstring) : jsstring :=
  if test_sub (alts "component|page|ui") original then
    lit "- Functional, tested component" ++ nl ++ lit "- Responsive design" ++ nl
    ++ lit "- Accessible implementation"
  else if test_sub (alts "api|endpoint|service") original then
    lit "- Working API endpoint(s)" ++ nl ++ lit "- Error handling" ++ nl
    ++ lit "- Documentation"
  else lit "- [Describe what the final deliverable should look like]".

Definition extractOrInferSuccess (_original : jsstring) : jsstring :=
  lit "- Implementation matches requirements" ++ nl
  ++ lit "- All edge cases handled" ++ nl
  ++ lit "- Code is tested and documented" ++ nl
  ++ lit "- [Add specific success metrics]".

Definition generateImprovedPrompt (original : jsstring) (_analysis : PromptAnalysis)
  : jsstring :=
  let improved := lit "# Objective" ++ nl ++ nl in
  let improved := improved ++ extractOrInferObjective original ++ nl ++ nl in
  let improved := improved ++ lit "# Requirements" ++ nl ++ nl in
  let improved := improved ++ extractOrInferRequirements original ++ nl ++ nl in
  let improved := improved ++ lit "# Technical Constraints" ++ nl ++ nl in
  let improved := improved ++ extractOrInferTechnical original ++ nl ++ nl in
  let improved := improved ++ lit "# Expected Output" ++ nl ++ nl in
  let improved := improved ++ extractOrInferOutput original ++ nl ++ nl in
  let improved := improved ++ lit "# Success Criteria" ++ nl ++ nl in
  let improved := improved ++ extractOrInferSuccess original ++ nl in
  improved.

Record ChangesSummary := { changes : list jsstring }.

(** A regular expression without flags, made of literal characters:
    [/text/.test(s)] is [s.includes(text)]. *)
Definition generateChangesSummary (original improved : jsstring) : ChangesSummary :=
  let changes := [] in
  let changes := push_if
    (negb (hasContext original) && includes (lit "# Objective") improved)
    (lit "Added clear objective and context") changes in
  let changes := push_if
    (negb (hasTechnicalDetails original) && includes (lit "# Technical Constraints") improved)
    (lit "Added technical constraints and requirements") changes in
  let changes := push_if
    (negb (hasSuccessCriteria original) && includes (lit "# Success Criteria") improved)
    (lit "Defined measurable success criteria") changes in
  let changes := push_if
    (negb (hasExpectedOutput original) && includes (lit "# Expected Output") improved)
    (lit "Specified expected deliverables") changes in
  let changes := push_if
    ((List.length original <? 100)%nat && (100 <? List.length improved)%nat)
    (lit "Expanded prompt with structured sections") changes in
  let changes :=
    if (List.length changes =? 0)%nat
    then push changes (lit "Refined and structured the existing prompt")
    else changes in
  {| changes := changes |}.

(* ----------------------------------------------------------------- *)
(** *** Deep-mode extras of [improve] *)

(** [s.split(sep)] for a separator of one code unit. *)
Fixpoint split_on (sep : code_unit) (s : jsstring) : list jsstring :=
  match s with
  | [] => [[]]
  | c :: s' =>
      if (c =? sep)%N then [] :: split_on sep s'
      else match split_on sep s' with
           | l :: ls => (c :: l) :: ls
           | [] => [[c]]
           end
  end.

Definition DOT : code_unit := 46%N.

(** [s.replace(/^(v1|...|vn)\s+/i, '')]: the first alternative, in
    order, that is followed by white space is removed together with all
    the white space behind it. *)
Definition strip_leading_verb (verbs : list jsstring) (s : jsstring) : jsstring :=
  match first_alt (fun v =>
          match match_lit v None s with
          | Some (_, c :: r) => if is_space c then Some (trimStart r) else None
          | _ => None
          end) verbs with
  | Some cleaned => cleaned
  | None => s
  end.

Definition extractCoreRequirement (prompt : jsstring) : jsstring :=
  let cleaned :=
    strip_leading_verb (alts "create|build|develop|implement|add|update|fix") prompt in
  or_else (hd [] (split_on DOT cleaned)) (substring0 100 cleaned).

(** [s.match(/^(v1|...|vn)/i)?.[0]] *)
Definition match_leading (verbs : list jsstring) (s : jsstring) : option jsstring :=
  first_alt (fun v =>
    match match_lit v None s with
    | Some _ => Some (firstn (List.length v) s)
    | None => None
    end) verbs.

Definition generateAlternativePhrasings (prompt : jsstring) : list jsstring :=
  let phrasings := [] in
  let mainAction :=
    or_else
      (match match_leading (alts "create|build|develop|implement|add") prompt with
       | Some m => m
       | None => []
       end)
      (lit "Implement") in
  let phrasings := push phrasings
    (mainAction ++ lit " a solution that " ++ extractCoreRequirement prompt) in
  let phrasings := push phrasings
    (lit "Design and implement " ++ extractCoreRequirement prompt) in
  let phrasings := push phrasings
    (lit "Build a system to " ++ extractCoreRequirement prompt) in
  firstn 3 phrasings.

(** [if (b) { xs.push(x); xs.push(y) }] *)
Definition push2_if (X : Type) (b : bool) (x y : X) (xs : list X) : list X :=
  if b then push (push xs x) y else xs.

Definition identifyEdgeCases (prompt : jsstring) : list jsstring :=
  let edgeCases := [] in
  let edgeCases := push2_if (test_sub (alts "user|login|auth") prompt)
    (lit "What happens when user is not authenticated?")
    (lit "How to handle expired sessions?") edgeCases in
  let edgeCases := push2_if (test_sub (alts "api|endpoint|request") prompt)
    (lit "How to handle network failures or timeouts?")
    (lit "What validation is needed for input data?") edgeCases in
  let edgeCases := push2_if (test_sub (alts "form|input|data") prompt)
    (lit "How to handle invalid or malformed input?")
    (lit "What happens with empty or missing fields?") edgeCases in
  let edgeCases := push2_if (List.length edgeCases =? 0)%nat
    (lit "Consider error states and failure scenarios")
    (lit "Think about boundary conditions and limits") edgeCases in
  edgeCases.

Record Examples := { ex_good : list jsstring; ex_bad : list jsstring }.

Definition generateImplementationExamples (_prompt : jsstring) : Examples :=
  {| ex_good :=
       [ lit "Clear, specific requirements with measurable outcomes";
         lit "Includes context about why this is needed";
         lit "Specifies technical constraints and success criteria" ];
     ex_bad :=
       [ lit "Vague requirements without context";
         lit "No success criteria or expected output";
         lit "Missing technical constraints and user perspective" ] |}.

Record Structure := { structure : jsstring; benefits : jsstring }.

Definition suggestAlternativeStructures (_prompt : jsstring) : list Structure :=
  [ {| structure := lit "User Story Format: As a [user], I want [goal] so that [benefit]";
       benefits := lit "Focuses on user needs and value delivery" |};
    {| structure := lit "Job Story Format: When [situation], I want to [motivation], so I can [expected outcome]";
       benefits := lit "Emphasizes context and outcomes over personas" |};
    {| structure := lit "COSTAR Format: Context, Objective, Style, Tone, Audience, Response";
       benefits := lit "Comprehensive framework covering all critical aspects" |} ].

Definition identifyPotentialIssues (prompt : jsstring) : list jsstring :=
  let issues := [] in
  let issues := push_if (List.length prompt <? 30)%nat
    (lit "Prompt may be too vague - could be interpreted in multiple ways") issues in
  let issues := push_unless (hasSuccessCriteria prompt)
    (lit "Without success criteria, it will be hard to know when the task is complete")
    issues in
  let issues := push_unless (hasTechnicalDetails prompt)
    (lit "Missing technical details may lead to incorrect technology choices") issues in
  let issues := push_unless (hasUserNeeds prompt)
    (lit "Without user perspective, solution may not meet actual needs") issues in
  issues.

(* ----------------------------------------------------------------- *)
(** *** [improve] *)

Record ImprovedPrompt := {
  ip_original : jsstring;
  ip_analysis : PromptAnalysis;
  ip_improved : jsstring;
  ip_changesSummary : option ChangesSummary;
  triageResult : option TriageResult;
  qualityAssessment : option QualityAssessment;
  alternativePhrasings : option (list jsstring);
  edgeCases : option (list jsstring);
  implementationExamples : option Examples;
  alternativeStructures : option (list Structure);
  potentialIssues : option (list jsstring) }.

Definition improve (prompt : jsstring) (mode : OptimizerMode) : ImprovedPrompt :=
  let analysis := analyze prompt in
  let improved := generateImprovedPrompt prompt analysis in
  let changesSummary := generateChangesSummary prompt improved in
  let triageResult :=
    match mode with fast => Some (performTriage prompt None) | deep => None end in
  let qualityAssessment := assessQuality prompt in
  let deep_only (X : Type) (x : X) : option X :=
    match mode with deep => Some x | fast => None end in
  {| ip_original := prompt;
     ip_analysis := analysis;
     ip_improved := improved;
     ip_changesSummary := Some changesSummary;
     triageResult := triageResult;
     qualityAssessment := Some qualityAssessment;
     alternativePhrasings := deep_only _ (generateAlternativePhrasings prompt);
     edgeCases := deep_only _ (identifyEdgeCases prompt);
     implementationExamples := deep_only _ (generateImplementationExamples prompt);
     alternativeStructures := deep_only _ (suggestAlternativeStructures prompt);
     potentialIssues := deep_only _ (identifyPotentialIssues prompt) |}.

(* ----------------------------------------------------------------- *)
(** *** Mapping a COSTAR result to the legacy analysis *)

Definition extractCOSTARStrengths (costarResult : COSTARResult) : list jsstring :=
  let an := analysis costarResult in
  let strengths := [] in
  let strengths := push_if (ge (c_score (context an)) (num 80))
    (lit "[C] Rich context with background and constraints") strengths in
  let strengths := push_if (ge (o_score (objective an)) (num 80))
    (lit "[O] Clear, measurable objective") strengths in
  let strengths := push_if (ge (s_score (style an)) (num 80))
    (lit "[S] Well-defined format and structure") strengths in
  let strengths := push_if
    (match tone an with Some t => ge (t_score t) (num 80) | None => false end)
    (lit "[T] Appropriate tone and voice specified") strengths in
  let strengths := push_if
    (match audience an with Some a => ge (a_score a) (num 80) | None => false end)
    (lit "[A] Clear audience definition and skill level") strengths in
  let strengths := push_if
    (match response an with Some r => ge (r_score r) (num 80) | None => false end)
    (lit "[R] Clear deliverables and response format") strengths in
  if (List.length strengths =? 0)%nat
  then push strengths (lit "Prompt has been structured with COSTAR framework")
  else strengths.

Definition mapCOSTARToLegacy (costarResult : COSTARResult) : PromptAnalysis :=
  let an := analysis costarResult in
  {| gaps := c_issues (context an) ++ o_issues (objective an);
     ambiguities := s_issues (style an);
     strengths := extractCOSTARStrengths costarResult;
     suggestions :=
       c_suggestions (context an) ++ o_suggestions (objective an)
       ++ s_suggestions (style an) |}.

(** The tests and messages of the legacy changes summary, in the order
    of the source. *)
Definition legacy_change_flags (original : jsstring) : list bool :=
  [ negb (hasContext original); negb (hasTechnicalDetails original);
    negb (hasSuccessCriteria original); negb (hasExpectedOutput original);
    (List.length original <? 100)%nat ].

Definition legacy_change_texts : list jsstring :=
  [ lit "Added clear objective and context";
    lit "Added technical constraints and requirements";
    lit "Defined measurable success criteria";
    lit "Specified expected deliverables";
    lit "Expanded prompt with structured sections" ].

Definition changes_of (r : ImprovedPrompt) : list jsstring :=
  match ip_changesSummary r with Some c => changes c | None => [] end.

(** Equality of strings, and membership of a text in a list of texts. *)
Fixpoint jsstring_eqb (a b : jsstring) : bool :=
  match a, b with
  | [], [] => true
  | x :: a', y :: b' => (x =? y)%N && jsstring_eqb a' b'
  | _, _ => false
  end.

Definition has_text (text : jsstring) (texts : list jsstring) : bool :=
  existsb (jsstring_eqb text) texts.

Definition is_nil (X : Type) (xs : list X) : bool :=
  match xs with [] => true | _ => false end.

(** At least two of three. *)
Definition two_of (x y z : bool) : bool := (x && y) || (x && z) || (y && z).

(** The strengths texts of [extractCOSTARStrengths]. *)
Definition strength_C : jsstring := lit "[C] Rich context with background and constraints".
Definition strength_O : jsstring := lit "[O] Clear, measurable objective".
Definition strength_S : jsstring := lit "[S] Well-defined format and structure".
Definition strength_R : jsstring := lit "[R] Clear deliverables and response format".

(** Every text of the list starts with the tag. *)
Definition all_tagged (tag : string) (texts : list jsstring) : bool :=
  forallb (starts_with (lit tag)) texts.

(* ----------------------------------------------------------------- *)
(** *** Exact arithmetic of the aggregator *)

(** Equality of two numbers as binary64 data. *)
Definition num_eqb (x y : number) : bool :=
  match x, y with
  | S754_zero a, S754_zero b => Bool.eqb a b
  | S754_infinity a, S754_infinity b => Bool.eqb a b
  | S754_nan, S754_nan => true
  | S754_finite a m e, S754_finite b n f => Bool.eqb a b && (m =? n)%positive && (e =? f)%Z
  | _, _ => false
  end.

(** The number [k / 4], which binary64 holds exactly. *)
Definition quarters (k : Z) : number := binary_normalize prec emax k (-2) false.

(** The integers from 0 to [n]. *)
Definition upto (n : nat) : list Z := List.map Z.of_nat (seq 0 (S n)).

(** The integer a score stands for. *)
Definition points (x : number) : Z :=
  match to_Z x with Some z => z | None => 0%Z end.

Definition tone_scores : list Z := [0; 25; 50; 75; 100]%Z.
Definition audience_scores : list Z := [0; 35; 40; 65; 100]%Z.
Definition response_scores : list Z := [0; 20; 40; 60; 80; 100]%Z.

(** A product [score * weight] is the exact number of quarters [q score]. *)
Definition product_table (scores : list Z) (weight : number) (q : Z -> Z) : bool :=
  forallb (fun z => num_eqb (mul (num z) weight) (quarters (q z))) scores.

(** Adding the quarters of a next score to a running sum of at most
    [bound] quarters is exact. *)
Definition sum_table (bound : nat) (scores : list Z) (q : Z -> Z) : bool :=
  forallb (fun i => forallb (fun z =>
    num_eqb (add (quarters i) (quarters (q z))) (quarters (i + q z))) scores) (upto bound).

(** Rounding and rating a number of quarters. *)
Definition final_table : bool :=
  forallb (fun k =>
    num_eqb (Math_round (quarters k)) (num (round_half_up (25 * k)))
    && rating_eqb (rating_of (quarters k)) (band (25 * k))) (upto 400).

(** Quarters of a score under the weights 0.2 and 0.15. *)
Definition q20 (z : Z) : Z := (4 * z / 5)%Z.
Definition q15 (z : Z) : Z := (3 * z / 5)%Z.

(** A matcher is blind to case when its success depends on the text only up to
    ASCII case and on the character before it only through its word class. *)
Definition blind (X : Type) (here : prev_char -> jsstring -> option X) : Prop :=
  forall prev prev' s s',
    word_side prev = word_side prev' -> ci_eq s s' ->
    is_some (here prev s) = is_some (here prev' s').

(** The record [findAmbiguities] pushes for a vague term. *)
Definition vague_text (term : string) : jsstring :=
  lit "Vague term: " ++ [QUOTE] ++ lit term ++ [QUOTE] ++ lit " - be more specific".

(** No full stop in the text. *)
Definition no_dot (s : jsstring) : bool := forallb (fun c => negb (c =? DOT)%N) s.

(** The last character of an alternative is not white space. *)
Definition solid (w : jsstring) : bool :=
  match rev w with
  | x :: _ => negb (is_space x)
  | [] => false
  end.

(* ----------------------------------------------------------------- *)
(** *** Exceptions on the path of the full analysis *)

(** What running a method gives: the value it returns, or an exception.
    On the path of [applyCOSTARFramework] the prompt is a string, and the
    tests and matches of regular expressions, the methods of strings and
    arrays and the arithmetic on numbers do not throw. What throws is
    reading a property of [null] or [undefined] (a TypeError): a group of
    a match that failed, a field of an optional analysis that was not
    supplied. *)
Inductive outcome (X : Type) : Type :=
| Returned (x : X)
| Thrown.

Arguments Thrown {X}.

Definition bind (X Y : Type) (a : outcome X) (f : X -> outcome Y) : outcome Y :=
  match a with
  | Returned x => f x
  | Thrown => Thrown
  end.

Notation "x <- a ;; b" := (bind a (fun x => b))
  (at level 100, a at next level, right associativity).

(** [o.field] and [o[i]], where [o] may be [null] or [undefined]. *)
Definition read (T X : Type) (o : option T) (field : T -> X) : outcome X :=
  match o with
  | Some t => Returned (field t)
  | None => Thrown
  end.

(** The methods of the path that read such properties, with every read
    written out where the source has it; the other methods of the path
    are the ones above. *)
Module Checked.

Definition extractOrInferContext (prompt : jsstring) : outcome jsstring :=
  let contextMatch :=
    match_labelled (alts "background|context|currently|given|situation") prompt in
  if is_some contextMatch then read contextMatch (fun group2 => group2)
  else if hasTechnicalDetails prompt then
    Returned (lit "Working in a development environment with "
              ++ extractOrInferTechnical prompt)
  else Returned (lit "Development project requiring implementation of new functionality").

Definition extractOrInferObjective (prompt : jsstring) : outcome jsstring :=
  let actionMatch := match_action action_verbs prompt in
  if is_some actionMatch then
    group1 <- read actionMatch fst ;;
    group2 <- read actionMatch snd ;;
    Returned (group1 ++ lit " " ++ group2)
  else
    let objectiveMatch := match_labelled (alts "objective|goal|purpose") prompt in
    if is_some objectiveMatch then read objectiveMatch (fun group2 => group2)
    else Returned (or_else (hd [] (split_lines prompt)) (substring0 100 prompt)).

Definition context_section (original : jsstring) (an : Analysis) : outcome jsstring :=
  let improved := lit "## CONTEXT" ++ nl ++ nl in
  improved <-
    (if negb (hasBackground (context an)) then
       inferred <- extractOrInferContext original ;;
       Returned (improved ++ lit "Background: " ++ inferred ++ nl ++ nl)
     else
       inferred <- extractOrInferContext original ;;
       Returned (improved ++ inferred ++ nl ++ nl)) ;;
  if negb (hasConstraints (context an)) && hasTechnicalDetails original then
    Returned (improved ++ lit "Constraints: " ++ extractOrInferTechnical original ++ nl ++ nl)
  else Returned improved.

Definition objective_section (original : jsstring) : outcome jsstring :=
  inferred <- extractOrInferObjective original ;;
  Returned (lit "## OBJECTIVE" ++ nl ++ nl ++ inferred ++ nl ++ nl).

Definition tone_section (original : jsstring) (an : Analysis) : outcome jsstring :=
  if is_some (tone an) then
    specified <- read (tone an) toneSpecified ;;
    Returned
      (lit "## TONE" ++ nl ++ nl ++
       (if negb specified then
          lit "Use a professional, technical tone appropriate for developers" ++ nl ++ nl
        else extractToneGuidance original ++ nl ++ nl))
  else Returned [].

Definition audience_section (original : jsstring) (an : Analysis) : outcome jsstring :=
  if is_some (audience an) then
    specified <- read (audience an) audienceSpecified ;;
    Returned
      (lit "## AUDIENCE" ++ nl ++ nl ++
       (if negb specified then
          lit "Target audience: Senior developers with expertise in the relevant technology stack"
            ++ nl ++ nl
        else extractAudienceDefinition original ++ nl ++ nl))
  else Returned [].

Definition response_section (original : jsstring) (an : Analysis) : outcome jsstring :=
  if is_some (response an) then
    specified <- read (response an) deliverablesSpecified ;;
    Returned
      (lit "## RESPONSE" ++ nl ++ nl ++
       lit "Expected deliverables:" ++ nl ++
       (if negb specified then
          lit "- Complete implementation" ++ nl ++
          lit "- Documentation" ++ nl ++
          lit "- Test coverage" ++ nl ++ nl
        else extractDeliverables original ++ nl ++ nl))
  else Returned [].

Definition generateCOSTARImprovedPrompt (original : jsstring) (an : Analysis)
  : outcome jsstring :=
  c <- context_section original an ;;
  o <- objective_section original ;;
  t <- tone_section original an ;;
  a <- audience_section original an ;;
  r <- response_section original an ;;
  Returned (trim (c ++ o ++ style_section an ++ t ++ a ++ r ++ requirements_section original)).

(** [o && !o.flag] *)
Definition present_without (X : Type) (o : option X) (flag : X -> bool) : outcome bool :=
  if is_some o then
    value <- read o flag ;;
    Returned (negb value)
  else Returned false.

Definition recorded_gaps (an : Analysis) : outcome (list Change) :=
  let changes := [] in
  let changes := push_unless (hasBackground (context an))
    (mk tag_C "Added background context and situational details") changes in
  let changes := push_unless (hasConstraints (context an))
    (mk tag_C "Specified constraints and requirements") changes in
  let changes := push_unless (goalClarity (objective an))
    (mk tag_O "Clarified objective with clear goal statement") changes in
  let changes := push_unless (measurable (objective an))
    (mk tag_O "Made objective measurable with success criteria") changes in
  let changes := push_unless (formatSpecified (style an))
    (mk tag_S "Specified output format and presentation style") changes in
  let changes := push_unless (structureDefined (style an))
    (mk tag_S "Defined structure and organization approach") changes in
  no_tone <- present_without (tone an) toneSpecified ;;
  let changes := push_if no_tone
    (mk tag_T "Added tone guidance for appropriate communication style") changes in
  no_audience <- present_without (audience an) audienceSpecified ;;
  let changes := push_if no_audience
    (mk tag_A "Defined target audience and skill level") changes in
  no_format <- present_without (response an) outputFormatClear ;;
  let changes := push_if no_format
    (mk tag_R "Specified expected deliverables and response format") changes in
  Returned changes.

Definition generateCOSTARChangesSummary (original _improved : jsstring) (an : Analysis)
  : outcome (list Change) :=
  changes <- recorded_gaps an ;;
  Returned (if (List.length changes =? 0)%nat then push changes fallback_change else changes).

Definition weighted (analysis : Analysis) : outcome number :=
  if is_some (tone analysis) && is_some (audience analysis) && is_some (response analysis)
  then
    t <- read (tone analysis) t_score ;;
    a <- read (audience analysis) a_score ;;
    r <- read (response analysis) r_score ;;
    Returned
      (add (add (add (add (add
         (mul (c_score (context analysis)) w_02)
         (mul (o_score (objective analysis)) w_02))
         (mul (s_score (style analysis)) w_015))
         (mul t w_015))
         (mul a w_015))
         (mul r w_015))
  else
    Returned
      (add (add
         (mul (c_score (context analysis)) w_035)
         (mul (o_score (objective analysis)) w_035))
         (mul (s_score (style analysis)) w_03)).

(** [tone?.score] is an optional read: it gives [undefined] and does not
    throw. *)
Definition calculateCOSTARScore (analysis : Analysis) : outcome COSTARScore :=
  sum <- weighted analysis ;;
  let rating := rating_of sum in
  Returned
    {| overall := Math_round sum;
       sc_context := c_score (context analysis);
       sc_objective := o_score (objective analysis);
       sc_style := s_score (style analysis);
       sc_tone := option_map t_score (tone analysis);
       sc_audience := option_map a_score (audience analysis);
       sc_response := option_map r_score (response analysis);
       rating := rating |}.

Definition applyCOSTARFramework (prompt : jsstring) (mode : OptimizerMode)
  : outcome COSTARResult :=
  let context := analyzeContext prompt in
  let objective := analyzeObjective prompt in
  let style := analyzeStyle prompt in
  let tone := match mode with deep => Some (analyzeTone prompt) | fast => None end in
  let audience := match mode with deep => Some (analyzeAudience prompt) | fast => None end in
  let response := match mode with deep => Some (analyzeResponse prompt) | fast => None end in
  let an := {| context := context; objective := objective; style := style;
               tone := tone; audience := audience; response := response |} in
  improvedPrompt <- generateCOSTARImprovedPrompt prompt an ;;
  changesSummary <- generateCOSTARChangesSummary prompt improvedPrompt an ;;
  score <- calculateCOSTARScore an ;;
  let overallScore := overall score in
  Returned
    {| analysis := an;
       overallScore := overallScore;
       improvedPrompt := improvedPrompt;
       changesSummary := changesSummary |}.

End Checked.

(** The signals of a component whose absence is reported as an issue, for
    the components of an analysis in COSTAR order (the flags tested before
    each [issues.push]). *)
Definition signals (an : Analysis) : list (list bool) :=
  [ [hasBackground (context an); hasConstraints (context an)];
    [goalClarity (objective an); measurable (objective an); achievable (objective an)];
    [formatSpecified (style an); structureDefined (style an)] ]
  ++ match tone an with Some t => [[toneSpecified t]] | None => [] end
  ++ match audience an with Some a => [[audienceSpecified a]] | None => [] end
  ++ match response an with
     | Some r => [[outputFormatClear r; deliverablesSpecified r]]
     | None => []
     end.

(** How many signals of a component are absent. *)
Definition missing (flags : list bool) : nat := count_true (List.map negb flags).

(** The score from which a component reports no issue. *)
Definition issue_free_from (mode : OptimizerMode) : list Z :=
  match mode with
  | fast => [80; 80; 80]%Z
  | deep => [80; 80; 80; 50; 40; 80]%Z
  end.

(** Which scores reach their threshold. *)
Definition reached (scores : list number) (thresholds : list Z) : list bool :=
  List.map (fun st => ge (fst st) (num (snd st))) (combine scores thresholds).

(* ================================================================= *)
(** * Properties *)

(** ** Numbers *)

Lemma weights_are_the_nearest_doubles :
  w_035 = S754_finite false 6305039478318694 (-54)
  /\ w_03 = S754_finite false 5404319552844595 (-54)
  /\ w_02 = S754_finite false 7205759403792794 (-55)
  /\ w_015 = S754_finite false 5404319552844595 (-55).
Proof. repeat split; vm_compute; reflexivity. Qed.

Lemma in_percents (z : Z) : (0 <= z <= 100)%Z -> In z percents.
Proof.
  intros H. unfold percents.
  replace z with (Z.of_nat (Z.to_nat z)) by lia.
  apply in_map, in_seq. lia.
Qed.

(** On integer percentages the floating-point comparisons of the triage
    are the integer ones. *)
Lemma lt_threshold_exact (z : Z) :
  (0 <= z <= 100)%Z ->
  lt (num z) (num 60) = (z <? 60)%Z /\ lt (num z) (num 50) = (z <? 50)%Z.
Proof.
  intros H.
  assert (A : forallb (fun z =>
            Bool.eqb (lt (num z) (num 60)) (z <? 60)%Z
            && Bool.eqb (lt (num z) (num 50)) (z <? 50)%Z) percents = true)
    by (vm_compute; reflexivity).
  rewrite forallb_forall in A.
  specialize (A z (in_percents H)).
  apply andb_prop in A as [A1 A2].
  split; apply eqb_prop; assumption.
Qed.

(** ** Score aggregator *)

(** The scenario of the test suite: 50, 80, 40 in fast mode. *)
Lemma score_scenario_58 :
  let sc := calculateCOSTARScore (fast_record 50 80 40) in
  weighted (fast_record 50 80 40) = decimal 115 2
  /\ overall sc = num 58 /\ rating sc = needs_improvement.
Proof. repeat split; vm_compute; reflexivity. Qed.

(** On every combination of scores the three core analyzers can return,
    the binary64 computation of fast mode is exact: the returned overall
    is the weighted sum rounded half up, and the rating is the band of
    the sum before rounding. *)
Lemma fast_table_holds : fast_table = true.
Proof. vm_compute. reflexivity. Qed.

Lemma fast_scores_exact (c o s : Z) :
  In c context_scores -> In o objective_scores -> In s style_scores ->
  agrees (fast_record c o s) (35 * c + 35 * o + 30 * s)%Z = true.
Proof.
  intros Hc Ho Hs.
  pose proof (proj1 (forallb_forall _ _) fast_table_holds c Hc) as T. cbv beta in T.
  pose proof (proj1 (forallb_forall _ _) T o Ho) as T'. cbv beta in T'.
  exact (proj1 (forallb_forall _ _) T' s Hs).
Qed.

(** C1 (code at the failing input). A prompt analysed to Context 70,
    Objective 100, Style 0 has the weighted sum 59.5: the returned
    [overall] is 60, yet the rating, read off the sum before it is
    rounded, is needs-improvement and not good. *)
Theorem rating_taken_before_rounding :
  let r := applyCOSTARFramework (lit "Currently the goal is a node login fix") fast in
  let sc := calculateCOSTARScore (analysis r) in
  sc_context sc = num 70 /\ sc_objective sc = num 100 /\ sc_style sc = num 0
  /\ weighted (analysis r) = decimal 119 2
  /\ overall sc = num 60
  /\ rating sc = needs_improvement
  /\ rating_of (overall sc) = good.
Proof. repeat split; vm_compute; reflexivity. Qed.

(** C9. When some but not all of tone, audience and response are
    supplied, the overall and the rating are those of the fast-mode
    weights over Context, Objective and Style, the same as if no optional
    component had been supplied, while the supplied scores are still
    copied into the optional fields of the result. *)
Theorem partial_components_scored_as_fast (an : Analysis) :
  some_present an = true ->
  all_present an = false ->
  overall (calculateCOSTARScore an)
    = Math_round (add (add (mul (c_score (context an)) w_035)
                           (mul (o_score (objective an)) w_035))
                      (mul (s_score (style an)) w_03))
  /\ rating (calculateCOSTARScore an)
    = rating_of (add (add (mul (c_score (context an)) w_035)
                          (mul (o_score (objective an)) w_035))
                     (mul (s_score (style an)) w_03))
  /\ overall (calculateCOSTARScore an) = overall (calculateCOSTARScore (core_only an))
  /\ rating (calculateCOSTARScore an) = rating (calculateCOSTARScore (core_only an))
  /\ sc_tone (calculateCOSTARScore an) = option_map t_score (tone an)
  /\ sc_audience (calculateCOSTARScore an) = option_map a_score (audience an)
  /\ sc_response (calculateCOSTARScore an) = option_map r_score (response an).
Proof.
  intros _ H.
  assert (W : weighted an = weighted (core_only an)).
  { unfold all_present in H. unfold weighted.
    destruct (tone an), (audience an), (response an); simpl in *;
      try reflexivity; discriminate. }
  unfold calculateCOSTARScore; simpl. rewrite W.
  repeat split; reflexivity.
Qed.

Lemma partial_components_scored_as_fast_witness :
  some_present tone_only = true
  /\ all_present tone_only = false
  /\ overall (calculateCOSTARScore tone_only) = num 58
  /\ sc_tone (calculateCOSTARScore tone_only) = Some (num 100).
Proof.
  split; [reflexivity | split; [reflexivity | ]].
  destruct (@partial_components_scored_as_fast tone_only eq_refl eq_refl)
    as (Ho & _ & _ & _ & Ht & _).
  split.
  - rewrite Ho. vm_compute. reflexivity.
  - rewrite Ht. reflexivity.
Defined.

(** ** Triage advisor *)

Lemma nonempty_iff_positive (X : Type) (xs : list X) :
  (0 <? List.length xs)%nat = true <-> xs <> [].
Proof.
  destruct xs; simpl; split; intros H; try discriminate; try reflexivity.
  contradiction H; reflexivity.
Qed.

(** C2. With an analysis supplied, deep analysis is recommended exactly
    when Context < 60, Objective < 60 or Style < 50; each failing
    threshold contributes its one reason, in that order, so the
    recommendation holds exactly when the list of reasons is not empty. *)
Theorem triage_by_scores (prompt : jsstring) (r : COSTARResult) :
  let low_c := lt (c_score (context (analysis r))) (num 60) in
  let low_o := lt (o_score (objective (analysis r))) (num 60) in
  let low_s := lt (s_score (style (analysis r))) (num 50) in
  let t := performTriage prompt (Some r) in
  needsDeepAnalysis t = low_c || low_o || low_s
  /\ reasons t = when low_c reason_context ++ when low_o reason_objective
                 ++ when low_s reason_style
  /\ (needsDeepAnalysis t = true <-> reasons t <> []).
Proof.
  cbv zeta. unfold performTriage. cbn [needsDeepAnalysis reasons].
  split; [| split; [| apply nonempty_iff_positive]].
  - destruct (lt (c_score _) _), (lt (o_score _) _), (lt (s_score _) _); reflexivity.
  - destruct (lt (c_score _) _), (lt (o_score _) _), (lt (s_score _) _); reflexivity.
Qed.

(** C10. With an analysis supplied, the triage does not depend on the
    prompt text: two prompts with the same analysis get the same result,
    and so do any two calls whose analyses have the same Context,
    Objective and Style scores, the only things the score-based path
    reads. *)
Theorem triage_ignores_prompt_given_analysis :
  (forall (P1 P2 : jsstring) (A : COSTARResult),
      performTriage P1 (Some A) = performTriage P2 (Some A))
  /\ (forall (P1 P2 : jsstring) (A1 A2 : COSTARResult),
        c_score (context (analysis A1)) = c_score (context (analysis A2)) ->
        o_score (objective (analysis A1)) = o_score (objective (analysis A2)) ->
        s_score (style (analysis A1)) = s_score (style (analysis A2)) ->
        performTriage P1 (Some A1) = performTriage P2 (Some A2)).
Proof.
  split.
  - intros P1 P2 A. reflexivity.
  - intros P1 P2 A1 A2 Hc Ho Hs.
    unfold performTriage. rewrite Hc, Ho, Hs. reflexivity.
Qed.

Lemma triage_ignores_prompt_given_analysis_witness :
  performTriage (lit "fix the login bug")
    (Some (applyCOSTARFramework (lit "fix the login bug") fast))
  = performTriage []
    (Some (applyCOSTARFramework (lit "fix the login bug") fast))
  /\ performTriage (lit "fix the login bug")
       (Some (applyCOSTARFramework (lit "fix the login bug") fast))
     = performTriage (lit "fix the login bug")
       (Some (applyCOSTARFramework (lit "fix the login bug") deep)).
Proof.
  split.
  - apply (proj1 triage_ignores_prompt_given_analysis).
  - apply (proj2 triage_ignores_prompt_given_analysis); reflexivity.
Defined.

Lemma countMissingCriticalElements_counts (prompt : jsstring) :
  countMissingCriticalElements prompt = count_true (critical_missing prompt).
Proof.
  unfold countMissingCriticalElements, critical_missing, count_true.
  destruct (hasContext prompt), (hasTechnicalDetails prompt),
    (hasSuccessCriteria prompt), (hasUserNeeds prompt), (hasExpectedOutput prompt);
    reflexivity.
Qed.

(** C3 (as stated, refuted). A prompt of 23 code units, 13 after
    trimming, with only two critical elements missing: neither condition
    of the claim holds, yet deep analysis is recommended. *)
Lemma raw_length_is_not_the_test :
  let p := lit "api user goal          " in
  ((List.length p <? 20)%nat || (3 <=? count_true (critical_missing p))%nat) = false
  /\ needsDeepAnalysis (performTriage p None) = true.
Proof. split; vm_compute; reflexivity. Qed.

(** C3 (amended). Without an analysis, deep analysis is recommended
    exactly when the trimmed prompt is shorter than 20 code units or at
    least 3 of the five critical elements are missing; each condition
    that holds contributes its one reason. *)
Theorem triage_fallback (prompt : jsstring) :
  let short := (List.length (trim prompt) <? 20)%nat in
  let n := count_true (critical_missing prompt) in
  let t := performTriage prompt None in
  needsDeepAnalysis t = short || (3 <=? n)%nat
  /\ reasons t = when short reason_short ++ when (3 <=? n)%nat (reason_missing n)
  /\ (needsDeepAnalysis t = true <-> reasons t <> []).
Proof.
  cbv zeta. unfold performTriage. cbn [needsDeepAnalysis reasons].
  rewrite countMissingCriticalElements_counts.
  split; [| split; [| apply nonempty_iff_positive]].
  - destruct (List.length (trim prompt) <? 20)%nat,
      (3 <=? count_true (critical_missing prompt))%nat; reflexivity.
  - destruct (List.length (trim prompt) <? 20)%nat,
      (3 <=? count_true (critical_missing prompt))%nat; reflexivity.
Qed.

(** ** Component scores *)

Lemma analyzer_scores_follow_flags (prompt : jsstring) :
  c_score (analyzeContext prompt)
    = context_score (hasBackground (analyzeContext prompt))
        (hasConstraints (analyzeContext prompt)) (hasTechnicalDetails prompt)
  /\ o_score (analyzeObjective prompt)
    = objective_score (goalClarity (analyzeObjective prompt))
        (measurable (analyzeObjective prompt)) (achievable (analyzeObjective prompt))
  /\ s_score (analyzeStyle prompt)
    = style_score (formatSpecified (analyzeStyle prompt))
        (structureDefined (analyzeStyle prompt)) (presentationClear (analyzeStyle prompt))
  /\ t_score (analyzeTone prompt)
    = tone_score (toneSpecified (analyzeTone prompt))
        (voiceConsistency (analyzeTone prompt)) (formalityLevel (analyzeTone prompt))
  /\ a_score (analyzeAudience prompt)
    = audience_score (audienceSpecified (analyzeAudience prompt))
        (skillLevelDefined (analyzeAudience prompt)) (needsAddressed (analyzeAudience prompt))
  /\ r_score (analyzeResponse prompt)
    = response_score (outputFormatClear (analyzeResponse prompt))
        (deliverablesSpecified (analyzeResponse prompt))
        (examplesProvided (analyzeResponse prompt)).
Proof.
  repeat match goal with |- _ /\ _ => split end.
  - cbv beta iota zeta delta
      [analyzeContext context_score c_score hasBackground hasConstraints]; reflexivity.
  - cbv beta iota zeta delta
      [analyzeObjective objective_score o_score goalClarity measurable achievable];
      reflexivity.
  - cbv beta iota zeta delta
      [analyzeStyle style_score s_score formatSpecified structureDefined presentationClear];
      reflexivity.
  - cbv beta iota zeta delta
      [analyzeTone tone_score t_score toneSpecified voiceConsistency formalityLevel];
      reflexivity.
  - cbv beta iota zeta delta
      [analyzeAudience audience_score a_score audienceSpecified skillLevelDefined
         needsAddressed]; reflexivity.
  - cbv beta iota zeta delta
      [analyzeResponse response_score r_score outputFormatClear deliverablesSpecified
         examplesProvided]; reflexivity.
Qed.

Ltac all_flags :=
  repeat match goal with
         | b : bool |- _ => destruct b
         | f : Formality |- _ => destruct f
         end.

Ltac in_list :=
  vm_compute; first [reflexivity | repeat first [left; reflexivity | right]].

(** Replaces every lexical test on [prompt] in the goal by a boolean. *)
Ltac abstract_tests prompt :=
  repeat match goal with
         | |- context [test_words ?w prompt] => generalize (test_words w prompt); intro
         | |- context [test_sub ?w prompt] => generalize (test_sub w prompt); intro
         | |- context [test_prefix_word ?w (trim prompt)] =>
             generalize (test_prefix_word w (trim prompt)); intro
         | |- context [test_whole ?w (trim prompt)] =>
             generalize (test_whole w (trim prompt)); intro
         | |- context [(List.length prompt <? ?n)%nat] =>
             generalize (List.length prompt <? n)%nat; intro
         end.

Ltac by_tests prompt := abstract_tests prompt; all_flags; in_list.

(** C6. For each of the six analyzers the score is a function of the
    flags it has set, and raising any one flag from false to true, the
    others held fixed, never lowers it. For Tone the third input is the
    formality level, held fixed while a boolean flag is raised. *)
Theorem raising_a_flag_never_lowers_the_score :
  (forall prompt,
      c_score (analyzeContext prompt)
      = context_score (hasBackground (analyzeContext prompt))
          (hasConstraints (analyzeContext prompt)) (hasTechnicalDetails prompt))
  /\ monotone3 context_score
  /\ (forall prompt,
      o_score (analyzeObjective prompt)
      = objective_score (goalClarity (analyzeObjective prompt))
          (measurable (analyzeObjective prompt)) (achievable (analyzeObjective prompt)))
  /\ monotone3 objective_score
  /\ (forall prompt,
      s_score (analyzeStyle prompt)
      = style_score (formatSpecified (analyzeStyle prompt))
          (structureDefined (analyzeStyle prompt)) (presentationClear (analyzeStyle prompt)))
  /\ monotone3 style_score
  /\ (forall prompt,
      t_score (analyzeTone prompt)
      = tone_score (toneSpecified (analyzeTone prompt))
          (voiceConsistency (analyzeTone prompt)) (formalityLevel (analyzeTone prompt)))
  /\ (forall (x : bool) (level : Formality),
        le (tone_score false x level) (tone_score true x level) = true
        /\ le (tone_score x false level) (tone_score x true level) = true)
  /\ (forall prompt,
      a_score (analyzeAudience prompt)
      = audience_score (audienceSpecified (analyzeAudience prompt))
          (skillLevelDefined (analyzeAudience prompt)) (needsAddressed (analyzeAudience prompt)))
  /\ monotone3 audience_score
  /\ (forall prompt,
      r_score (analyzeResponse prompt)
      = response_score (outputFormatClear (analyzeResponse prompt))
          (deliverablesSpecified (analyzeResponse prompt))
          (examplesProvided (analyzeResponse prompt)))
  /\ monotone3 response_score.
Proof.
  assert (F := analyzer_scores_follow_flags).
  split; [intros p; exact (proj1 (F p)) |].
  split; [intros x y; all_flags; repeat split; vm_compute; reflexivity |].
  split; [intros p; exact (proj1 (proj2 (F p))) |].
  split; [intros x y; all_flags; repeat split; vm_compute; reflexivity |].
  split; [intros p; exact (proj1 (proj2 (proj2 (F p)))) |].
  split; [intros x y; all_flags; repeat split; vm_compute; reflexivity |].
  split; [intros p; exact (proj1 (proj2 (proj2 (proj2 (F p))))) |].
  split; [intros x y; all_flags; repeat split; vm_compute; reflexivity |].
  split; [intros p; exact (proj1 (proj2 (proj2 (proj2 (proj2 (F p)))))) |].
  split; [intros x y; all_flags; repeat split; vm_compute; reflexivity |].
  split; [intros p; exact (proj2 (proj2 (proj2 (proj2 (proj2 (F p)))))) |].
  intros x y; all_flags; repeat split; vm_compute; reflexivity.
Qed.

(** ** Change recorder *)

Lemma push_unless_app (X : Type) (b : bool) (x : X) (xs : list X) :
  push_unless b x xs = xs ++ when (negb b) x.
Proof. destruct b; simpl; [rewrite app_nil_r|]; reflexivity. Qed.

Lemma push_if_app (X : Type) (b : bool) (x : X) (xs : list X) :
  push_if b x xs = xs ++ when b x.
Proof. destruct b; simpl; [|rewrite app_nil_r]; reflexivity. Qed.

Lemma select_cons (X : Type) (b : bool) (bs : list bool) (x : X) (xs : list X) :
  select (b :: bs) (x :: xs) = when b x ++ select bs xs.
Proof. destruct b; reflexivity. Qed.

(** The walk pushes, in order, the record of every flag that is a gap. *)
Lemma recorded_gaps_select (an : Analysis) :
  recorded_gaps an = select (gap_flags an) gap_changes.
Proof.
  unfold recorded_gaps, gap_flags, gap_changes.
  rewrite !select_cons, !push_if_app, !push_unless_app.
  rewrite <- !app_assoc. cbn [select app]. rewrite app_nil_r. reflexivity.
Qed.

Lemma select_length (X : Type) (bs : list bool) (xs : list X) :
  List.length bs = List.length xs ->
  List.length (select bs xs) = count_true bs.
Proof.
  revert xs; induction bs as [|b bs IH]; intros [|x xs] H; try discriminate; [reflexivity|].
  injection H as H. unfold count_true in *. destruct b; simpl; rewrite IH; auto.
Qed.

Lemma changes_summary_shape (original improved : jsstring) (an : Analysis) :
  generateCOSTARChangesSummary original improved an
  = if (count_true (gap_flags an) =? 0)%nat then [fallback_change]
    else select (gap_flags an) gap_changes.
Proof.
  unfold generateCOSTARChangesSummary. cbv zeta.
  rewrite recorded_gaps_select, select_length by reflexivity.
  destruct (count_true (gap_flags an) =? 0)%nat eqn:E; [| reflexivity].
  apply Nat.eqb_eq in E.
  assert (L : List.length (select (gap_flags an) gap_changes) = 0%nat)
    by (rewrite select_length; [exact E | reflexivity]).
  destruct (select (gap_flags an) gap_changes); [reflexivity | discriminate].
Qed.

(** C7 (as stated, refuted). In deep mode the prompt "return the result"
    has its deliverables missing and the synthesizer fills them with the
    three templated items, yet no record tagged R is emitted: the R
    record follows [outputFormatClear], which holds here. *)
Lemma filled_deliverables_leave_no_record :
  let r := applyCOSTARFramework (lit "return the result") deep in
  option_map deliverablesSpecified (response (analysis r)) = Some false
  /\ includes (lit "Expected deliverables:" ++ nl ++ lit "- Complete implementation" ++ nl
               ++ lit "- Documentation" ++ nl ++ lit "- Test coverage")
       (improvedPrompt r) = true
  /\ existsb is_tag_R (tags (changesSummary r)) = false.
Proof. repeat split; vm_compute; reflexivity. Qed.

(** C7 (amended). The list of change records is never empty. It holds,
    in walk order, one record for every flag that is a gap among
    hasBackground, hasConstraints, goalClarity, measurable,
    formatSpecified, structureDefined and, for the optional components
    that are present, toneSpecified, audienceSpecified and
    outputFormatClear; when none is a gap it is the single fallback
    record, tagged O. *)
Theorem change_records_never_empty (prompt : jsstring) (mode : OptimizerMode) :
  let r := applyCOSTARFramework prompt mode in
  let gaps := gap_flags (analysis r) in
  changesSummary r <> []
  /\ changesSummary r
     = (if (count_true gaps =? 0)%nat then [fallback_change] else select gaps gap_changes)
  /\ List.length (select gaps gap_changes) = count_true gaps
  /\ fallback_change
     = {| component := tag_O;
          change := lit "Structured the prompt with COSTAR framework sections" |}.
Proof.
  cbv zeta.
  set (r := applyCOSTARFramework prompt mode).
  assert (E : changesSummary r
              = generateCOSTARChangesSummary prompt (improvedPrompt r) (analysis r)).
  { subst r. cbv beta iota zeta delta
      [applyCOSTARFramework changesSummary improvedPrompt analysis]. reflexivity. }
  rewrite E, changes_summary_shape.
  assert (L : List.length (select (gap_flags (analysis r)) gap_changes)
              = count_true (gap_flags (analysis r)))
    by (apply select_length; reflexivity).
  repeat split; try exact L.
  destruct (count_true (gap_flags (analysis r)) =? 0)%nat eqn:Z; [discriminate |].
  apply Nat.eqb_neq in Z. intros N. rewrite N in L. symmetry in L. exact (Z L).
Qed.

(** ** Regular expressions *)

Lemma ci_eq_nil_l (w : jsstring) : ci_eq [] w -> w = [].
Proof. destruct w; [reflexivity | discriminate]. Qed.

Lemma match_lit_sound (w : jsstring) :
  forall prev s prev' r,
    match_lit w prev s = Some (prev', r) ->
    exists m, s = m ++ r /\ ci_eq m w /\ prev' = last_of prev m.
Proof.
  induction w as [|p w IH]; intros prev s prev' r H; simpl in H.
  - injection H as <- <-. exists []. repeat split.
  - destruct s as [|c s]; [discriminate |].
    destruct (canon c =? canon p)%N eqn:E; [| discriminate].
    apply N.eqb_eq in E.
    destruct (IH _ _ _ _ H) as (m & -> & Hm & ->).
    exists (c :: m). repeat split.
    unfold ci_eq in *. simpl. rewrite E, Hm. reflexivity.
Qed.

Lemma match_lit_complete (w : jsstring) :
  forall prev m r, ci_eq m w -> match_lit w prev (m ++ r) = Some (last_of prev m, r).
Proof.
  induction w as [|p w IH]; intros prev m r H.
  - destruct m; [reflexivity | discriminate].
  - destruct m as [|c m]; [discriminate |].
    unfold ci_eq in H. simpl in H. injection H as E Hm.
    simpl. rewrite E, N.eqb_refl. apply IH. exact Hm.
Qed.

Lemma first_alt_some (X Y : Type) (f : X -> option Y) (xs : list X) :
  is_some (first_alt f xs) = true <-> exists x, In x xs /\ is_some (f x) = true.
Proof.
  induction xs as [|x xs IH]; simpl.
  - split; [discriminate | intros (x & [] & _)].
  - destruct (f x) eqn:E.
    + split; [intros _; exists x; rewrite E; auto | reflexivity].
    + rewrite IH. split.
      * intros (y & Hy & Hf). exists y. auto.
      * intros (y & [<- | Hy] & Hf); [rewrite E in Hf; discriminate | exists y; auto].
Qed.

Lemma last_of_app (prev : prev_char) (a b : jsstring) :
  last_of prev (a ++ b) = last_of (last_of prev a) b.
Proof. unfold last_of. apply fold_left_app. Qed.

Lemma search_some (X : Type) (here : prev_char -> jsstring -> option X) (s : jsstring) :
  forall prev,
    is_some (search here prev s) = true
    <-> exists pre post, s = pre ++ post /\ is_some (here (last_of prev pre) post) = true.
Proof.
  induction s as [|c s IH]; intros prev; simpl.
  - destruct (here prev []) eqn:E.
    + split; [intros _; exists [], []; split; [reflexivity |]; simpl; rewrite E; reflexivity
             | reflexivity].
    + split; [discriminate |].
      intros (pre & post & H & Hh). symmetry in H. apply app_eq_nil in H as [-> ->].
      simpl in Hh. rewrite E in Hh. discriminate.
  - destruct (here prev (c :: s)) eqn:E.
    + split; [intros _; exists [], (c :: s); split; [reflexivity |]; simpl; rewrite E;
                reflexivity
             | reflexivity].
    + rewrite IH. split.
      * intros (pre & post & -> & Hh). exists (c :: pre), post. auto.
      * intros (pre & post & H & Hh). destruct pre as [|c' pre].
        -- simpl in *. subst post. rewrite E in Hh. discriminate.
        -- injection H as <- ->. exists pre, post. auto.
Qed.

Lemma alt_then_boundary_some (ws : list jsstring) (prev : prev_char) (s : jsstring) :
  is_some (alt_then_boundary ws prev s) = true <-> exists w, In w ws /\ word_at w prev s.
Proof.
  unfold alt_then_boundary. rewrite first_alt_some.
  split; intros (w & Hw & H); exists w; split; auto.
  - destruct (match_lit w prev s) as [[prev' r]|] eqn:E; [| discriminate].
    destruct (match_lit_sound _ _ _ E) as (m & -> & Hm & ->).
    exists m, r. repeat split; auto.
    destruct (at_boundary (last_of prev m) r); [reflexivity | discriminate].
  - destruct H as (m & r & -> & Hm & Hb).
    rewrite (match_lit_complete _ _ Hm), Hb. reflexivity.
Qed.

(** [/\b(w1|...|wn)\b/i.test(s)] holds exactly when one of the
    alternatives occurs in [s] as a word. *)
Lemma test_words_spec (ws : list jsstring) (s : jsstring) :
  test_words ws s = true <-> exists w, In w ws /\ occurs_as_word w s.
Proof.
  unfold test_words. rewrite search_some. split.
  - intros (pre & post & -> & H).
    destruct (at_boundary (last_of None pre) post) eqn:B; [| discriminate].
    apply alt_then_boundary_some in H as (w & Hw & H).
    exists w. split; auto. exists pre, post. auto.
  - intros (w & Hw & pre & post & -> & B & H).
    exists pre, post. split; auto. rewrite B.
    apply alt_then_boundary_some. exists w. auto.
Qed.

(** [/^(w1|...|wn)\b/i.test(s)] *)
Lemma test_prefix_word_spec (ws : list jsstring) (s : jsstring) :
  test_prefix_word ws s = true <-> exists w, In w ws /\ word_at w None s.
Proof. apply alt_then_boundary_some. Qed.

(** [/^(w1|...|wn)$/i.test(s)] *)
Lemma test_whole_spec (ws : list jsstring) (s : jsstring) :
  test_whole ws s = true <-> exists w, In w ws /\ ci_eq s w.
Proof.
  unfold test_whole. rewrite first_alt_some.
  split; intros (w & Hw & H); exists w; split; auto.
  - destruct (match_lit w None s) as [[prev' r]|] eqn:E; [| discriminate].
    destruct r; [| discriminate].
    destruct (match_lit_sound _ _ _ E) as (m & -> & Hm & _).
    rewrite app_nil_r. exact Hm.
  - rewrite <- (app_nil_r s), (match_lit_complete _ _ H). reflexivity.
Qed.

(** ** Objective analyzer *)

Lemma action_verbs_list :
  action_verbs
  = [lit "create"; lit "build"; lit "develop"; lit "implement"; lit "add";
     lit "update"; lit "fix"; lit "refactor"; lit "design"; lit "generate"].
Proof. vm_compute. reflexivity. Qed.

Lemma objective_keywords_list :
  alts "objective|goal|purpose|aim|want to|need to"
  = [lit "objective"; lit "goal"; lit "purpose"; lit "aim"; lit "want to"; lit "need to"].
Proof. vm_compute. reflexivity. Qed.

Lemma too_broad_list :
  too_broad
  = [lit "build an app"; lit "build a app"; lit "create a system";
     lit "make a platform"; lit "develop everything"].
Proof. vm_compute. reflexivity. Qed.

Lemma scope_words_list :
  alts "app|system|platform" = [lit "app"; lit "system"; lit "platform"].
Proof. vm_compute. reflexivity. Qed.

Lemma hasUnrealisticScope_spec (prompt : jsstring) :
  hasUnrealisticScope prompt = true <-> unrealistic prompt.
Proof.
  unfold hasUnrealisticScope, unrealistic. cbv zeta.
  rewrite orb_true_iff, andb_true_iff, Nat.ltb_lt, test_whole_spec, test_words_spec.
  rewrite too_broad_list, scope_words_list. reflexivity.
Qed.

Lemma goalClarity_spec (prompt : jsstring) :
  goalClarity (analyzeObjective prompt) = true <-> clear_goal prompt.
Proof.
  cbv beta iota zeta delta [analyzeObjective goalClarity]. unfold clear_goal.
  rewrite orb_true_iff, test_prefix_word_spec, test_words_spec.
  rewrite action_verbs_list, objective_keywords_list. reflexivity.
Qed.

(** C5. The Objective analyzer sets goalClarity exactly when the trimmed
    prompt starts with one of the ten action verbs as a word or the
    prompt has an objective keyword as a word; achievable exactly when
    the prompt is not flagged unrealistic (the trimmed prompt is one of
    the bare requests, in any case, or the prompt is shorter than 30 and
    names app, system or platform); and the score is
    40 goalClarity + 30 measurable + 30 achievable. *)
Theorem objective_analyzer (prompt : jsstring) :
  (goalClarity (analyzeObjective prompt) = true <-> clear_goal prompt)
  /\ (hasUnrealisticScope prompt = true <-> unrealistic prompt)
  /\ (achievable (analyzeObjective prompt) = true <-> ~ unrealistic prompt)
  /\ o_score (analyzeObjective prompt)
     = num (40 * b2z (goalClarity (analyzeObjective prompt))
            + 30 * b2z (measurable (analyzeObjective prompt))
            + 30 * b2z (achievable (analyzeObjective prompt))).
Proof.
  split; [apply goalClarity_spec |].
  split; [apply hasUnrealisticScope_spec |].
  split.
  - rewrite <- hasUnrealisticScope_spec.
    cbv beta iota zeta delta [analyzeObjective achievable].
    destruct (hasUnrealisticScope prompt); simpl; split; intros H;
      try discriminate; try reflexivity.
    contradiction H. reflexivity.
  - rewrite (proj1 (proj2 (analyzer_scores_follow_flags prompt))).
    destruct (goalClarity _), (measurable _), (achievable _); vm_compute; reflexivity.
Qed.

(** The spec's own example and two bare requests. *)
Lemma objective_examples :
  o_score (analyzeObjective (lit "fix the login bug")) = num 70
  /\ goalClarity (analyzeObjective (lit "  Build an App  ")) = true
  /\ achievable (analyzeObjective (lit "  Build an App  ")) = false
  /\ o_score (analyzeObjective (lit "  Build an App  ")) = num 40
  /\ goalClarity (analyzeObjective (lit "fixing things")) = false
  /\ achievable (analyzeObjective (lit "a dashboard for the whole platform team"))
     = true.
Proof. repeat split; vm_compute; reflexivity. Qed.

(** ** Lines and headings *)

Lemma split_lines_nonempty (s : jsstring) : split_lines s <> [].
Proof.
  induction s as [|c s IH]; simpl; [discriminate |].
  destruct (c =? LF)%N; [discriminate |].
  destruct (split_lines s); [contradiction IH; reflexivity | discriminate].
Qed.

(** Splitting at a line feed splits the list of lines. *)
Lemma split_lines_app_LF (a b : jsstring) :
  split_lines (a ++ LF :: b) = split_lines a ++ split_lines b.
Proof.
  induction a as [|c a IH]; simpl.
  - reflexivity.
  - destruct (c =? LF)%N; [rewrite IH; reflexivity |].
    rewrite IH.
    destruct (split_lines a) eqn:E; [exfalso; exact (split_lines_nonempty a E) |].
    reflexivity.
Qed.

Lemma heading_lines_app_LF (a b : jsstring) :
  heading_lines (a ++ LF :: b) = heading_lines a ++ heading_lines b.
Proof. unfold heading_lines. rewrite split_lines_app_LF. apply filter_app. Qed.

Lemma heading_lines_LF_cons (b : jsstring) : heading_lines (LF :: b) = heading_lines b.
Proof. exact (heading_lines_app_LF [] b). Qed.

Lemma no_hash_app (a b : jsstring) : no_hash (a ++ b) = no_hash a && no_hash b.
Proof. apply forallb_app. Qed.

Lemma no_hash_lines (s : jsstring) :
  no_hash s = true -> forallb no_hash (split_lines s) = true.
Proof.
  induction s as [|c s IH]; simpl; [reflexivity |].
  intros H. apply andb_prop in H as [Hc Hs]. specialize (IH Hs).
  destruct (c =? LF)%N; [simpl; exact IH |].
  destruct (split_lines s) as [|l ls]; simpl in *; [rewrite Hc; reflexivity |].
  apply andb_prop in IH as [Hl Hls]. rewrite Hc, Hl, Hls. reflexivity.
Qed.

(** A text without a hash sign has no heading line. *)
Lemma no_hash_no_heading (s : jsstring) : no_hash s = true -> heading_lines s = [].
Proof.
  intros H. apply no_hash_lines in H. unfold heading_lines.
  induction (split_lines s) as [|l ls IH]; simpl in *; [reflexivity |].
  apply andb_prop in H as [Hl Hls]. rewrite (IH Hls).
  destruct l as [|c l]; simpl in *; [reflexivity |].
  apply andb_prop in Hl as [Hc _]. destruct (c =? HASH)%N; [discriminate | reflexivity].
Qed.

(** A block [heading, line feed, body, line feed] contributes its
    heading and nothing else when the body has no hash sign. *)
Lemma heading_block (h body rest : jsstring) :
  heading_lines h = [h] ->
  no_hash body = true ->
  heading_lines ((h ++ LF :: body ++ [LF]) ++ rest) = h :: heading_lines rest.
Proof.
  intros Hh Hb.
  replace ((h ++ LF :: body ++ [LF]) ++ rest) with (h ++ LF :: (body ++ LF :: rest)).
  - rewrite !heading_lines_app_LF, Hh, (no_hash_no_heading _ Hb). reflexivity.
  - rewrite <- !app_assoc. simpl. rewrite <- !app_assoc. reflexivity.
Qed.

Lemma heading_block_flat (h body rest : jsstring) :
  heading_lines h = [h] ->
  heading_lines (h ++ LF :: body ++ LF :: rest)
  = h :: heading_lines body ++ heading_lines rest.
Proof. intros Hh. rewrite !heading_lines_app_LF, Hh. reflexivity. Qed.

(** Trailing white space is only taken from the end. *)
Lemma trimEnd_app (a b : jsstring) : trimEnd b <> [] -> trimEnd (a ++ b) = a ++ trimEnd b.
Proof.
  intros H. induction a as [|c a IH]; simpl; [reflexivity |].
  rewrite IH. destruct (a ++ trimEnd b) eqn:E; [| reflexivity].
  apply app_eq_nil in E as [_ E]. contradiction.
Qed.

Lemma trimEnd_nonspace_head (c : code_unit) (s : jsstring) :
  is_space c = false -> trimEnd (c :: s) = c :: trimEnd s.
Proof. intros H. simpl. rewrite H. destruct (trimEnd s); reflexivity. Qed.

Lemma no_hash_trimEnd (s : jsstring) : no_hash s = true -> no_hash (trimEnd s) = true.
Proof.
  induction s as [|c s IH]; simpl; [reflexivity |].
  intros H. apply andb_prop in H as [Hc Hs]. specialize (IH Hs).
  destruct (trimEnd s); [destruct (is_space c); simpl; [reflexivity | rewrite Hc; reflexivity] |].
  simpl in *. rewrite Hc. exact IH.
Qed.

(** ** What the synthesizer copies from the prompt has no hash sign
       when the prompt has none *)

Lemma no_hash_suffix (a b : jsstring) : no_hash (a ++ b) = true -> no_hash b = true.
Proof. rewrite no_hash_app. intros H. apply andb_prop in H. tauto. Qed.

Lemma no_hash_prefix (a b : jsstring) : no_hash (a ++ b) = true -> no_hash a = true.
Proof. rewrite no_hash_app. intros H. apply andb_prop in H. tauto. Qed.

Lemma no_hash_firstn (n : nat) (s : jsstring) : no_hash s = true -> no_hash (firstn n s) = true.
Proof. intros H. rewrite <- (firstn_skipn n s) in H. exact (no_hash_prefix _ _ H). Qed.

Lemma no_hash_take_while (p : code_unit -> bool) (s : jsstring) :
  no_hash s = true -> no_hash (take_while p s) = true.
Proof.
  induction s as [|c s IH]; simpl; [reflexivity |].
  intros H. apply andb_prop in H as [Hc Hs].
  destruct (p c); simpl; [rewrite Hc; auto | reflexivity].
Qed.

Lemma no_hash_spaces_then_run (cls : code_unit -> bool) (s g : jsstring) :
  spaces_then_run cls s = Some g -> no_hash s = true -> no_hash g = true.
Proof.
  revert g. induction s as [|c s IH]; intros g H Hs; [discriminate |].
  assert (Hs' : no_hash s = true) by (simpl in Hs; apply andb_prop in Hs; tauto).
  assert (T : no_hash (take_while cls (c :: s)) = true) by (apply no_hash_take_while; exact Hs).
  simpl spaces_then_run in H.
  destruct (is_space c).
  - destruct (spaces_then_run cls s) as [g'|].
    + injection H as <-. apply IH; auto.
    + destruct (cls c) eqn:Ec; [| discriminate]. injection H as <-.
      simpl in T. rewrite Ec in T. exact T.
  - destruct (cls c) eqn:Ec; [| discriminate]. injection H as <-.
    simpl in T. rewrite Ec in T. exact T.
Qed.

Lemma first_alt_inv (X Y : Type) (f : X -> option Y) (xs : list X) (y : Y) :
  first_alt f xs = Some y -> exists x, In x xs /\ f x = Some y.
Proof.
  induction xs as [|x xs IH]; simpl; [discriminate |].
  destruct (f x) eqn:E.
  - intros H. injection H as <-. exists x. auto.
  - intros H. destruct (IH H) as (x' & Hx & Hf). exists x'. auto.
Qed.

Lemma search_inv (X : Type) (here : prev_char -> jsstring -> option X) (s : jsstring) (x : X) :
  forall prev, search here prev s = Some x ->
  exists pre post prev', s = pre ++ post /\ here prev' post = Some x.
Proof.
  induction s as [|c s IH]; intros prev; simpl.
  - destruct (here prev []) eqn:E; [| discriminate].
    intros H. injection H as <-. exists [], [], prev. auto.
  - destruct (here prev (c :: s)) eqn:E.
    + intros H. injection H as <-. exists [], (c :: s), prev. auto.
    + intros H. destruct (IH _ H) as (pre & post & prev' & -> & Hh).
      exists (c :: pre), post, prev'. auto.
Qed.

Lemma no_hash_match_labelled (keys : list jsstring) (s g : jsstring) :
  match_labelled keys s = Some g -> no_hash s = true -> no_hash g = true.
Proof.
  unfold match_labelled. intros H Hs.
  apply search_inv in H as (pre & post & prev' & -> & H).
  apply first_alt_inv in H as (k & _ & H).
  destruct (match_lit (k ++ lit ":") prev' post) as [[p r]|] eqn:E; [| discriminate].
  destruct (match_lit_sound _ _ _ E) as (m & -> & _ & _).
  apply (no_hash_spaces_then_run _ _ H).
  apply no_hash_suffix in Hs. apply no_hash_suffix in Hs. exact Hs.
Qed.

Lemma no_hash_match_action (verbs : list jsstring) (s g1 g2 : jsstring) :
  match_action verbs s = Some (g1, g2) -> no_hash s = true ->
  no_hash g1 = true /\ no_hash g2 = true.
Proof.
  unfold match_action. intros H Hs.
  apply first_alt_inv in H as (v & _ & H).
  destruct (match_lit v None s) as [[p [|c r]]|] eqn:E; try discriminate.
  destruct (is_space c); [| discriminate].
  destruct (spaces_then_run dot r) as [g|] eqn:G; [| discriminate].
  injection H as <- <-.
  split; [apply no_hash_firstn; exact Hs |].
  destruct (match_lit_sound _ _ _ E) as (m & -> & _ & _).
  apply (no_hash_spaces_then_run _ _ G).
  apply no_hash_suffix in Hs. simpl in Hs. apply andb_prop in Hs. tauto.
Qed.

Lemma no_hash_cons_intro (c : code_unit) (s : jsstring) :
  (c =? HASH)%N = false -> no_hash s = true -> no_hash (c :: s) = true.
Proof. intros Hc Hs. simpl. rewrite Hc, Hs. reflexivity. Qed.

Ltac no_hash_tac :=
  repeat match goal with
         | |- no_hash (_ ++ _) = true => rewrite no_hash_app; apply andb_true_intro; split
         | |- no_hash (_ :: _) = true => apply no_hash_cons_intro; [reflexivity |]
         | |- no_hash [] = true => reflexivity
         | |- no_hash nl = true => reflexivity
         | |- no_hash (lit _) = true => vm_compute; reflexivity
         | |- _ => assumption
         end.

Ltac flat := unfold nl; repeat first [rewrite <- !app_assoc | progress cbn [app]].

Lemma no_hash_join (sep : jsstring) (xs : list jsstring) :
  no_hash sep = true -> forallb no_hash xs = true -> no_hash (join sep xs) = true.
Proof.
  intros Hsep. induction xs as [|x xs IH]; simpl; [reflexivity |].
  intros H. apply andb_prop in H as [Hx Hxs]. specialize (IH Hxs).
  destruct xs; [exact Hx |]. no_hash_tac.
Qed.

Lemma forallb_filter_keep (X : Type) (p q : X -> bool) (xs : list X) :
  forallb p xs = true -> forallb p (filter q xs) = true.
Proof.
  induction xs as [|x xs IH]; simpl; [reflexivity |].
  intros H. apply andb_prop in H as [Hx Hxs].
  destruct (q x); simpl; [rewrite Hx |]; auto.
Qed.

Lemma forallb_tl (X : Type) (p : X -> bool) (xs : list X) :
  forallb p xs = true -> forallb p (tl xs) = true.
Proof. destruct xs; simpl; [reflexivity |]. intros H. apply andb_prop in H. tauto. Qed.

Lemma no_hash_extractOrInferTechnical (original : jsstring) :
  no_hash (extractOrInferTechnical original) = true.
Proof.
  unfold extractOrInferTechnical.
  destruct (test_sub (alts "react") original), (test_sub (alts "typescript") original),
    (test_sub (alts "node") original), (test_sub (alts "python") original);
    vm_compute; reflexivity.
Qed.

Lemma no_hash_extractOrInferContext (prompt : jsstring) :
  no_hash prompt = true -> no_hash (extractOrInferContext prompt) = true.
Proof.
  intros H. unfold extractOrInferContext.
  destruct (match_labelled _ prompt) as [g|] eqn:E.
  - exact (no_hash_match_labelled _ _ E H).
  - pose proof (no_hash_extractOrInferTechnical prompt).
    destruct (hasTechnicalDetails prompt); no_hash_tac.
Qed.

Lemma no_hash_extractOrInferObjective (prompt : jsstring) :
  no_hash prompt = true -> no_hash (extractOrInferObjective prompt) = true.
Proof.
  intros H. unfold extractOrInferObjective.
  destruct (match_action action_verbs prompt) as [[g1 g2]|] eqn:E.
  - destruct (no_hash_match_action _ _ E H). no_hash_tac.
  - destruct (match_labelled _ prompt) as [g|] eqn:E'.
    + exact (no_hash_match_labelled _ _ E' H).
    + unfold or_else.
      destruct (truthy _).
      * pose proof (no_hash_lines _ H) as L.
        destruct (split_lines prompt); simpl in *; [reflexivity |].
        apply andb_prop in L. tauto.
      * apply no_hash_firstn. exact H.
Qed.

Lemma no_hash_fixed_texts (prompt : jsstring) :
  no_hash (extractToneGuidance prompt) = true
  /\ no_hash (extractAudienceDefinition prompt) = true
  /\ no_hash (extractDeliverables prompt) = true.
Proof.
  unfold extractToneGuidance, extractAudienceDefinition, extractDeliverables.
  repeat split.
  - destruct (test_sub _ prompt); [reflexivity |].
    destruct (test_sub _ prompt); [reflexivity |].
    destruct (test_sub _ prompt); reflexivity.
  - destruct (test_sub _ prompt); [reflexivity |].
    destruct (test_sub _ prompt); reflexivity.
  - destruct (test_sub (alts "code") prompt), (test_sub (alts "documentation|docs") prompt),
      (test_sub (alts "test") prompt), (test_sub (alts "example") prompt);
      vm_compute; reflexivity.
Qed.

Lemma no_hash_map_dash (xs : list jsstring) :
  forallb no_hash xs = true ->
  forallb no_hash (List.map (fun line => lit "- " ++ line) xs) = true.
Proof.
  induction xs as [|x xs IH]; cbn [List.map forallb]; [reflexivity |].
  intros L. apply andb_prop in L as [Hx Hxs].
  rewrite (IH Hxs), no_hash_app, Hx. reflexivity.
Qed.

Lemma extractOrInferRequirements_shape (prompt : jsstring) :
  exists rest, extractOrInferRequirements prompt = 45%N :: rest
               /\ (no_hash prompt = true ->
                   no_hash (extractOrInferRequirements prompt) = true).
Proof.
  unfold extractOrInferRequirements. cbv zeta.
  assert (L : no_hash prompt = true ->
              forallb no_hash (filter (fun line => truthy (trim line)) (split_lines prompt))
              = true)
    by (intros H; apply forallb_filter_keep, no_hash_lines, H).
  destruct (filter _ (split_lines prompt)) as [|l0 [|l1 ls]];
    cbn [List.length Nat.ltb Nat.leb].
  - eexists. split; [reflexivity |]. intros H. no_hash_tac.
  - eexists. split; [reflexivity |]. intros H. no_hash_tac.
  - cbn [tl List.map].
    assert (M : no_hash prompt = true ->
                forallb no_hash (List.map (fun line => lit "- " ++ line) (l1 :: ls)) = true).
    { intros H. apply no_hash_map_dash. apply (forallb_tl _ _ (L H)). }
    cbn [List.map] in M.
    destruct ls as [|l2 ls].
    + eexists. split; [reflexivity |]. intros H.
      apply no_hash_join; [reflexivity | exact (M H)].
    + eexists. split; [reflexivity |]. intros H.
      apply no_hash_join; [reflexivity | exact (M H)].
Qed.

(** ** Sections of the synthesized prompt *)

Lemma context_section_block (original : jsstring) (an : Analysis) :
  exists body, (no_hash original = true -> no_hash body = true)
    /\ context_section original an = lit "## CONTEXT" ++ LF :: body ++ [LF].
Proof.
  unfold context_section. cbv zeta.
  pose proof (no_hash_extractOrInferContext original) as Hc.
  pose proof (no_hash_extractOrInferTechnical original) as Ht.
  generalize dependent (extractOrInferContext original). intros ctx Hc.
  generalize dependent (extractOrInferTechnical original). intros tech Ht.
  destruct (hasBackground (context an)),
    (negb (hasConstraints (context an)) && hasTechnicalDetails original); cbn [negb].
  - exists (LF :: ctx ++ nl ++ nl ++ lit "Constraints: " ++ tech ++ nl).
    split; [intros H; specialize (Hc H); no_hash_tac | flat; reflexivity].
  - exists (LF :: ctx ++ nl).
    split; [intros H; specialize (Hc H); no_hash_tac | flat; reflexivity].
  - exists (LF :: lit "Background: " ++ ctx ++ nl ++ nl
            ++ lit "Constraints: " ++ tech ++ nl).
    split; [intros H; specialize (Hc H); no_hash_tac | flat; reflexivity].
  - exists (LF :: lit "Background: " ++ ctx ++ nl).
    split; [intros H; specialize (Hc H); no_hash_tac | flat; reflexivity].
Qed.

Lemma objective_section_block (original : jsstring) :
  exists body, (no_hash original = true -> no_hash body = true)
    /\ objective_section original = lit "## OBJECTIVE" ++ LF :: body ++ [LF].
Proof.
  unfold objective_section.
  pose proof (no_hash_extractOrInferObjective original) as Ho.
  generalize dependent (extractOrInferObjective original). intros obj Ho.
  exists (LF :: obj ++ nl).
  split; [intros H; specialize (Ho H); no_hash_tac | flat; reflexivity].
Qed.

Lemma style_section_block (an : Analysis) :
  exists body, no_hash body = true
    /\ style_section an = lit "## STYLE" ++ LF :: body ++ [LF].
Proof.
  unfold style_section. cbv zeta.
  destruct (formatSpecified (style an)), (structureDefined (style an)); cbn [negb].
  - exists nl. split; [no_hash_tac | flat; reflexivity].
  - exists (LF :: lit "Structure: Organize with clear sections and headings" ++ nl).
    split; [no_hash_tac | flat; reflexivity].
  - exists (LF :: lit "Format: Provide response as structured, well-organized output" ++ nl).
    split; [no_hash_tac | flat; reflexivity].
  - exists (LF :: lit "Format: Provide response as structured, well-organized output" ++ nl
            ++ lit "Structure: Organize with clear sections and headings" ++ nl).
    split; [no_hash_tac | flat; reflexivity].
Qed.

(** An optional section adds its heading when the component is present
    and nothing otherwise. *)
Lemma tone_section_headings (original : jsstring) (an : Analysis) (rest : jsstring) :
  heading_lines (tone_section original an ++ rest)
  = heading_if (tone an) "## TONE" ++ heading_lines rest.
Proof.
  unfold tone_section, heading_if.
  destruct (tone an) as [t|]; [| reflexivity].
  destruct (no_hash_fixed_texts original) as (Ht & _ & _).
  generalize dependent (extractToneGuidance original). intros guidance Ht.
  assert (B : exists body, no_hash body = true
              /\ lit "## TONE" ++ nl ++ nl ++
                 (if negb (toneSpecified t)
                  then lit "Use a professional, technical tone appropriate for developers"
                       ++ nl ++ nl
                  else guidance ++ nl ++ nl)
                 = lit "## TONE" ++ LF :: body ++ [LF]).
  { destruct (toneSpecified t); cbn [negb].
    - exists (LF :: guidance ++ nl).
      split; [no_hash_tac | flat; reflexivity].
    - exists (LF :: lit "Use a professional, technical tone appropriate for developers" ++ nl).
      split; [no_hash_tac | flat; reflexivity]. }
  destruct B as (body & Hb & ->).
  apply heading_block; [vm_compute; reflexivity | exact Hb].
Qed.

Lemma audience_section_headings (original : jsstring) (an : Analysis) (rest : jsstring) :
  heading_lines (audience_section original an ++ rest)
  = heading_if (audience an) "## AUDIENCE" ++ heading_lines rest.
Proof.
  unfold audience_section, heading_if.
  destruct (audience an) as [a|]; [| reflexivity].
  destruct (no_hash_fixed_texts original) as (_ & Ha & _).
  generalize dependent (extractAudienceDefinition original). intros definition Ha.
  assert (B : exists body, no_hash body = true
              /\ lit "## AUDIENCE" ++ nl ++ nl ++
                 (if negb (audienceSpecified a)
                  then lit "Target audience: Senior developers with expertise in the relevant technology stack"
                       ++ nl ++ nl
                  else definition ++ nl ++ nl)
                 = lit "## AUDIENCE" ++ LF :: body ++ [LF]).
  { destruct (audienceSpecified a); cbn [negb].
    - exists (LF :: definition ++ nl).
      split; [no_hash_tac | flat; reflexivity].
    - exists (LF :: lit "Target audience: Senior developers with expertise in the relevant technology stack" ++ nl).
      split; [no_hash_tac | flat; reflexivity]. }
  destruct B as (body & Hb & ->).
  apply heading_block; [vm_compute; reflexivity | exact Hb].
Qed.

Lemma response_section_headings (original : jsstring) (an : Analysis) (rest : jsstring) :
  heading_lines (response_section original an ++ rest)
  = heading_if (response an) "## RESPONSE" ++ heading_lines rest.
Proof.
  unfold response_section, heading_if.
  destruct (response an) as [r|]; [| reflexivity].
  destruct (no_hash_fixed_texts original) as (_ & _ & Hd).
  generalize dependent (extractDeliverables original). intros deliverables Hd.
  assert (B : exists body, no_hash body = true
              /\ lit "## RESPONSE" ++ nl ++ nl ++ lit "Expected deliverables:" ++ nl ++
                 (if negb (deliverablesSpecified r)
                  then lit "- Complete implementation" ++ nl ++ lit "- Documentation" ++ nl
                       ++ lit "- Test coverage" ++ nl ++ nl
                  else deliverables ++ nl ++ nl)
                 = lit "## RESPONSE" ++ LF :: body ++ [LF]).
  { destruct (deliverablesSpecified r); cbn [negb].
    - exists (LF :: lit "Expected deliverables:" ++ nl ++ deliverables ++ nl).
      split; [no_hash_tac | flat; reflexivity].
    - exists (LF :: lit "Expected deliverables:" ++ nl ++ lit "- Complete implementation" ++ nl
              ++ lit "- Documentation" ++ nl ++ lit "- Test coverage" ++ nl).
      split; [no_hash_tac | flat; reflexivity]. }
  destruct B as (body & Hb & ->).
  apply heading_block; [vm_compute; reflexivity | exact Hb].
Qed.

Lemma requirements_tail_kept (original : jsstring) :
  exists tail, (no_hash original = true -> no_hash tail = true)
    /\ forall pre, trimEnd (pre ++ extractOrInferRequirements original) = pre ++ tail.
Proof.
  destruct (extractOrInferRequirements_shape original) as (rest & E & Hn).
  generalize dependent (extractOrInferRequirements original). intros reqs E Hn. subst reqs.
  exists (45%N :: trimEnd rest).
  assert (T : trimEnd (45%N :: rest) = 45%N :: trimEnd rest)
    by (apply trimEnd_nonspace_head; reflexivity).
  split; [intros H; rewrite <- T; apply no_hash_trimEnd; exact (Hn H) |].
  intros pre. rewrite trimEnd_app; rewrite T; [reflexivity | discriminate].
Qed.

(** The heading lines of the synthesized prompt: the headings of the
    sections written for the analysis, in COSTAR order, then the
    Requirements heading, with in between whatever heading lines the
    text copied from the prompt brings; it brings none when the prompt
    has no hash sign. *)
Lemma synthesized_headings_of (original : jsstring) (an : Analysis) :
  exists x1 x2 x3 x4 : list jsstring,
    heading_lines (generateCOSTARImprovedPrompt original an)
    = lit "## CONTEXT" :: x1 ++ lit "## OBJECTIVE" :: x2 ++ lit "## STYLE" :: x3
      ++ heading_if (tone an) "## TONE" ++ heading_if (audience an) "## AUDIENCE"
      ++ heading_if (response an) "## RESPONSE" ++ lit "# Requirements" :: x4
    /\ (no_hash original = true -> x1 = [] /\ x2 = [] /\ x3 = [] /\ x4 = []).
Proof.
  destruct (@context_section_block original an) as (bc & Hbc & Ec).
  destruct (@objective_section_block original) as (bo & Hbo & Eo).
  destruct (@style_section_block an) as (bs & Hbs & Es).
  destruct (@requirements_tail_kept original) as (tail & Htail & Etail).
  exists (heading_lines bc), (heading_lines bo), (heading_lines bs), (heading_lines tail).
  split.
  2:{ intros H. rewrite !no_hash_no_heading; auto. }
  clear Hbc Hbo Hbs Htail.
  unfold generateCOSTARImprovedPrompt, trim, improved_untrimmed, requirements_section.
  generalize dependent (extractOrInferRequirements original). intros reqs Etail.
  generalize dependent (context_section original an). intros sc Ec.
  generalize dependent (objective_section original). intros so Eo.
  generalize dependent (style_section an). intros ss Es.
  subst sc so ss.
  assert (S : forall X, trimStart ((lit "## CONTEXT" ++ LF :: bc ++ [LF]) ++ X)
                        = (lit "## CONTEXT" ++ LF :: bc ++ [LF]) ++ X) by reflexivity.
  rewrite S. clear S.
  replace ((lit "## CONTEXT" ++ LF :: bc ++ [LF]) ++
           (lit "## OBJECTIVE" ++ LF :: bo ++ [LF]) ++
           (lit "## STYLE" ++ LF :: bs ++ [LF]) ++
           tone_section original an ++ audience_section original an ++
           response_section original an ++
           lit "---" ++ nl ++ nl ++ lit "# Requirements" ++ nl ++ nl ++ reqs)
    with (((lit "## CONTEXT" ++ LF :: bc ++ [LF]) ++
           (lit "## OBJECTIVE" ++ LF :: bo ++ [LF]) ++
           (lit "## STYLE" ++ LF :: bs ++ [LF]) ++
           tone_section original an ++ audience_section original an ++
           response_section original an ++
           lit "---" ++ nl ++ nl ++ lit "# Requirements" ++ nl ++ nl) ++ reqs)
    by (rewrite <- !app_assoc; reflexivity).
  rewrite Etail. flat.
  rewrite (@heading_block_flat (lit "## CONTEXT") bc) by (vm_compute; reflexivity).
  rewrite (@heading_block_flat (lit "## OBJECTIVE") bo) by (vm_compute; reflexivity).
  rewrite (@heading_block_flat (lit "## STYLE") bs) by (vm_compute; reflexivity).
  rewrite tone_section_headings, audience_section_headings, response_section_headings.
  unfold nl. cbn [app].
  repeat first [rewrite heading_lines_app_LF | rewrite heading_lines_LF_cons].
  flat. reflexivity.
Qed.

Lemma Subseq_skip_app (X : Type) (zs xs ys : list X) :
  Subseq xs ys -> Subseq xs (zs ++ ys).
Proof. intros H. induction zs; simpl; [exact H | apply Subseq_skip; exact IHzs]. Qed.

Lemma component_headings_of_headings (text : jsstring) :
  component_headings text = filter is_component_heading (heading_lines text).
Proof.
  unfold component_headings, heading_lines.
  induction (split_lines text) as [|l ls IH]; simpl; [reflexivity |].
  destruct (starts_hash l) eqn:E; simpl; rewrite IH; [reflexivity |].
  destruct l as [|a [|b [|c l]]]; simpl in *; try reflexivity; rewrite E; reflexivity.
Qed.

Lemma improvedPrompt_of_mode (prompt : jsstring) (mode : OptimizerMode) :
  improvedPrompt (applyCOSTARFramework prompt mode)
  = generateCOSTARImprovedPrompt prompt (analysis (applyCOSTARFramework prompt mode)).
Proof.
  cbv beta iota zeta delta [applyCOSTARFramework improvedPrompt analysis]. reflexivity.
Qed.

Lemma expected_headings_of_mode (prompt : jsstring) (mode : OptimizerMode) :
  expected_headings (analysis (applyCOSTARFramework prompt mode)) = mode_headings mode.
Proof. destruct mode; reflexivity. Qed.

(** C4 (as stated, refuted). In fast mode the prompt "## AUDIENCE" is
    copied into the Objective section: the synthesized prompt has four
    component headings, one of them of a component that fast mode does
    not analyse, and they are not in COSTAR order. *)
Lemma copied_text_adds_a_heading :
  component_headings (improvedPrompt (applyCOSTARFramework (lit "## AUDIENCE") fast))
  = [lit "## CONTEXT"; lit "## OBJECTIVE"; lit "## AUDIENCE"; lit "## STYLE"].
Proof. vm_compute. reflexivity. Qed.

(** C4 (amended). For every prompt the heading lines of the synthesized
    prompt contain, in this order, CONTEXT, OBJECTIVE, STYLE, in deep
    mode also TONE, AUDIENCE, RESPONSE, and then Requirements. When the
    prompt has no hash sign these are all its heading lines: exactly
    three component headings in fast mode and exactly six in deep mode,
    in COSTAR order, followed by the Requirements heading. *)
Theorem synthesized_headings (prompt : jsstring) (mode : OptimizerMode) :
  Subseq (mode_headings mode)
    (heading_lines (improvedPrompt (applyCOSTARFramework prompt mode)))
  /\ (no_hash prompt = true ->
      heading_lines (improvedPrompt (applyCOSTARFramework prompt mode)) = mode_headings mode
      /\ component_headings (improvedPrompt (applyCOSTARFramework prompt mode))
         = mode_components mode).
Proof.
  rewrite component_headings_of_headings, improvedPrompt_of_mode.
  destruct (synthesized_headings_of prompt (analysis (applyCOSTARFramework prompt mode)))
    as (x1 & x2 & x3 & x4 & E & Hx).
  rewrite E. clear E. split.
  - destruct mode; cbn [mode_headings mode_components app];
      cbv beta iota zeta delta [applyCOSTARFramework analysis tone audience response heading_if];
      cbn [app];
      repeat first [apply Subseq_keep | apply Subseq_skip_app | apply Subseq_nil].
  - intros H. destruct (Hx H) as (-> & -> & -> & ->). cbn [app].
    change (lit "## CONTEXT" :: lit "## OBJECTIVE" :: lit "## STYLE"
            :: heading_if (tone (analysis (applyCOSTARFramework prompt mode))) "## TONE"
            ++ heading_if (audience (analysis (applyCOSTARFramework prompt mode))) "## AUDIENCE"
            ++ heading_if (response (analysis (applyCOSTARFramework prompt mode))) "## RESPONSE"
            ++ [lit "# Requirements"])
      with (expected_headings (analysis (applyCOSTARFramework prompt mode))).
    rewrite expected_headings_of_mode.
    split; [reflexivity | destruct mode; vm_compute; reflexivity].
Qed.

Lemma synthesized_headings_witness :
  no_hash (lit "fix the login bug") = true
  /\ component_headings (improvedPrompt (applyCOSTARFramework (lit "fix the login bug") fast))
     = [lit "## CONTEXT"; lit "## OBJECTIVE"; lit "## STYLE"]
  /\ component_headings (improvedPrompt (applyCOSTARFramework (lit "fix the login bug") deep))
     = [lit "## CONTEXT"; lit "## OBJECTIVE"; lit "## STYLE";
        lit "## TONE"; lit "## AUDIENCE"; lit "## RESPONSE"].
Proof.
  split; [reflexivity |].
  split.
  - exact (proj2 (proj2 (synthesized_headings (lit "fix the login bug") fast) eq_refl)).
  - exact (proj2 (proj2 (synthesized_headings (lit "fix the login bug") deep) eq_refl)).
Defined.

(** ** The empty prompt *)

Ltac by_flags := intros; all_flags; vm_compute; reflexivity.

Lemma score_functions_are_percentages :
  (forall x y z, is_percent (context_score x y z) = true)
  /\ (forall x y z, is_percent (objective_score x y z) = true)
  /\ (forall x y z, is_percent (style_score x y z) = true)
  /\ (forall x y l, is_percent (tone_score x y l) = true)
  /\ (forall x y z, is_percent (audience_score x y z) = true)
  /\ (forall x y z, is_percent (response_score x y z) = true).
Proof. repeat split; by_flags. Qed.

Lemma score_functions_are_nonnegative :
  (forall x y z, le (num 0) (context_score x y z) = true)
  /\ (forall x y z, le (num 0) (objective_score x y z) = true)
  /\ (forall x y z, le (num 0) (style_score x y z) = true)
  /\ (forall x y l, le (num 0) (tone_score x y l) = true)
  /\ (forall x y z, le (num 0) (audience_score x y z) = true)
  /\ (forall x y z, le (num 0) (response_score x y z) = true).
Proof. repeat split; by_flags. Qed.

(** Every component score of every analysis is an integer of [0, 100]. *)
Lemma component_scores_are_percentages (prompt : jsstring) (mode : OptimizerMode) :
  forallb is_percent (component_scores (analysis (applyCOSTARFramework prompt mode))) = true.
Proof.
  destruct score_functions_are_percentages as (Pc & Po & Ps & Pt & Pa & Pr).
  destruct (analyzer_scores_follow_flags prompt) as (Ec & Eo & Es & Et & Ea & Er).
  assert (Hc := Pc (hasBackground (analyzeContext prompt))
                   (hasConstraints (analyzeContext prompt)) (hasTechnicalDetails prompt)).
  assert (Ho := Po (goalClarity (analyzeObjective prompt))
                   (measurable (analyzeObjective prompt)) (achievable (analyzeObjective prompt))).
  assert (Hs := Ps (formatSpecified (analyzeStyle prompt))
                   (structureDefined (analyzeStyle prompt))
                   (presentationClear (analyzeStyle prompt))).
  assert (Ht := Pt (toneSpecified (analyzeTone prompt))
                   (voiceConsistency (analyzeTone prompt)) (formalityLevel (analyzeTone prompt))).
  assert (Ha := Pa (audienceSpecified (analyzeAudience prompt))
                   (skillLevelDefined (analyzeAudience prompt))
                   (needsAddressed (analyzeAudience prompt))).
  assert (Hr := Pr (outputFormatClear (analyzeResponse prompt))
                   (deliverablesSpecified (analyzeResponse prompt))
                   (examplesProvided (analyzeResponse prompt))).
  rewrite <- Ec in Hc. rewrite <- Eo in Ho. rewrite <- Es in Hs.
  rewrite <- Et in Ht. rewrite <- Ea in Ha. rewrite <- Er in Hr.
  clear Ec Eo Es Et Ea Er.
  destruct mode;
    cbv beta iota zeta delta
      [applyCOSTARFramework analysis component_scores context objective style tone
         audience response app forallb];
    rewrite ?Hc, ?Ho, ?Hs, ?Ht, ?Ha, ?Hr; reflexivity.
Qed.

(** No component of any prompt scores below that component of the empty
    prompt, except Objective. *)
Lemma empty_prompt_scores_are_minimal (prompt : jsstring) :
  le (c_score (analyzeContext [])) (c_score (analyzeContext prompt)) = true
  /\ le (s_score (analyzeStyle [])) (s_score (analyzeStyle prompt)) = true
  /\ le (t_score (analyzeTone [])) (t_score (analyzeTone prompt)) = true
  /\ le (a_score (analyzeAudience [])) (a_score (analyzeAudience prompt)) = true
  /\ le (r_score (analyzeResponse [])) (r_score (analyzeResponse prompt)) = true.
Proof.
  destruct score_functions_are_nonnegative as (Pc & _ & Ps & Pt & Pa & Pr).
  destruct (analyzer_scores_follow_flags prompt) as (Ec & _ & Es & Et & Ea & Er).
  replace (c_score (analyzeContext [])) with (num 0) by (vm_compute; reflexivity).
  replace (s_score (analyzeStyle [])) with (num 0) by (vm_compute; reflexivity).
  replace (t_score (analyzeTone [])) with (num 0) by (vm_compute; reflexivity).
  replace (a_score (analyzeAudience [])) with (num 0) by (vm_compute; reflexivity).
  replace (r_score (analyzeResponse [])) with (num 0) by (vm_compute; reflexivity).
  rewrite Ec, Es, Et, Ea, Er. repeat split; auto.
Qed.

(** C8 (as stated, refuted). The empty prompt does not reach the
    lowest Objective score: its objective counts as achievable and scores
    30, while the prompt "app" scores 0. And its Objective section is not
    filled with templated text: the heading is followed by an empty body. *)
Lemma empty_prompt_is_not_the_lowest :
  o_score (analyzeObjective []) = num 30
  /\ o_score (analyzeObjective (lit "app")) = num 0
  /\ lt (o_score (analyzeObjective (lit "app"))) (o_score (analyzeObjective [])) = true
  /\ objective_section [] = lit "## OBJECTIVE" ++ nl ++ nl ++ nl ++ nl.
Proof. repeat split; vm_compute; reflexivity. Qed.

(** ** The full analysis never throws *)

Lemma checked_extractOrInferContext (prompt : jsstring) :
  Checked.extractOrInferContext prompt = Returned (extractOrInferContext prompt).
Proof.
  unfold Checked.extractOrInferContext, extractOrInferContext. cbv zeta.
  destruct (match_labelled _ prompt) as [g2|]; cbn [is_some read]; [reflexivity |].
  destruct (hasTechnicalDetails prompt); reflexivity.
Qed.

Lemma checked_extractOrInferObjective (prompt : jsstring) :
  Checked.extractOrInferObjective prompt = Returned (extractOrInferObjective prompt).
Proof.
  unfold Checked.extractOrInferObjective, extractOrInferObjective. cbv zeta.
  destruct (match_action action_verbs prompt) as [[g1 g2]|]; cbn [is_some read bind fst snd];
    [reflexivity |].
  destruct (match_labelled _ prompt) as [g2|]; reflexivity.
Qed.

Lemma checked_context_section (original : jsstring) (an : Analysis) :
  Checked.context_section original an = Returned (context_section original an).
Proof.
  unfold Checked.context_section, context_section. cbv zeta.
  rewrite checked_extractOrInferContext. cbn [bind].
  generalize (extractOrInferContext original) (extractOrInferTechnical original).
  intros inferred technical.
  destruct (negb (hasBackground (context an))); cbn [bind];
    destruct (negb (hasConstraints (context an)) && hasTechnicalDetails original);
    reflexivity.
Qed.

Lemma checked_objective_section (original : jsstring) :
  Checked.objective_section original = Returned (objective_section original).
Proof.
  unfold Checked.objective_section, objective_section.
  rewrite checked_extractOrInferObjective. reflexivity.
Qed.

Lemma checked_tone_section (original : jsstring) (an : Analysis) :
  Checked.tone_section original an = Returned (tone_section original an).
Proof.
  unfold Checked.tone_section, tone_section. destruct (tone an); reflexivity.
Qed.

Lemma checked_audience_section (original : jsstring) (an : Analysis) :
  Checked.audience_section original an = Returned (audience_section original an).
Proof.
  unfold Checked.audience_section, audience_section. destruct (audience an); reflexivity.
Qed.

Lemma checked_response_section (original : jsstring) (an : Analysis) :
  Checked.response_section original an = Returned (response_section original an).
Proof.
  unfold Checked.response_section, response_section. destruct (response an); reflexivity.
Qed.

Lemma checked_generateCOSTARImprovedPrompt (original : jsstring) (an : Analysis) :
  Checked.generateCOSTARImprovedPrompt original an
  = Returned (generateCOSTARImprovedPrompt original an).
Proof.
  unfold Checked.generateCOSTARImprovedPrompt.
  rewrite checked_context_section, checked_objective_section, checked_tone_section,
    checked_audience_section, checked_response_section.
  reflexivity.
Qed.

Lemma checked_present_without (X : Type) (o : option X) (flag : X -> bool) :
  Checked.present_without o flag = Returned (present_without o flag).
Proof. destruct o; reflexivity. Qed.

Lemma checked_generateCOSTARChangesSummary (original improved : jsstring) (an : Analysis) :
  Checked.generateCOSTARChangesSummary original improved an
  = Returned (generateCOSTARChangesSummary original improved an).
Proof.
  unfold Checked.generateCOSTARChangesSummary, Checked.recorded_gaps,
    generateCOSTARChangesSummary, recorded_gaps.
  rewrite !checked_present_without. reflexivity.
Qed.

Lemma checked_calculateCOSTARScore (an : Analysis) :
  Checked.calculateCOSTARScore an = Returned (calculateCOSTARScore an).
Proof.
  unfold Checked.calculateCOSTARScore, Checked.weighted, calculateCOSTARScore, weighted.
  destruct (tone an), (audience an), (response an); reflexivity.
Qed.

Lemma checked_applyCOSTARFramework (prompt : jsstring) (mode : OptimizerMode) :
  Checked.applyCOSTARFramework prompt mode = Returned (applyCOSTARFramework prompt mode).
Proof.
  unfold Checked.applyCOSTARFramework. cbv zeta.
  rewrite checked_generateCOSTARImprovedPrompt. cbn [bind].
  rewrite checked_generateCOSTARChangesSummary. cbn [bind].
  rewrite checked_calculateCOSTARScore. reflexivity.
Qed.

(** ** Absent signals *)

(** Each analyzer lists one issue for each absent signal, at least as
    many suggestions, and no issue exactly from a score of 80 (Tone: 50,
    Audience: 40). *)
Lemma context_issues (prompt : jsstring) :
  let c := analyzeContext prompt in
  List.length (c_issues c) = missing [hasBackground c; hasConstraints c]
  /\ (List.length (c_issues c) <= List.length (c_suggestions c))%nat
  /\ (List.length (c_issues c) =? 0)%nat = ge (c_score c) (num 80).
Proof.
  cbv beta iota zeta delta
    [analyzeContext c_issues c_suggestions c_score hasBackground hasConstraints].
  generalize (hasTechnicalDetails prompt). intro.
  abstract_tests prompt. all_flags; vm_compute; repeat split; lia.
Qed.

Lemma objective_issues (prompt : jsstring) :
  let o := analyzeObjective prompt in
  List.length (o_issues o) = missing [goalClarity o; measurable o; achievable o]
  /\ (List.length (o_issues o) <= List.length (o_suggestions o))%nat
  /\ (List.length (o_issues o) =? 0)%nat = ge (o_score o) (num 80).
Proof.
  cbv beta iota zeta delta
    [analyzeObjective o_issues o_suggestions o_score goalClarity measurable achievable].
  generalize (hasSuccessCriteria prompt) (hasUnrealisticScope prompt). intros.
  abstract_tests prompt. all_flags; vm_compute; repeat split; lia.
Qed.

Lemma style_issues (prompt : jsstring) :
  let s := analyzeStyle prompt in
  List.length (s_issues s) = missing [formatSpecified s; structureDefined s]
  /\ (List.length (s_issues s) <= List.length (s_suggestions s))%nat
  /\ (List.length (s_issues s) =? 0)%nat = ge (s_score s) (num 80).
Proof.
  cbv beta iota zeta delta
    [analyzeStyle s_issues s_suggestions s_score formatSpecified structureDefined].
  abstract_tests prompt. all_flags; vm_compute; repeat split; lia.
Qed.

Lemma tone_issues (prompt : jsstring) :
  let t := analyzeTone prompt in
  List.length (t_issues t) = missing [toneSpecified t]
  /\ (List.length (t_issues t) <= List.length (t_suggestions t))%nat
  /\ (List.length (t_issues t) =? 0)%nat = ge (t_score t) (num 50).
Proof.
  cbv beta iota zeta delta [analyzeTone t_issues t_suggestions t_score toneSpecified].
  abstract_tests prompt. all_flags; vm_compute; repeat split; lia.
Qed.

Lemma audience_issues (prompt : jsstring) :
  let a := analyzeAudience prompt in
  List.length (a_issues a) = missing [audienceSpecified a]
  /\ (List.length (a_issues a) <= List.length (a_suggestions a))%nat
  /\ (List.length (a_issues a) =? 0)%nat = ge (a_score a) (num 40).
Proof.
  cbv beta iota zeta delta
    [analyzeAudience a_issues a_suggestions a_score audienceSpecified].
  abstract_tests prompt. all_flags; vm_compute; repeat split; lia.
Qed.

Lemma response_issues (prompt : jsstring) :
  let r := analyzeResponse prompt in
  List.length (r_issues r) = missing [outputFormatClear r; deliverablesSpecified r]
  /\ (List.length (r_issues r) <= List.length (r_suggestions r))%nat
  /\ (List.length (r_issues r) =? 0)%nat = ge (r_score r) (num 80).
Proof.
  cbv beta iota zeta delta
    [analyzeResponse r_issues r_suggestions r_score outputFormatClear deliverablesSpecified].
  generalize (hasExpectedOutput prompt). intro.
  abstract_tests prompt. all_flags; vm_compute; repeat split; lia.
Qed.

Lemma absent_signals_are_reported (prompt : jsstring) (mode : OptimizerMode) :
  let an := analysis (applyCOSTARFramework prompt mode) in
  issue_counts an = List.map missing (signals an)
  /\ Forall2 (fun issues suggestions => (issues <= suggestions)%nat)
       (issue_counts an) (suggestion_counts an)
  /\ List.map (fun issues => (issues =? 0)%nat) (issue_counts an)
     = reached (component_scores an) (issue_free_from mode).
Proof.
  destruct (context_issues prompt) as (C1 & C2 & C3).
  destruct (objective_issues prompt) as (O1 & O2 & O3).
  destruct (style_issues prompt) as (S1 & S2 & S3).
  destruct (tone_issues prompt) as (T1 & T2 & T3).
  destruct (audience_issues prompt) as (A1 & A2 & A3).
  destruct (response_issues prompt) as (R1 & R2 & R3).
  cbv zeta in *.
  destruct mode;
    cbv beta iota zeta delta
      [applyCOSTARFramework analysis issue_counts suggestion_counts signals component_scores
         reached issue_free_from context objective style tone audience response app
         List.map combine fst snd];
    (split; [rewrite ?C1, ?O1, ?S1, ?T1, ?A1, ?R1; reflexivity |]);
    (split; [repeat constructor; assumption |]);
    rewrite <- ?C3, <- ?O3, <- ?S3, <- ?T3, <- ?A3, <- ?R3; reflexivity.
Qed.

(** C8 (amended). For every prompt and mode the full analysis returns
    and throws nothing: with every read of a value that may be [null] or
    [undefined] written out, it returns the result of
    [applyCOSTARFramework], and so do the synthesizer, the recorder and
    the aggregator on every analysis record, whichever optional components
    it has. Every component score of the result is an integer of [0, 100].
    Absent signals are reported, never a failure: each component lists one
    issue for each absent signal, at least as many suggestions as issues,
    and it lists an issue exactly when its score is below 80 (Tone: below
    50; Audience: below 40). The empty prompt scores Context 0, Objective
    30 (achievable holds by default), Style 0 and, in deep mode, Tone 0,
    Audience 0, Response 0; no prompt scores lower on Context, Style, Tone,
    Audience or Response. Every component of the empty prompt has issues
    and suggestions. Its synthesized prompt has the heading of every
    section of the mode, each followed by templated text except Objective,
    whose body is empty. *)
Theorem analysis_never_fails :
  (forall prompt mode,
      Checked.applyCOSTARFramework prompt mode
      = Returned (applyCOSTARFramework prompt mode))
  /\ (forall original improved an,
        Checked.generateCOSTARImprovedPrompt original an
        = Returned (generateCOSTARImprovedPrompt original an)
        /\ Checked.generateCOSTARChangesSummary original improved an
           = Returned (generateCOSTARChangesSummary original improved an)
        /\ Checked.calculateCOSTARScore an = Returned (calculateCOSTARScore an))
  /\ (forall prompt mode,
        forallb is_percent (component_scores (analysis (applyCOSTARFramework prompt mode)))
        = true)
  /\ (forall prompt mode,
        let an := analysis (applyCOSTARFramework prompt mode) in
        issue_counts an = List.map missing (signals an)
        /\ Forall2 (fun issues suggestions => (issues <= suggestions)%nat)
             (issue_counts an) (suggestion_counts an)
        /\ List.map (fun issues => (issues =? 0)%nat) (issue_counts an)
           = reached (component_scores an) (issue_free_from mode))
  /\ component_scores (analysis (applyCOSTARFramework [] fast)) = [num 0; num 30; num 0]
  /\ component_scores (analysis (applyCOSTARFramework [] deep))
     = [num 0; num 30; num 0; num 0; num 0; num 0]
  /\ (forall prompt,
        le (c_score (analyzeContext [])) (c_score (analyzeContext prompt)) = true
        /\ le (s_score (analyzeStyle [])) (s_score (analyzeStyle prompt)) = true
        /\ le (t_score (analyzeTone [])) (t_score (analyzeTone prompt)) = true
        /\ le (a_score (analyzeAudience [])) (a_score (analyzeAudience prompt)) = true
        /\ le (r_score (analyzeResponse [])) (r_score (analyzeResponse prompt)) = true)
  /\ issue_counts (analysis (applyCOSTARFramework [] deep)) = [2; 2; 2; 1; 1; 2]%nat
  /\ suggestion_counts (analysis (applyCOSTARFramework [] deep)) = [2; 2; 3; 1; 1; 3]%nat
  /\ overallScore (applyCOSTARFramework [] fast) = num 11
  /\ overallScore (applyCOSTARFramework [] deep) = num 6
  /\ improvedPrompt (applyCOSTARFramework [] fast)
     = empty_core_sections ++ empty_requirements
  /\ improvedPrompt (applyCOSTARFramework [] deep)
     = empty_core_sections ++ empty_deep_sections ++ empty_requirements
  /\ component_headings (improvedPrompt (applyCOSTARFramework [] fast)) = mode_components fast
  /\ component_headings (improvedPrompt (applyCOSTARFramework [] deep)) = mode_components deep.
Proof.
  split; [exact checked_applyCOSTARFramework |].
  split.
  { intros original improved an.
    split; [apply checked_generateCOSTARImprovedPrompt |].
    split; [apply checked_generateCOSTARChangesSummary | apply checked_calculateCOSTARScore]. }
  split; [exact component_scores_are_percentages |].
  split; [exact absent_signals_are_reported |].
  split; [vm_compute; reflexivity |].
  split; [vm_compute; reflexivity |].
  split; [exact empty_prompt_scores_are_minimal |].
  repeat split; vm_compute; reflexivity.
Qed.

(* ================================================================= *)
(** * Further properties of the class *)

(** ** Splitting and joining lines *)

(** [s.split('\n').join('\n')] is [s]. *)
Lemma join_split_lines (s : jsstring) : join nl (split_lines s) = s.
Proof.
  induction s as [|c s IH]; [reflexivity |].
  pose proof (split_lines_nonempty s) as N.
  cbn [split_lines]. destruct (c =? LF)%N eqn:E.
  - apply N.eqb_eq in E. subst c.
    destruct (split_lines s) as [|l ls]; [contradiction N; reflexivity |].
    cbn [join]. cbn [join] in IH. rewrite IH. reflexivity.
  - destruct (split_lines s) as [|l ls]; [contradiction N; reflexivity |].
    rewrite <- IH. destruct ls; reflexivity.
Qed.

Lemma split_lines_LF_free (s : jsstring) :
  forallb (forallb not_LF) (split_lines s) = true.
Proof.
  induction s as [|c s IH]; [reflexivity |].
  cbn [split_lines]. destruct (c =? LF)%N eqn:E; [exact IH |].
  destruct (split_lines s) as [|l ls]; cbn [forallb] in *.
  - unfold not_LF. rewrite E. reflexivity.
  - unfold not_LF at 1. rewrite E. exact IH.
Qed.

Lemma split_lines_of_line (l : jsstring) :
  forallb not_LF l = true -> split_lines l = [l].
Proof.
  induction l as [|c l IH]; [reflexivity |].
  cbn [forallb]. intros H. apply andb_prop in H as [Hc Hl].
  cbn [split_lines]. unfold not_LF in Hc. apply negb_true_iff in Hc. rewrite Hc.
  rewrite (IH Hl). reflexivity.
Qed.

(** Joining lines that hold no line feed and splitting again gives the
    lines back. *)
Lemma split_join_lines (xs : list jsstring) :
  xs <> [] -> forallb (forallb not_LF) xs = true -> split_lines (join nl xs) = xs.
Proof.
  induction xs as [|x xs IH]; [intros N; contradiction N; reflexivity |].
  intros _ H. cbn [forallb] in H. apply andb_prop in H as [Hx Hxs].
  destruct xs as [|y ys].
  - cbn [join]. apply split_lines_of_line. exact Hx.
  - change (join nl (x :: y :: ys)) with (x ++ LF :: join nl (y :: ys)).
    rewrite split_lines_app_LF, (split_lines_of_line _ Hx), IH;
      [reflexivity | discriminate | exact Hxs].
Qed.

Lemma forallb_map_bullets (xs : list jsstring) :
  forallb (forallb not_LF) xs = true ->
  forallb (forallb not_LF) (List.map (fun line => lit "- " ++ line) xs) = true.
Proof.
  induction xs as [|x xs IH]; [reflexivity |].
  cbn [List.map forallb]. intros H. apply andb_prop in H as [Hx Hxs].
  rewrite (IH Hxs), forallb_app, Hx. reflexivity.
Qed.

(** X1. When the prompt has two or more non-blank lines, the
    requirements text is one bullet per non-blank line after the first,
    in order; blank lines and the first non-blank line are left out. *)
Theorem requirements_are_the_later_lines (prompt : jsstring) :
  (1 < List.length (filter (fun line => truthy (trim line)) (split_lines prompt)))%nat ->
  split_lines (extractOrInferRequirements prompt)
  = List.map (fun line => lit "- " ++ line)
      (tl (filter (fun line => truthy (trim line)) (split_lines prompt)))
  /\ List.length (split_lines (extractOrInferRequirements prompt))
     = (List.length (filter (fun line => truthy (trim line)) (split_lines prompt)) - 1)%nat.
Proof.
  intros H. unfold extractOrInferRequirements. cbv zeta.
  pose proof (@forallb_filter_keep jsstring (forallb not_LF)
                (fun line : jsstring => truthy (trim line)) _
                (split_lines_LF_free prompt)) as F.
  revert H F.
  generalize (filter (fun line : jsstring => truthy (trim line)) (split_lines prompt)).
  intros [|l0 [|l1 ls]] H F; cbn [List.length] in H; try lia.
  cbn [List.length Nat.ltb Nat.leb tl].
  assert (E : split_lines (join nl (List.map (fun line => lit "- " ++ line) (l1 :: ls)))
              = List.map (fun line => lit "- " ++ line) (l1 :: ls)).
  { apply split_join_lines; [discriminate |].
    apply forallb_map_bullets. apply (forallb_tl _ _ F). }
  rewrite E. split; [reflexivity |].
  rewrite length_map. cbn [List.length Nat.sub]. reflexivity.
Qed.

Lemma requirements_are_the_later_lines_witness :
  (1 < List.length (filter (fun line => truthy (trim line))
                      (split_lines (lit "Build a page" ++ nl ++ nl ++ lit "use React" ++ nl
                                    ++ lit "  " ++ nl ++ lit "add tests"))))%nat
  /\ split_lines (extractOrInferRequirements
                    (lit "Build a page" ++ nl ++ nl ++ lit "use React" ++ nl
                     ++ lit "  " ++ nl ++ lit "add tests"))
     = [lit "- use React"; lit "- add tests"].
Proof.
  split; [vm_compute; lia |].
  refine (eq_trans (proj1 (@requirements_are_the_later_lines _ _)) _);
    [vm_compute; lia | vm_compute; reflexivity].
Defined.

(** ** The legacy improved prompt and its changes summary *)

Lemma starts_with_app (needle rest : jsstring) : starts_with needle (needle ++ rest) = true.
Proof.
  induction needle as [|c needle IH]; [reflexivity |].
  cbn [app starts_with]. rewrite N.eqb_refl, IH. reflexivity.
Qed.

Lemma includes_app_r (needle a b : jsstring) :
  includes needle b = true -> includes needle (a ++ b) = true.
Proof.
  intros H. induction a as [|c a IH]; [exact H |].
  cbn [app includes]. rewrite IH. apply orb_true_r.
Qed.

Lemma includes_start (needle text : jsstring) :
  starts_with needle text = true -> includes needle text = true.
Proof. intros H. destruct text; cbn [includes]; rewrite H; reflexivity. Qed.

Lemma includes_here (needle a rest : jsstring) : includes needle (a ++ needle ++ rest) = true.
Proof. apply includes_app_r, includes_start, starts_with_app. Qed.

Lemma length_lit (s : string) : List.length (lit s) = String.length s.
Proof.
  unfold lit. rewrite length_map.
  induction s as [|a s IH]; [reflexivity |]. cbn. rewrite IH. reflexivity.
Qed.

(** The legacy improved prompt always holds its five headings and is
    longer than 100 code units. *)
Lemma legacy_improved_shape (original : jsstring) (a : PromptAnalysis) :
  includes (lit "# Objective") (generateImprovedPrompt original a) = true
  /\ includes (lit "# Technical Constraints") (generateImprovedPrompt original a) = true
  /\ includes (lit "# Success Criteria") (generateImprovedPrompt original a) = true
  /\ includes (lit "# Expected Output") (generateImprovedPrompt original a) = true
  /\ (100 <? List.length (generateImprovedPrompt original a))%nat = true.
Proof.
  unfold generateImprovedPrompt. cbv zeta.
  generalize (extractOrInferObjective original) (extractOrInferRequirements original)
    (extractOrInferTechnical original) (extractOrInferOutput original).
  intros o r t u.
  assert (L : List.length (extractOrInferSuccess original) = 127%nat) by reflexivity.
  revert L. generalize (extractOrInferSuccess original). intros v L.
  split; [| split; [| split; [| split]]].
  - rewrite <- !app_assoc. apply (includes_here _ []).
  - rewrite <- !app_assoc, 12 app_assoc, <- (app_assoc _ (lit "# Technical Constraints")).
    apply includes_here.
  - rewrite <- !app_assoc, 24 app_assoc, <- (app_assoc _ (lit "# Success Criteria")).
    apply includes_here.
  - rewrite <- !app_assoc, 18 app_assoc, <- (app_assoc _ (lit "# Expected Output")).
    apply includes_here.
  - apply Nat.ltb_lt. rewrite !length_app, !length_lit, L. cbn [String.length]. lia.
Qed.

Lemma select_nonempty_or_fallback (X : Type) (bs : list bool) (xs : list X) (x : X) :
  List.length bs = List.length xs ->
  (if (List.length (select bs xs) =? 0)%nat then push (select bs xs) x else select bs xs)
  = (if (count_true bs =? 0)%nat then [x] else select bs xs)
  /\ (if (count_true bs =? 0)%nat then [x] else select bs xs) <> [].
Proof.
  intros H. rewrite (select_length _ _ H).
  destruct (count_true bs =? 0)%nat eqn:E.
  - apply Nat.eqb_eq in E. rewrite <- (select_length _ _ H) in E.
    destruct (select bs xs); [split; [reflexivity | discriminate] | discriminate].
  - split; [reflexivity |]. apply Nat.eqb_neq in E.
    rewrite <- (select_length _ _ H) in E. destruct (select bs xs); [| discriminate].
    contradiction E. reflexivity.
Qed.

(** X2. In [improve] the heading tests of the legacy changes summary
    always succeed and the improved prompt is always longer than 100, so
    the summary follows the prompt alone: one entry for each missing cue
    (context, technical detail, success criteria, expected output), one
    when the prompt is shorter than 100, and the single entry "Refined
    and structured the existing prompt" exactly when none applies. It is
    never empty. *)
Theorem legacy_changes_follow_the_prompt (prompt : jsstring) (mode : OptimizerMode) :
  changes_of (improve prompt mode)
  = (if (count_true (legacy_change_flags prompt) =? 0)%nat
     then [lit "Refined and structured the existing prompt"]
     else select (legacy_change_flags prompt) legacy_change_texts)
  /\ changes_of (improve prompt mode) <> [].
Proof.
  assert (E : changes_of (improve prompt mode)
              = changes (generateChangesSummary prompt
                           (generateImprovedPrompt prompt (analyze prompt))))
    by (destruct mode; reflexivity).
  rewrite E. clear E.
  destruct (legacy_improved_shape prompt (analyze prompt)) as (H1 & H2 & H3 & H4 & H5).
  revert H1 H2 H3 H4 H5.
  generalize (generateImprovedPrompt prompt (analyze prompt)). intros improved H1 H2 H3 H4 H5.
  unfold generateChangesSummary. cbv zeta. cbn [changes].
  rewrite H1, H2, H3, H4, H5, !andb_true_r, !push_if_app.
  cbn [app]. rewrite <- !app_assoc.
  replace (when (negb (hasContext prompt)) (lit "Added clear objective and context")
           ++ when (negb (hasTechnicalDetails prompt))
                (lit "Added technical constraints and requirements")
           ++ when (negb (hasSuccessCriteria prompt))
                (lit "Defined measurable success criteria")
           ++ when (negb (hasExpectedOutput prompt)) (lit "Specified expected deliverables")
           ++ when (List.length prompt <? 100)%nat
                (lit "Expanded prompt with structured sections"))
    with (select (legacy_change_flags prompt) legacy_change_texts).
  - destruct (@select_nonempty_or_fallback _ (legacy_change_flags prompt) legacy_change_texts
                (lit "Refined and structured the existing prompt") eq_refl) as [A B].
    rewrite A. split; [reflexivity | exact B].
  - unfold legacy_change_flags, legacy_change_texts.
    rewrite !select_cons. cbn [select]. rewrite app_nil_r. reflexivity.
Qed.

(** ** Gaps, strengths and the fallback triage *)

Lemma findGaps_length (prompt : jsstring) :
  List.length (findGaps prompt) = countMissingCriticalElements prompt.
Proof.
  unfold findGaps, countMissingCriticalElements.
  generalize (hasContext prompt) (hasSuccessCriteria prompt) (hasTechnicalDetails prompt)
    (hasUserNeeds prompt) (hasExpectedOutput prompt).
  intros [] [] [] [] []; reflexivity.
Qed.

(** X3. The number of critical elements the fallback triage counts is
    the number of gaps that [analyze] reports: in the result of
    [improve] in fast mode the reason "Missing n critical elements" is
    given exactly when the analysis lists three or more gaps, and n is
    their number. *)
Theorem triage_counts_the_gaps (prompt : jsstring) :
  List.length (gaps (ip_analysis (improve prompt fast)))
  = countMissingCriticalElements prompt
  /\ option_map reasons (triageResult (improve prompt fast))
     = Some (when (List.length (trim prompt) <? 20)%nat reason_short
             ++ when (3 <=? List.length (gaps (ip_analysis (improve prompt fast))))%nat
                  (reason_missing (List.length (gaps (ip_analysis (improve prompt fast))))))
  /\ triageResult (improve prompt deep) = None.
Proof.
  assert (G : gaps (ip_analysis (improve prompt fast)) = findGaps prompt) by reflexivity.
  assert (T : triageResult (improve prompt fast) = Some (performTriage prompt None))
    by reflexivity.
  rewrite G, T, findGaps_length. cbn [option_map].
  split; [reflexivity |]. split; [| reflexivity].
  unfold performTriage. cbn [reasons].
  destruct (List.length (trim prompt) <? 20)%nat,
    (3 <=? countMissingCriticalElements prompt)%nat; reflexivity.
Qed.

(** ** Invariants of the analyzers *)

(** X4. Style and Audience derive their third flag from the other two:
    it holds only if the first does, and always when the first two do.
    So the score is one of 0, 35, 40, 65 and 100 and never 75, and it is
    below 50 exactly when the derived flag fails. *)
Theorem derived_flags_of_style_and_audience (prompt : jsstring) :
  implb (presentationClear (analyzeStyle prompt)) (formatSpecified (analyzeStyle prompt))
  = true
  /\ implb (formatSpecified (analyzeStyle prompt) && structureDefined (analyzeStyle prompt))
       (presentationClear (analyzeStyle prompt)) = true
  /\ In (s_score (analyzeStyle prompt)) [num 0; num 35; num 40; num 65; num 100]
  /\ lt (s_score (analyzeStyle prompt)) (num 50)
     = negb (presentationClear (analyzeStyle prompt))
  /\ implb (needsAddressed (analyzeAudience prompt))
       (audienceSpecified (analyzeAudience prompt)) = true
  /\ implb (audienceSpecified (analyzeAudience prompt)
            && skillLevelDefined (analyzeAudience prompt))
       (needsAddressed (analyzeAudience prompt)) = true
  /\ In (a_score (analyzeAudience prompt)) [num 0; num 35; num 40; num 65; num 100]
  /\ lt (a_score (analyzeAudience prompt)) (num 50)
     = negb (needsAddressed (analyzeAudience prompt)).
Proof.
  cbv beta iota zeta delta
    [analyzeStyle analyzeAudience s_score a_score formatSpecified structureDefined
       presentationClear audienceSpecified skillLevelDefined needsAddressed].
  repeat match goal with |- _ /\ _ => split end; by_tests prompt.
Qed.

(** X5. Tone: a request for a consistent voice counts only when a tone
    is specified; the score is a multiple of 25, and it reaches 50
    exactly when a tone is specified. The formality level follows the
    first of the three word groups that occurs, whatever else occurs. *)
Theorem tone_flags (prompt : jsstring) :
  implb (voiceConsistency (analyzeTone prompt)) (toneSpecified (analyzeTone prompt)) = true
  /\ In (t_score (analyzeTone prompt)) [num 0; num 25; num 50; num 75; num 100]
  /\ lt (t_score (analyzeTone prompt)) (num 50) = negb (toneSpecified (analyzeTone prompt))
  /\ formalityLevel (analyzeTone prompt)
     = (if test_words [lit "formal"; lit "professional"; lit "business"] prompt then formal
        else if test_words [lit "casual"; lit "friendly"; lit "conversational"; lit "informal"]
                  prompt then casual
        else if test_words [lit "technical"; lit "precise"; lit "expert"; lit "developer"]
                  prompt then technical
        else unspecified).
Proof.
  cbv beta iota zeta delta
    [analyzeTone t_score toneSpecified voiceConsistency formalityLevel].
  split; [| split; [| split]].
  4: reflexivity.
  all: by_tests prompt.
Qed.

(** X6. The second score of Context and of Objective is computed twice
    by the same additions: [situationClarity] and [clarityScore] always
    equal [score], which [Math.min] never has to cut. *)
Theorem duplicate_scores_agree (prompt : jsstring) :
  situationClarity (analyzeContext prompt) = c_score (analyzeContext prompt)
  /\ clarityScore (analyzeObjective prompt) = o_score (analyzeObjective prompt).
Proof.
  cbv beta iota zeta delta
    [analyzeContext analyzeObjective situationClarity clarityScore c_score o_score].
  split.
  - generalize (hasTechnicalDetails prompt). intro. by_tests prompt.
  - generalize (hasSuccessCriteria prompt) (hasUnrealisticScope prompt). intros.
    by_tests prompt.
Qed.

(** X7. Every suggestion of an analyzer starts with the tag of its
    component, and every issue comes with a suggestion: no analyzer
    reports more issues than suggestions. *)
Theorem suggestions_are_tagged (prompt : jsstring) :
  (all_tagged "[C] " (c_suggestions (analyzeContext prompt))
   && (List.length (c_issues (analyzeContext prompt))
       <=? List.length (c_suggestions (analyzeContext prompt)))%nat = true)
  /\ (all_tagged "[O] " (o_suggestions (analyzeObjective prompt))
      && (List.length (o_issues (analyzeObjective prompt))
          <=? List.length (o_suggestions (analyzeObjective prompt)))%nat = true)
  /\ (all_tagged "[S] " (s_suggestions (analyzeStyle prompt))
      && (List.length (s_issues (analyzeStyle prompt))
          <=? List.length (s_suggestions (analyzeStyle prompt)))%nat = true)
  /\ (all_tagged "[T] " (t_suggestions (analyzeTone prompt))
      && (List.length (t_issues (analyzeTone prompt))
          <=? List.length (t_suggestions (analyzeTone prompt)))%nat = true)
  /\ (all_tagged "[A] " (a_suggestions (analyzeAudience prompt))
      && (List.length (a_issues (analyzeAudience prompt))
          <=? List.length (a_suggestions (analyzeAudience prompt)))%nat = true)
  /\ (all_tagged "[R] " (r_suggestions (analyzeResponse prompt))
      && (List.length (r_issues (analyzeResponse prompt))
          <=? List.length (r_suggestions (analyzeResponse prompt)))%nat = true).
Proof.
  cbv beta iota zeta delta
    [analyzeContext analyzeObjective analyzeStyle analyzeTone analyzeAudience analyzeResponse
       c_suggestions o_suggestions s_suggestions t_suggestions a_suggestions r_suggestions
       c_issues o_issues s_issues t_issues a_issues r_issues].
  repeat match goal with |- _ /\ _ => split end.
  - by_tests prompt.
  - generalize (hasSuccessCriteria prompt) (hasUnrealisticScope prompt). intros.
    by_tests prompt.
  - by_tests prompt.
  - by_tests prompt.
  - by_tests prompt.
  - generalize (hasExpectedOutput prompt). intro. by_tests prompt.
Qed.

(** ** Strengths of the legacy mapping *)

Lemma score_80_means_no_issue (prompt : jsstring) :
  ge (c_score (analyzeContext prompt)) (num 80) = is_nil (c_issues (analyzeContext prompt))
  /\ ge (o_score (analyzeObjective prompt)) (num 80)
     = is_nil (o_issues (analyzeObjective prompt))
  /\ ge (s_score (analyzeStyle prompt)) (num 80) = is_nil (s_issues (analyzeStyle prompt))
  /\ ge (r_score (analyzeResponse prompt)) (num 80)
     = is_nil (r_issues (analyzeResponse prompt)).
Proof.
  cbv beta iota zeta delta
    [analyzeContext analyzeObjective analyzeStyle analyzeResponse
       c_score o_score s_score r_score c_issues o_issues s_issues r_issues].
  repeat match goal with |- _ /\ _ => split end.
  - generalize (hasTechnicalDetails prompt). intro. by_tests prompt.
  - generalize (hasSuccessCriteria prompt) (hasUnrealisticScope prompt). intros.
    by_tests prompt.
  - by_tests prompt.
  - generalize (hasExpectedOutput prompt). intro. by_tests prompt.
Qed.

Lemma is_nil_app (X : Type) (a b : list X) : is_nil (a ++ b) = is_nil a && is_nil b.
Proof. destruct a; reflexivity. Qed.

(** X8. For the analysis of any prompt, in either mode, the legacy
    mapping lists the [C], [O], [S] strength exactly when Context,
    Objective, Style reported no issue. So it has no gaps exactly when
    it lists both the [C] and the [O] strength, and no ambiguities
    exactly when it lists the [S] strength; in deep mode the [R]
    strength is listed exactly when Response reported no issue. The list
    of strengths is never empty. *)
Theorem strengths_mirror_issues (prompt : jsstring) (mode : OptimizerMode) :
  has_text strength_C (strengths (mapCOSTARToLegacy (applyCOSTARFramework prompt mode)))
  = is_nil (c_issues (analyzeContext prompt))
  /\ has_text strength_O (strengths (mapCOSTARToLegacy (applyCOSTARFramework prompt mode)))
     = is_nil (o_issues (analyzeObjective prompt))
  /\ has_text strength_S (strengths (mapCOSTARToLegacy (applyCOSTARFramework prompt mode)))
     = is_nil (ambiguities (mapCOSTARToLegacy (applyCOSTARFramework prompt mode)))
  /\ is_nil (gaps (mapCOSTARToLegacy (applyCOSTARFramework prompt mode)))
     = has_text strength_C (strengths (mapCOSTARToLegacy (applyCOSTARFramework prompt mode)))
       && has_text strength_O
            (strengths (mapCOSTARToLegacy (applyCOSTARFramework prompt mode)))
  /\ has_text strength_R (strengths (mapCOSTARToLegacy (applyCOSTARFramework prompt deep)))
     = is_nil (r_issues (analyzeResponse prompt))
  /\ is_nil (strengths (mapCOSTARToLegacy (applyCOSTARFramework prompt mode))) = false.
Proof.
  destruct (score_80_means_no_issue prompt) as (Hc & Ho & Hs & Hr).
  assert (G : forall m, gaps (mapCOSTARToLegacy (applyCOSTARFramework prompt m))
                        = c_issues (analyzeContext prompt) ++ o_issues (analyzeObjective prompt))
    by (intros []; reflexivity).
  assert (A : forall m, ambiguities (mapCOSTARToLegacy (applyCOSTARFramework prompt m))
                        = s_issues (analyzeStyle prompt))
    by (intros []; reflexivity).
  rewrite G, A, is_nil_app, <- Hc, <- Ho, <- Hs, <- Hr. clear G A Hc Ho Hs Hr.
  assert (F : strengths (mapCOSTARToLegacy (applyCOSTARFramework prompt fast))
    = let strengths := [] in
      let strengths := push_if (ge (c_score (analyzeContext prompt)) (num 80))
                         (lit "[C] Rich context with background and constraints") strengths in
      let strengths := push_if (ge (o_score (analyzeObjective prompt)) (num 80))
                         (lit "[O] Clear, measurable objective") strengths in
      let strengths := push_if (ge (s_score (analyzeStyle prompt)) (num 80))
                         (lit "[S] Well-defined format and structure") strengths in
      if (List.length strengths =? 0)%nat
      then push strengths (lit "Prompt has been structured with COSTAR framework")
      else strengths).
  { cbv beta iota zeta delta
      [mapCOSTARToLegacy strengths extractCOSTARStrengths applyCOSTARFramework analysis
         context objective style tone audience response].
    generalize (ge (c_score (analyzeContext prompt)) (num 80))
      (ge (o_score (analyzeObjective prompt)) (num 80))
      (ge (s_score (analyzeStyle prompt)) (num 80)).
    intros [] [] []; reflexivity. }
  assert (D : strengths (mapCOSTARToLegacy (applyCOSTARFramework prompt deep))
    = let strengths := [] in
      let strengths := push_if (ge (c_score (analyzeContext prompt)) (num 80))
                         (lit "[C] Rich context with background and constraints") strengths in
      let strengths := push_if (ge (o_score (analyzeObjective prompt)) (num 80))
                         (lit "[O] Clear, measurable objective") strengths in
      let strengths := push_if (ge (s_score (analyzeStyle prompt)) (num 80))
                         (lit "[S] Well-defined format and structure") strengths in
      let strengths := push_if (ge (t_score (analyzeTone prompt)) (num 80))
                         (lit "[T] Appropriate tone and voice specified") strengths in
      let strengths := push_if (ge (a_score (analyzeAudience prompt)) (num 80))
                         (lit "[A] Clear audience definition and skill level") strengths in
      let strengths := push_if (ge (r_score (analyzeResponse prompt)) (num 80))
                         (lit "[R] Clear deliverables and response format") strengths in
      if (List.length strengths =? 0)%nat
      then push strengths (lit "Prompt has been structured with COSTAR framework")
      else strengths).
  { cbv beta iota zeta delta
      [mapCOSTARToLegacy strengths extractCOSTARStrengths applyCOSTARFramework analysis
         context objective style tone audience response].
    reflexivity. }
  destruct mode; rewrite ?F, D; clear F D; cbv zeta;
    generalize (ge (c_score (analyzeContext prompt)) (num 80))
      (ge (o_score (analyzeObjective prompt)) (num 80))
      (ge (s_score (analyzeStyle prompt)) (num 80))
      (ge (t_score (analyzeTone prompt)) (num 80))
      (ge (a_score (analyzeAudience prompt)) (num 80))
      (ge (r_score (analyzeResponse prompt)) (num 80));
    intros [] [] [] [] [] []; repeat split; vm_compute; reflexivity.
Qed.

(** ** Triage of an analysed prompt *)

Lemma low_scores_by_flags (prompt : jsstring) :
  lt (c_score (analyzeContext prompt)) (num 60)
  = negb (hasBackground (analyzeContext prompt)
          && (hasConstraints (analyzeContext prompt) || hasTechnicalDetails prompt))
  /\ lt (o_score (analyzeObjective prompt)) (num 60)
     = negb (two_of (goalClarity (analyzeObjective prompt))
               (measurable (analyzeObjective prompt))
               (achievable (analyzeObjective prompt)))
  /\ lt (s_score (analyzeStyle prompt)) (num 50)
     = negb (presentationClear (analyzeStyle prompt)).
Proof.
  cbv beta iota zeta delta
    [analyzeContext analyzeObjective analyzeStyle c_score o_score s_score
       hasBackground hasConstraints goalClarity measurable achievable presentationClear].
  repeat match goal with |- _ /\ _ => split end.
  - generalize (hasTechnicalDetails prompt). intro. by_tests prompt.
  - generalize (hasSuccessCriteria prompt) (hasUnrealisticScope prompt). intros.
    by_tests prompt.
  - by_tests prompt.
Qed.

(** X9. Triage of a prompt with its own analysis, in either mode,
    recommends deep analysis unless the prompt has background together
    with constraints or technical terms, at least two of the three
    Objective flags, and a clear presentation. *)
Theorem triage_of_an_analysed_prompt (prompt : jsstring) (mode : OptimizerMode) :
  needsDeepAnalysis (performTriage prompt (Some (applyCOSTARFramework prompt mode)))
  = negb (hasBackground (analyzeContext prompt)
          && (hasConstraints (analyzeContext prompt) || hasTechnicalDetails prompt)
          && two_of (goalClarity (analyzeObjective prompt))
               (measurable (analyzeObjective prompt))
               (achievable (analyzeObjective prompt))
          && presentationClear (analyzeStyle prompt)).
Proof.
  destruct (low_scores_by_flags prompt) as (Hc & Ho & Hs).
  assert (E : needsDeepAnalysis (performTriage prompt (Some (applyCOSTARFramework prompt mode)))
              = lt (c_score (analyzeContext prompt)) (num 60)
                || lt (o_score (analyzeObjective prompt)) (num 60)
                || lt (s_score (analyzeStyle prompt)) (num 50)).
  { unfold performTriage. cbn [needsDeepAnalysis].
    replace (c_score (context (analysis (applyCOSTARFramework prompt mode))))
      with (c_score (analyzeContext prompt)) by (destruct mode; reflexivity).
    replace (o_score (objective (analysis (applyCOSTARFramework prompt mode))))
      with (o_score (analyzeObjective prompt)) by (destruct mode; reflexivity).
    replace (s_score (style (analysis (applyCOSTARFramework prompt mode))))
      with (s_score (analyzeStyle prompt)) by (destruct mode; reflexivity).
    destruct (lt (c_score _) _), (lt (o_score _) _), (lt (s_score _) _); reflexivity. }
  rewrite E, Hc, Ho, Hs.
  generalize (hasBackground (analyzeContext prompt))
    (hasConstraints (analyzeContext prompt) || hasTechnicalDetails prompt)
    (two_of (goalClarity (analyzeObjective prompt)) (measurable (analyzeObjective prompt))
       (achievable (analyzeObjective prompt)))
    (presentationClear (analyzeStyle prompt)).
  intros [] [] [] []; reflexivity.
Qed.

(** ** Exactness of the aggregation *)

Lemma num_eqb_eq (x y : number) : num_eqb x y = true -> x = y.
Proof.
  destruct x as [a|a| |a m e], y as [b|b| |b n f]; cbn; try discriminate; try reflexivity.
  - intros H. apply eqb_prop in H. subst. reflexivity.
  - intros H. apply eqb_prop in H. subst. reflexivity.
  - intros H. apply andb_prop in H as [H He]. apply andb_prop in H as [Hs Hm].
    apply eqb_prop in Hs. apply Pos.eqb_eq in Hm. apply Z.eqb_eq in He. subst. reflexivity.
Qed.

Lemma in_upto (n : nat) (z : Z) : (0 <= z <= Z.of_nat n)%Z -> In z (upto n).
Proof.
  intros H. unfold upto.
  replace z with (Z.of_nat (Z.to_nat z)) by lia.
  apply in_map, in_seq. lia.
Qed.

Lemma product_tables :
  product_table context_scores w_02 q20 = true
  /\ product_table objective_scores w_02 q20 = true
  /\ product_table style_scores w_015 q15 = true
  /\ product_table tone_scores w_015 q15 = true
  /\ product_table audience_scores w_015 q15 = true
  /\ product_table response_scores w_015 q15 = true.
Proof. repeat split; vm_compute; reflexivity. Qed.

Lemma sum_tables :
  sum_table 80 objective_scores q20 = true
  /\ sum_table 160 style_scores q15 = true
  /\ sum_table 220 tone_scores q15 = true
  /\ sum_table 280 audience_scores q15 = true
  /\ sum_table 340 response_scores q15 = true.
Proof. repeat split; vm_compute; reflexivity. Qed.

Lemma final_table_holds : final_table = true.
Proof. vm_compute. reflexivity. Qed.

Lemma product_exact (scores : list Z) (weight : number) (q : Z -> Z) (z : Z) :
  product_table scores weight q = true -> In z scores ->
  mul (num z) weight = quarters (q z).
Proof.
  intros T H. unfold product_table in T. rewrite forallb_forall in T.
  apply num_eqb_eq, T, H.
Qed.

Lemma sum_exact (bound : nat) (scores : list Z) (q : Z -> Z) (i z : Z) :
  sum_table bound scores q = true -> (0 <= i <= Z.of_nat bound)%Z -> In z scores ->
  add (quarters i) (quarters (q z)) = quarters (i + q z).
Proof.
  intros T Hi H. unfold sum_table in T. rewrite forallb_forall in T.
  specialize (T i (in_upto _ Hi)). rewrite forallb_forall in T.
  apply num_eqb_eq, T, H.
Qed.

Lemma final_exact (k : Z) :
  (0 <= k <= 400)%Z ->
  Math_round (quarters k) = num (round_half_up (25 * k))
  /\ rating_of (quarters k) = band (25 * k).
Proof.
  intros H. pose proof final_table_holds as T. unfold final_table in T.
  rewrite forallb_forall in T. specialize (T k (in_upto 400 H)).
  apply andb_prop in T as [T1 T2]. split; [apply num_eqb_eq, T1 |].
  destruct (rating_of (quarters k)), (band (25 * k)); try discriminate; reflexivity.
Qed.

Lemma scores_are_listed (prompt : jsstring) :
  In (c_score (analyzeContext prompt)) (List.map num context_scores)
  /\ In (o_score (analyzeObjective prompt)) (List.map num objective_scores)
  /\ In (s_score (analyzeStyle prompt)) (List.map num style_scores)
  /\ In (t_score (analyzeTone prompt)) (List.map num tone_scores)
  /\ In (a_score (analyzeAudience prompt)) (List.map num audience_scores)
  /\ In (r_score (analyzeResponse prompt)) (List.map num response_scores).
Proof.
  cbv beta iota zeta delta
    [analyzeContext analyzeObjective analyzeStyle analyzeTone analyzeAudience analyzeResponse
       c_score o_score s_score t_score a_score r_score].
  repeat match goal with |- _ /\ _ => split end.
  - generalize (hasTechnicalDetails prompt). intro. by_tests prompt.
  - generalize (hasSuccessCriteria prompt) (hasUnrealisticScope prompt). intros.
    by_tests prompt.
  - by_tests prompt.
  - by_tests prompt.
  - by_tests prompt.
  - generalize (hasExpectedOutput prompt). intro. by_tests prompt.
Qed.

Lemma listed_score (x : number) (scores : list Z) :
  forallb (fun z => (points (num z) =? z)%Z) scores = true ->
  In x (List.map num scores) -> x = num (points x) /\ In (points x) scores.
Proof.
  intros T H. apply in_map_iff in H as (z & <- & Hz).
  rewrite forallb_forall in T. specialize (T z Hz). apply Z.eqb_eq in T.
  rewrite T. split; [reflexivity | exact Hz].
Qed.

Ltac cases_in H :=
  repeat (destruct H as [H | H]; [subst; vm_compute; repeat split; congruence |]);
  contradiction H.

Lemma q20_bounds (z : Z) :
  In z context_scores \/ In z objective_scores ->
  (0 <= q20 z <= 80 /\ 25 * q20 z = 20 * z /\ 0 <= z <= 100)%Z.
Proof. intros [H | H]; cases_in H. Qed.

Lemma q15_bounds (z : Z) :
  In z style_scores \/ In z tone_scores \/ In z audience_scores \/ In z response_scores ->
  (0 <= q15 z <= 60 /\ 25 * q15 z = 15 * z /\ 0 <= z <= 100)%Z.
Proof. intros [H | [H | [H | H]]]; cases_in H. Qed.

Lemma to_Z_num (z : Z) : (0 <= z <= 100)%Z -> to_Z (num z) = Some z.
Proof.
  intros H.
  assert (T : forallb (fun z => match to_Z (num z) with
                                | Some y => (y =? z)%Z
                                | None => false
                                end) (upto 100) = true) by (vm_compute; reflexivity).
  rewrite forallb_forall in T. specialize (T z (in_upto 100 H)).
  destruct (to_Z (num z)); [| discriminate]. apply Z.eqb_eq in T. subst. reflexivity.
Qed.

(** The weighted sum of deep mode over listed scores, in quarters. *)
Lemma deep_sum_exact (c o s t a r : Z) :
  In c context_scores -> In o objective_scores -> In s style_scores ->
  In t tone_scores -> In a audience_scores -> In r response_scores ->
  add (add (add (add (add (mul (num c) w_02) (mul (num o) w_02)) (mul (num s) w_015))
                (mul (num t) w_015)) (mul (num a) w_015)) (mul (num r) w_015)
  = quarters (q20 c + q20 o + q15 s + q15 t + q15 a + q15 r).
Proof.
  intros Hc Ho Hs Ht Ha Hr.
  destruct product_tables as (Pc & Po & Ps & Pt & Pa & Pr).
  destruct sum_tables as (So & Ss & St & Sa & Sr).
  destruct (@q20_bounds c (or_introl Hc)) as (Bc & _).
  destruct (@q20_bounds o (or_intror Ho)) as (Bo & _).
  destruct (@q15_bounds s (or_introl Hs)) as (Bs & _).
  destruct (@q15_bounds t (or_intror (or_introl Ht))) as (Bt & _).
  destruct (@q15_bounds a (or_intror (or_intror (or_introl Ha)))) as (Ba & _).
  rewrite (@product_exact _ _ _ _ Pc Hc), (@product_exact _ _ _ _ Po Ho),
    (@product_exact _ _ _ _ Ps Hs), (@product_exact _ _ _ _ Pt Ht),
    (@product_exact _ _ _ _ Pa Ha), (@product_exact _ _ _ _ Pr Hr).
  rewrite (@sum_exact _ _ _ _ _ So) by (cbn; auto; lia).
  rewrite (@sum_exact _ _ _ _ _ Ss) by (cbn; auto; lia).
  rewrite (@sum_exact _ _ _ _ _ St) by (cbn; auto; lia).
  rewrite (@sum_exact _ _ _ _ _ Sa) by (cbn; auto; lia).
  rewrite (@sum_exact _ _ _ _ _ Sr) by (cbn; auto; lia).
  reflexivity.
Qed.

Lemma fast_sum_exact (c o s : Z) :
  In c context_scores -> In o objective_scores -> In s style_scores ->
  to_Z (Math_round (add (add (mul (num c) w_035) (mul (num o) w_035)) (mul (num s) w_03)))
  = Some (round_half_up (35 * c + 35 * o + 30 * s))
  /\ rating_of (add (add (mul (num c) w_035) (mul (num o) w_035)) (mul (num s) w_03))
     = band (35 * c + 35 * o + 30 * s).
Proof.
  intros Hc Ho Hs. pose proof (@fast_scores_exact c o s Hc Ho Hs) as A.
  unfold agrees in A.
  change (overall (calculateCOSTARScore (fast_record c o s)))
    with (Math_round (add (add (mul (num c) w_035) (mul (num o) w_035)) (mul (num s) w_03)))
    in A.
  change (rating (calculateCOSTARScore (fast_record c o s)))
    with (rating_of (add (add (mul (num c) w_035) (mul (num o) w_035)) (mul (num s) w_03)))
    in A.
  apply andb_prop in A as [A1 A2].
  destruct (to_Z (Math_round _)) as [z|]; [| discriminate].
  apply Z.eqb_eq in A1. subst z. split; [reflexivity |].
  destruct (rating_of _), (band _); try discriminate; reflexivity.
Qed.

Lemma round_half_up_percent (h : Z) :
  (0 <= h <= 10000)%Z -> (0 <= round_half_up h <= 100)%Z.
Proof. intros H. unfold round_half_up. Z.div_mod_to_equations. lia. Qed.

(** X10. For every prompt the binary64 aggregation is exact. With the
    six component scores read as integers, the returned overall is the
    integer nearest to 0.35 C + 0.35 O + 0.30 S in fast mode and to
    0.20 C + 0.20 O + 0.15 (S + T + A + R) in deep mode, a half going up,
    so an integer of [0, 100]; the rating is the band of that sum before
    it is rounded. *)
Theorem overall_is_exact (prompt : jsstring) :
  let c := points (c_score (analyzeContext prompt)) in
  let o := points (o_score (analyzeObjective prompt)) in
  let s := points (s_score (analyzeStyle prompt)) in
  let t := points (t_score (analyzeTone prompt)) in
  let a := points (a_score (analyzeAudience prompt)) in
  let r := points (r_score (analyzeResponse prompt)) in
  component_scores (analysis (applyCOSTARFramework prompt deep))
  = [num c; num o; num s; num t; num a; num r]
  /\ to_Z (overallScore (applyCOSTARFramework prompt fast))
     = Some (round_half_up (35 * c + 35 * o + 30 * s))
  /\ rating (calculateCOSTARScore (analysis (applyCOSTARFramework prompt fast)))
     = band (35 * c + 35 * o + 30 * s)
  /\ to_Z (overallScore (applyCOSTARFramework prompt deep))
     = Some (round_half_up (20 * c + 20 * o + 15 * s + 15 * t + 15 * a + 15 * r))
  /\ rating (calculateCOSTARScore (analysis (applyCOSTARFramework prompt deep)))
     = band (20 * c + 20 * o + 15 * s + 15 * t + 15 * a + 15 * r)
  /\ is_percent (overallScore (applyCOSTARFramework prompt fast)) = true
  /\ is_percent (overallScore (applyCOSTARFramework prompt deep)) = true.
Proof.
  cbv zeta.
  destruct (scores_are_listed prompt) as (Lc & Lo & Ls & Lt & La & Lr).
  apply listed_score in Lc as [Ec Ic]; [| reflexivity].
  apply listed_score in Lo as [Eo Io]; [| reflexivity].
  apply listed_score in Ls as [Es Is]; [| reflexivity].
  apply listed_score in Lt as [Et It]; [| reflexivity].
  apply listed_score in La as [Ea Ia]; [| reflexivity].
  apply listed_score in Lr as [Er Ir]; [| reflexivity].
  assert (F : overallScore (applyCOSTARFramework prompt fast)
              = Math_round (add (add (mul (c_score (analyzeContext prompt)) w_035)
                                     (mul (o_score (analyzeObjective prompt)) w_035))
                                (mul (s_score (analyzeStyle prompt)) w_03))) by reflexivity.
  assert (FR : rating (calculateCOSTARScore (analysis (applyCOSTARFramework prompt fast)))
               = rating_of (add (add (mul (c_score (analyzeContext prompt)) w_035)
                                     (mul (o_score (analyzeObjective prompt)) w_035))
                                (mul (s_score (analyzeStyle prompt)) w_03))) by reflexivity.
  assert (D : overallScore (applyCOSTARFramework prompt deep)
              = Math_round
                  (add (add (add (add (add
                     (mul (c_score (analyzeContext prompt)) w_02)
                     (mul (o_score (analyzeObjective prompt)) w_02))
                     (mul (s_score (analyzeStyle prompt)) w_015))
                     (mul (t_score (analyzeTone prompt)) w_015))
                     (mul (a_score (analyzeAudience prompt)) w_015))
                     (mul (r_score (analyzeResponse prompt)) w_015))) by reflexivity.
  assert (DR : rating (calculateCOSTARScore (analysis (applyCOSTARFramework prompt deep)))
               = rating_of
                  (add (add (add (add (add
                     (mul (c_score (analyzeContext prompt)) w_02)
                     (mul (o_score (analyzeObjective prompt)) w_02))
                     (mul (s_score (analyzeStyle prompt)) w_015))
                     (mul (t_score (analyzeTone prompt)) w_015))
                     (mul (a_score (analyzeAudience prompt)) w_015))
                     (mul (r_score (analyzeResponse prompt)) w_015))) by reflexivity.
  assert (CS : component_scores (analysis (applyCOSTARFramework prompt deep))
               = [c_score (analyzeContext prompt); o_score (analyzeObjective prompt);
                  s_score (analyzeStyle prompt); t_score (analyzeTone prompt);
                  a_score (analyzeAudience prompt); r_score (analyzeResponse prompt)])
    by reflexivity.
  revert F FR D DR CS.
  generalize (applyCOSTARFramework prompt fast) (applyCOSTARFramework prompt deep).
  intros rf rd F FR D DR CS.
  rewrite F, FR, D, DR, CS. clear F FR D DR CS rf rd.
  revert Ec Eo Es Et Ea Er Ic Io Is It Ia Ir.
  generalize (c_score (analyzeContext prompt)) (o_score (analyzeObjective prompt))
    (s_score (analyzeStyle prompt)) (t_score (analyzeTone prompt))
    (a_score (analyzeAudience prompt)) (r_score (analyzeResponse prompt)).
  intros xc xo xs xt xa xr Ec Eo Es Et Ea Er Ic Io Is It Ia Ir.
  generalize dependent (points xc). intros c Ec Ic.
  generalize dependent (points xo). intros o Eo Io.
  generalize dependent (points xs). intros s Es Is.
  generalize dependent (points xt). intros t Et It.
  generalize dependent (points xa). intros a Ea Ia.
  generalize dependent (points xr). intros r Er Ir.
  subst xc xo xs xt xa xr.
  destruct (@fast_sum_exact c o s Ic Io Is) as [F1 F2].
  rewrite (@deep_sum_exact c o s t a r Ic Io Is It Ia Ir).
  destruct (@q20_bounds c (or_introl Ic)) as (Bc & Qc & Rc).
  destruct (@q20_bounds o (or_intror Io)) as (Bo & Qo & Ro).
  destruct (@q15_bounds s (or_introl Is)) as (Bs & Qs & Rs).
  destruct (@q15_bounds t (or_intror (or_introl It))) as (Bt & Qt & Rt).
  destruct (@q15_bounds a (or_intror (or_intror (or_introl Ia)))) as (Ba & Qa & Ra).
  destruct (@q15_bounds r (or_intror (or_intror (or_intror Ir)))) as (Br & Qr & Rr).
  destruct (@final_exact (q20 c + q20 o + q15 s + q15 t + q15 a + q15 r)) as [D1 D2];
    [lia |].
  replace (25 * (q20 c + q20 o + q15 s + q15 t + q15 a + q15 r))%Z
    with (20 * c + 20 * o + 15 * s + 15 * t + 15 * a + 15 * r)%Z in D1, D2 by lia.
  assert (P1 : (0 <= round_half_up (35 * c + 35 * o + 30 * s) <= 100)%Z)
    by (apply round_half_up_percent; lia).
  assert (P2 : (0 <= round_half_up (20 * c + 20 * o + 15 * s + 15 * t + 15 * a + 15 * r)
                <= 100)%Z)
    by (apply round_half_up_percent; lia).
  rewrite D1, D2, F1, F2, (@to_Z_num _ P2).
  unfold is_percent. rewrite F1, (@to_Z_num _ P2).
  repeat split; apply andb_true_intro; split; apply Z.leb_le; lia.
Qed.

(** ** Case of letters *)

Lemma canon_eq_cases (c d : code_unit) :
  canon c = canon d ->
  c = d \/ ((65 <= c <= 90)%N /\ d = (c + 32)%N) \/ ((65 <= d <= 90)%N /\ c = (d + 32)%N).
Proof.
  unfold canon, is_upper, in_range.
  destruct (N.leb_spec 65 c), (N.leb_spec c 90), (N.leb_spec 65 d), (N.leb_spec d 90);
    cbn [andb]; intros E; lia.
Qed.

Lemma upper_classes (c : code_unit) :
  (65 <= c <= 90)%N ->
  is_word_char c = true /\ is_word_char (c + 32)%N = true
  /\ is_space c = false /\ is_space (c + 32)%N = false.
Proof.
  intros H.
  assert (T : forallb (fun c => is_word_char c && is_word_char (c + 32)%N
                                && negb (is_space c) && negb (is_space (c + 32)%N))
                (List.map N.of_nat (seq 65 26)) = true) by (vm_compute; reflexivity).
  rewrite forallb_forall in T.
  assert (I : In c (List.map N.of_nat (seq 65 26))).
  { replace c with (N.of_nat (N.to_nat c)) by lia. apply in_map, in_seq. lia. }
  specialize (T c I).
  apply andb_prop in T as [T T4]. apply andb_prop in T as [T T3].
  apply andb_prop in T as [T1 T2].
  apply negb_true_iff in T3, T4. auto.
Qed.

Lemma canon_keeps_classes (c d : code_unit) :
  canon c = canon d -> is_word_char c = is_word_char d /\ is_space c = is_space d.
Proof.
  intros H. destruct (@canon_eq_cases _ _ H) as [-> | [[R ->] | [R ->]]];
    [split; reflexivity | |];
    destruct (@upper_classes _ R) as (W1 & W2 & S1 & S2);
    rewrite W1, W2, S1, S2; split; reflexivity.
Qed.

Lemma ci_eq_cons (c d : code_unit) (s t : jsstring) :
  ci_eq (c :: s) (d :: t) <-> canon c = canon d /\ ci_eq s t.
Proof.
  unfold ci_eq. cbn [List.map]. split.
  - intros H. injection H as H1 H2. auto.
  - intros [H1 H2]. rewrite H1, H2. reflexivity.
Qed.

Lemma ci_eq_nil (s : jsstring) : ci_eq [] s -> s = [].
Proof. destruct s; [reflexivity | discriminate]. Qed.

Lemma ci_eq_nil_r (s : jsstring) : ci_eq s [] -> s = [].
Proof. destruct s; [reflexivity | discriminate]. Qed.

Lemma ci_eq_length (s t : jsstring) : ci_eq s t -> List.length s = List.length t.
Proof.
  unfold ci_eq. intros H. rewrite <- (length_map canon s), H. apply length_map.
Qed.

(** Matching a literal does not see the case of the input. *)
Lemma match_lit_ci (w : jsstring) :
  forall prev prev' s s',
    word_side prev = word_side prev' -> ci_eq s s' ->
    match match_lit w prev s, match_lit w prev' s' with
    | Some (p, r), Some (p', r') => word_side p = word_side p' /\ ci_eq r r'
    | None, None => True
    | _, _ => False
    end.
Proof.
  induction w as [|x w IH]; intros prev prev' s s' Hp Hs; cbn [match_lit].
  - split; assumption.
  - destruct s as [|c s], s' as [|d s']; try exact I;
      try (apply ci_eq_nil in Hs; discriminate);
      try (apply ci_eq_nil_r in Hs; discriminate).
    apply ci_eq_cons in Hs as [Hc Hs]. rewrite Hc.
    destruct (canon d =? canon x)%N; [| exact I].
    apply IH; [| exact Hs]. cbn [word_side]. apply canon_keeps_classes, Hc.
Qed.

Lemma at_boundary_ci (prev prev' : prev_char) (s s' : jsstring) :
  word_side prev = word_side prev' -> ci_eq s s' -> at_boundary prev s = at_boundary prev' s'.
Proof.
  intros Hp Hs. unfold at_boundary. rewrite Hp. f_equal.
  destruct s as [|c s], s' as [|d s']; try reflexivity;
    try (apply ci_eq_nil in Hs; discriminate);
    try (apply ci_eq_nil_r in Hs; discriminate).
  apply ci_eq_cons in Hs as [Hc _]. cbn. apply canon_keeps_classes, Hc.
Qed.

Lemma first_alt_ext (X Y : Type) (f g : X -> option Y) (xs : list X) :
  (forall x, is_some (f x) = is_some (g x)) ->
  is_some (first_alt f xs) = is_some (first_alt g xs).
Proof.
  intros H. induction xs as [|x xs IH]; [reflexivity |].
  cbn [first_alt]. specialize (H x).
  destruct (f x), (g x); try discriminate; [reflexivity | exact IH].
Qed.

(** A position test that does not see the case of the input. *)
Lemma search_ci (X : Type) (here : prev_char -> jsstring -> option X) :
  blind here -> blind (search here).
Proof.
  intros B prev prev' s. revert prev prev'.
  induction s as [|c s IH]; intros prev prev' s' Hp Hs.
  - apply ci_eq_nil in Hs. subst s'. cbn [search].
    specialize (B prev prev' [] [] Hp eq_refl).
    destruct (here prev []), (here prev' []); try discriminate; reflexivity.
  - destruct s' as [|d s']; [apply ci_eq_nil_r in Hs; discriminate |].
    cbn [search]. pose proof (B prev prev' _ _ Hp Hs) as E.
    apply ci_eq_cons in Hs as [Hc Hs].
    destruct (here prev (c :: s)), (here prev' (d :: s')); try discriminate;
      [reflexivity |].
    apply IH; [| exact Hs]. cbn [word_side]. apply canon_keeps_classes, Hc.
Qed.

Lemma ci_eq_head_shape (r r' : jsstring) :
  ci_eq r r' -> is_nil r = is_nil r'
                /\ match r, r' with
                   | c :: _, d :: _ => is_space c = is_space d
                   | _, _ => True
                   end.
Proof.
  intros H. destruct r as [|c r], r' as [|d r']; try (split; [reflexivity | exact I]);
    try (apply ci_eq_nil in H; discriminate); try (apply ci_eq_nil_r in H; discriminate).
  apply ci_eq_cons in H as [Hc _]. split; [reflexivity |]. apply canon_keeps_classes, Hc.
Qed.

Lemma alt_then_boundary_ci (ws : list jsstring) : blind (alt_then_boundary ws).
Proof.
  intros prev prev' s s' Hp Hs. unfold alt_then_boundary. apply first_alt_ext. intros w.
  pose proof (@match_lit_ci w prev prev' s s' Hp Hs) as M.
  destruct (match_lit w prev s) as [[p r]|], (match_lit w prev' s') as [[p' r']|];
    try contradiction; [| reflexivity].
  destruct M as [Mp Mr]. rewrite (@at_boundary_ci p p' r r' Mp Mr). reflexivity.
Qed.

Lemma test_words_ci (ws : list jsstring) (s s' : jsstring) :
  ci_eq s s' -> test_words ws s = test_words ws s'.
Proof.
  intros H. unfold test_words. apply search_ci; [| reflexivity | exact H].
  intros prev prev' t t' Hp Ht. rewrite (@at_boundary_ci prev prev' t t' Hp Ht).
  destruct (at_boundary prev' t'); [| reflexivity].
  apply alt_then_boundary_ci; assumption.
Qed.

Lemma test_prefix_word_ci (ws : list jsstring) (s s' : jsstring) :
  ci_eq s s' -> test_prefix_word ws s = test_prefix_word ws s'.
Proof. intros H. apply alt_then_boundary_ci; [reflexivity | exact H]. Qed.

Lemma test_whole_ci (ws : list jsstring) (s s' : jsstring) :
  ci_eq s s' -> test_whole ws s = test_whole ws s'.
Proof.
  intros H. unfold test_whole. apply first_alt_ext. intros w.
  pose proof (@match_lit_ci w None None s s' eq_refl H) as M.
  destruct (match_lit w None s) as [[p r]|], (match_lit w None s') as [[p' r']|];
    try contradiction; [| reflexivity].
  destruct M as [_ Mr]. apply ci_eq_head_shape in Mr as [Mr _].
  destruct r, r'; try discriminate; reflexivity.
Qed.

Lemma test_sub_ci (ws : list jsstring) (s s' : jsstring) :
  ci_eq s s' -> test_sub ws s = test_sub ws s'.
Proof.
  intros H. unfold test_sub. apply search_ci; [| reflexivity | exact H].
  intros prev prev' t t' Hp Ht. apply first_alt_ext. intros w.
  pose proof (@match_lit_ci w prev prev' t t' Hp Ht) as M.
  destruct (match_lit w prev t) as [[p r]|], (match_lit w prev' t') as [[p' r']|];
    try contradiction; reflexivity.
Qed.

Lemma test_then_space_ci (ws : list jsstring) (s s' : jsstring) :
  ci_eq s s' -> test_then_space ws s = test_then_space ws s'.
Proof.
  intros H. unfold test_then_space. apply search_ci; [| reflexivity | exact H].
  intros prev prev' t t' Hp Ht. apply first_alt_ext. intros w.
  pose proof (@match_lit_ci w prev prev' t t' Hp Ht) as M.
  destruct (match_lit w prev t) as [[p r]|], (match_lit w prev' t') as [[p' r']|];
    try contradiction; [| reflexivity].
  destruct M as [_ Mr]. apply ci_eq_head_shape in Mr as [Mn Ms].
  destruct r, r'; try discriminate; [reflexivity |]. rewrite Ms. reflexivity.
Qed.

Lemma trimStart_ci (s : jsstring) : forall s', ci_eq s s' -> ci_eq (trimStart s) (trimStart s').
Proof.
  induction s as [|c s IH]; intros s' H.
  - apply ci_eq_nil in H. subst. reflexivity.
  - destruct s' as [|d s']; [apply ci_eq_nil_r in H; discriminate |].
    cbn [trimStart]. pose proof H as H'. apply ci_eq_cons in H' as [Hc Hs].
    destruct (@canon_keeps_classes c d Hc) as [_ E]. rewrite E.
    destruct (is_space d); [apply IH, Hs | exact H].
Qed.

Lemma trimEnd_ci (s : jsstring) : forall s', ci_eq s s' -> ci_eq (trimEnd s) (trimEnd s').
Proof.
  induction s as [|c s IH]; intros s' H.
  - apply ci_eq_nil in H. subst. reflexivity.
  - destruct s' as [|d s']; [apply ci_eq_nil_r in H; discriminate |].
    cbn [trimEnd]. apply ci_eq_cons in H as [Hc Hs].
    destruct (@canon_keeps_classes c d Hc) as [_ E]. specialize (IH _ Hs).
    destruct (trimEnd s) as [|x t], (trimEnd s') as [|y t'];
      try (apply ci_eq_nil in IH; discriminate); try (apply ci_eq_nil_r in IH; discriminate).
    + rewrite E. destruct (is_space d); [reflexivity |]. apply ci_eq_cons. split; [exact Hc | reflexivity].
    + apply ci_eq_cons. split; assumption.
Qed.

Lemma trim_ci (s s' : jsstring) : ci_eq s s' -> ci_eq (trim s) (trim s').
Proof. intros H. apply trimEnd_ci, trimStart_ci, H. Qed.

(** Rewrites every lexical test on the left prompt of [H] into the test
    on its right prompt. *)
Ltac ci_rewrite H :=
  match type of H with
  | ci_eq ?p ?q =>
      pose proof (@trim_ci p q H) as HT;
      repeat match goal with
             | |- context [test_words ?w p] => rewrite (@test_words_ci w p q H)
             | |- context [test_sub ?w p] => rewrite (@test_sub_ci w p q H)
             | |- context [test_then_space ?w p] => rewrite (@test_then_space_ci w p q H)
             | |- context [test_prefix_word ?w (trim p)] =>
                 rewrite (@test_prefix_word_ci w (trim p) (trim q) HT)
             | |- context [test_whole ?w (trim p)] =>
                 rewrite (@test_whole_ci w (trim p) (trim q) HT)
             | |- context [List.length (trim p)] => rewrite (@ci_eq_length _ _ HT)
             | |- context [List.length p] => rewrite (@ci_eq_length _ _ H)
             end;
      clear HT
  end.

Lemma helpers_ci (p q : jsstring) :
  ci_eq p q ->
  hasContext p = hasContext q /\ hasSuccessCriteria p = hasSuccessCriteria q
  /\ hasTechnicalDetails p = hasTechnicalDetails q /\ hasUserNeeds p = hasUserNeeds q
  /\ hasExpectedOutput p = hasExpectedOutput q
  /\ hasUnrealisticScope p = hasUnrealisticScope q.
Proof.
  intros H.
  unfold hasContext, hasSuccessCriteria, hasTechnicalDetails, hasUserNeeds, hasExpectedOutput,
    hasUnrealisticScope.
  ci_rewrite H. repeat split; reflexivity.
Qed.

Lemma analyzers_ci (p q : jsstring) :
  ci_eq p q ->
  analyzeContext p = analyzeContext q /\ analyzeObjective p = analyzeObjective q
  /\ analyzeStyle p = analyzeStyle q /\ analyzeTone p = analyzeTone q
  /\ analyzeAudience p = analyzeAudience q /\ analyzeResponse p = analyzeResponse q.
Proof.
  intros H. destruct (helpers_ci H) as (_ & Hs & Ht & _ & Ho & Hu).
  unfold analyzeContext, analyzeObjective, analyzeStyle, analyzeTone, analyzeAudience,
    analyzeResponse.
  rewrite Hs, Ht, Ho, Hu. ci_rewrite H. repeat split; reflexivity.
Qed.

(** X11. The flags of the regular expressions all carry [i], and no test of the
    class compares letters in any other way: two prompts that differ only in
    the case of ASCII letters get the same analysis, the same overall score
    and change records, the same fallback triage, the same legacy analysis
    and quality, and the same edge cases and potential issues. *)
Theorem analysis_ignores_case (p q : jsstring) (mode : OptimizerMode) :
  ci_eq p q ->
  analysis (applyCOSTARFramework p mode) = analysis (applyCOSTARFramework q mode)
  /\ overallScore (applyCOSTARFramework p mode) = overallScore (applyCOSTARFramework q mode)
  /\ changesSummary (applyCOSTARFramework p mode)
     = changesSummary (applyCOSTARFramework q mode)
  /\ performTriage p None = performTriage q None
  /\ analyze p = analyze q
  /\ assessQuality p = assessQuality q
  /\ identifyEdgeCases p = identifyEdgeCases q
  /\ identifyPotentialIssues p = identifyPotentialIssues q.
Proof.
  intros H.
  destruct (helpers_ci H) as (Hx & Hs & Ht & Hn & Ho & Hu).
  destruct (analyzers_ci H) as (Ac & Ao & As & At & Aa & Ar).
  assert (A : analysis (applyCOSTARFramework p mode) = analysis (applyCOSTARFramework q mode)).
  { cbv beta iota zeta delta [applyCOSTARFramework analysis].
    rewrite Ac, Ao, As, At, Aa, Ar. reflexivity. }
  split; [exact A |].
  split.
  { change (overall (calculateCOSTARScore (analysis (applyCOSTARFramework p mode)))
            = overall (calculateCOSTARScore (analysis (applyCOSTARFramework q mode)))).
    rewrite A. reflexivity. }
  split.
  { change (generateCOSTARChangesSummary p (improvedPrompt (applyCOSTARFramework p mode))
              (analysis (applyCOSTARFramework p mode))
            = generateCOSTARChangesSummary q (improvedPrompt (applyCOSTARFramework q mode))
                (analysis (applyCOSTARFramework q mode))).
    unfold generateCOSTARChangesSummary. rewrite A. reflexivity. }
  split.
  { unfold performTriage, countMissingCriticalElements.
    rewrite Hx, Hs, Ht, Hn, Ho. ci_rewrite H. reflexivity. }
  split.
  { unfold analyze, findGaps, findAmbiguities, findStrengths, generateSuggestions, vagueTerms.
    cbn [vague_loop]. rewrite Hx, Hs, Ht, Hn, Ho. ci_rewrite H. reflexivity. }
  split.
  { unfold assessQuality, hasClearGoal, hasActionableLanguage, hasReasonableScope.
    rewrite Hx. ci_rewrite H. reflexivity. }
  split.
  { unfold identifyEdgeCases. ci_rewrite H. reflexivity. }
  unfold identifyPotentialIssues. rewrite Hs, Ht, Hn. ci_rewrite H. reflexivity.
Qed.

Lemma analysis_ignores_case_witness :
  ci_eq (lit "FIX the Login BUG") (lit "fix the login bug")
  /\ overallScore (applyCOSTARFramework (lit "FIX the Login BUG") deep)
     = overallScore (applyCOSTARFramework (lit "fix the login bug") deep).
Proof.
  split; [reflexivity |].
  exact (proj1 (proj2 (@analysis_ignores_case (lit "FIX the Login BUG")
                         (lit "fix the login bug") deep eq_refl))).
Defined.

(** ** Tests that follow from other tests *)

Lemma ci_eq_app_split (a b : jsstring) :
  forall m, ci_eq m (a ++ b) -> exists ma mb, m = ma ++ mb /\ ci_eq ma a /\ ci_eq mb b.
Proof.
  induction a as [|x a IH]; intros m H.
  - exists [], m. repeat split. exact H.
  - destruct m as [|c m]; [discriminate |].
    change ((x :: a) ++ b) with (x :: (a ++ b)) in H.
    apply ci_eq_cons in H as [Hc H].
    destruct (IH _ H) as (ma & mb & -> & Ha & Hb).
    exists (c :: ma), mb. repeat split; [| exact Hb].
    apply ci_eq_cons. split; assumption.
Qed.

(** A phrase that goes on behind a word character with a character outside
    words has its first part standing as a word of its own. *)
Lemma word_at_first_part (a : jsstring) (x c : code_unit) (b : jsstring)
      (prev : prev_char) (s : jsstring) :
  is_word_char x = true -> is_word_char c = false ->
  word_at ((a ++ [x]) ++ c :: b) prev s -> word_at (a ++ [x]) prev s.
Proof.
  intros Hx Hc (m & r & -> & Hm & _).
  apply ci_eq_app_split in Hm as (ma & mb & -> & Ha & Hb).
  destruct mb as [|c' mb]; [discriminate |].
  apply ci_eq_cons in Hb as [Hcc _].
  pose proof Ha as Ha'.
  apply ci_eq_app_split in Ha' as (m1 & m2 & -> & _ & H2).
  destruct m2 as [|x' m2]; [discriminate |].
  apply ci_eq_cons in H2 as [Hxx H2]. apply ci_eq_nil_r in H2. subst m2.
  exists (m1 ++ [x']), ((c' :: mb) ++ r). split; [apply eq_sym, app_assoc |].
  split; [exact Ha |].
  rewrite last_of_app. unfold at_boundary. cbn.
  rewrite (proj1 (@canon_keeps_classes _ _ Hxx)), (proj1 (@canon_keeps_classes _ _ Hcc)), Hx, Hc.
  reflexivity.
Qed.

Lemma occurs_first_part (a : jsstring) (x c : code_unit) (b s : jsstring) :
  is_word_char x = true -> is_word_char c = false ->
  occurs_as_word ((a ++ [x]) ++ c :: b) s -> occurs_as_word (a ++ [x]) s.
Proof.
  intros Hx Hc (pre & post & -> & B & W).
  exists pre, post. repeat split; [exact B |].
  exact (@word_at_first_part _ _ _ _ _ _ Hx Hc W).
Qed.

(** A test for more words holds as soon as a test for some of them does. *)
Lemma test_words_incl (ws ws' : list jsstring) (s : jsstring) :
  incl ws ws' -> test_words ws s = true -> test_words ws' s = true.
Proof.
  intros I H. apply test_words_spec in H as (w & Hw & O).
  apply test_words_spec. exists w. split; [apply I, Hw | exact O].
Qed.

Lemma test_words_app (ws ws' : list jsstring) (s : jsstring) :
  test_words (ws ++ ws') s = test_words ws s || test_words ws' s.
Proof.
  apply eq_true_iff_eq. rewrite orb_true_iff, !test_words_spec. split.
  - intros (w & Hw & O). apply in_app_or in Hw as [Hw | Hw]; [left | right]; exists w; auto.
  - intros [(w & Hw & O) | (w & Hw & O)]; exists w; split; auto; apply in_or_app; auto.
Qed.

Lemma success_words :
  alts "success|complete|done|measure|metric|goal|should be able to"
  = [lit "success"; lit "complete"; lit "done"; lit "measure"; lit "metric"; lit "goal";
     lit "should be able to"].
Proof. vm_compute. reflexivity. Qed.

Lemma measure_words :
  alts "measure|metric|complete when|done when|success"
  = [lit "measure"; lit "metric"; (lit "complet" ++ [101%N]) ++ 32%N :: lit "when";
     (lit "don" ++ [101%N]) ++ 32%N :: lit "when"; lit "success"].
Proof. vm_compute. reflexivity. Qed.

(** X12. The objective analyzer calls an objective measurable when the
    success-criteria test holds or a second expression matches. Every
    alternative of the second expression is, or begins with, a word of the
    first, so the second test adds nothing: measurable is exactly
    [hasSuccessCriteria]. *)
Theorem measurable_is_success_criteria (prompt : jsstring) :
  measurable (analyzeObjective prompt) = hasSuccessCriteria prompt.
Proof.
  assert (M : measurable (analyzeObjective prompt)
              = hasSuccessCriteria prompt
                || test_words (alts "measure|metric|complete when|done when|success") prompt)
    by reflexivity.
  rewrite M. destruct (hasSuccessCriteria prompt) eqn:S; [reflexivity |].
  cbn [orb]. apply not_true_is_false. intros T.
  assert (S' : hasSuccessCriteria prompt = true); [| rewrite S' in S; discriminate].
  unfold hasSuccessCriteria. rewrite success_words.
  rewrite measure_words in T. apply test_words_spec in T as (w & Hw & O).
  apply test_words_spec.
  destruct Hw as [<- | [<- | [<- | [<- | [<- | []]]]]].
  - exists (lit "measure"). split; [in_list | exact O].
  - exists (lit "metric"). split; [in_list | exact O].
  - exists (lit "complete"). split; [in_list |].
    exact (@occurs_first_part (lit "complet") 101%N 32%N (lit "when") prompt
             eq_refl eq_refl O).
  - exists (lit "done"). split; [in_list |].
    exact (@occurs_first_part (lit "don") 101%N 32%N (lit "when") prompt eq_refl eq_refl O).
  - exists (lit "success"). split; [in_list | exact O].
Qed.

Lemma output_words :
  alts "output|result|deliverable|return|provide|generate"
  = [lit "output"; lit "result"; lit "deliverable"; lit "return"; lit "provide"]
    ++ [lit "generate"].
Proof. vm_compute. reflexivity. Qed.

Lemma expected_output_words :
  alts "output|result|deliverable|should|look like|include|contain|provide|return"
  = [lit "output"; lit "result"; lit "deliverable"; lit "should"; lit "look like";
     lit "include"; lit "contain"; lit "provide"; lit "return"].
Proof. vm_compute. reflexivity. Qed.

Ltac incl_list :=
  let w := fresh "w" in let H := fresh "H" in
  intros w H; vm_compute in H; vm_compute;
  repeat match goal with
         | H : _ \/ _ |- _ => destruct H as [H | H]
         | H : False |- _ => destruct H
         end;
  subst; auto 12.

(** X13. In the response analyzer the first expression for a clear output
    format repeats words of [hasExpectedOutput], except for one: the output
    format is clear exactly when [hasExpectedOutput] holds or the word
    generate occurs. *)
Theorem output_format_is_expected_output (prompt : jsstring) :
  outputFormatClear (analyzeResponse prompt)
  = hasExpectedOutput prompt || test_words [lit "generate"] prompt.
Proof.
  assert (M : outputFormatClear (analyzeResponse prompt)
              = test_words (alts "output|result|deliverable|return|provide|generate") prompt
                || hasExpectedOutput prompt)
    by reflexivity.
  rewrite M, output_words, test_words_app.
  assert (I : test_words
                [lit "output"; lit "result"; lit "deliverable"; lit "return"; lit "provide"]
                prompt = true -> hasExpectedOutput prompt = true).
  { unfold hasExpectedOutput. rewrite expected_output_words.
    apply test_words_incl. incl_list. }
  destruct (test_words [lit "output"; lit "result"; lit "deliverable"; lit "return";
                        lit "provide"] prompt);
    [rewrite (I eq_refl); reflexivity |].
  destruct (hasExpectedOutput prompt), (test_words [lit "generate"] prompt); reflexivity.
Qed.

Lemma quantity_words :
  alts "many|several|few|some" = [lit "many"; lit "several"; lit "few"; lit "some"].
Proof. vm_compute. reflexivity. Qed.

Lemma has_text_push (text x : jsstring) (xs : list jsstring) :
  has_text text (push xs x) = has_text text xs || jsstring_eqb text x.
Proof.
  unfold has_text, push. rewrite existsb_app. cbn [existsb]. rewrite orb_false_r. reflexivity.
Qed.

Lemma has_text_push_if (text : jsstring) (b : bool) (x : jsstring) (xs : list jsstring) :
  has_text text (push_if b x xs) = has_text text xs || (jsstring_eqb text x && b).
Proof.
  unfold push_if. destruct b; [rewrite has_text_push |];
    destruct (jsstring_eqb text x), (has_text text xs); reflexivity.
Qed.

Lemma has_text_push_unless (text : jsstring) (b : bool) (x : jsstring) (xs : list jsstring) :
  has_text text (push_unless b x xs) = has_text text xs || (jsstring_eqb text x && negb b).
Proof.
  unfold push_unless. destruct b; [| rewrite has_text_push];
    destruct (jsstring_eqb text x), (has_text text xs); reflexivity.
Qed.

Lemma push_if_length_le (X : Type) (b : bool) (x : X) (xs : list X) (n : nat) :
  (List.length xs <= n)%nat -> (List.length (push_if b x xs) <= S n)%nat.
Proof.
  unfold push_if, push. destruct b; [rewrite length_app; cbn [List.length]; lia | lia].
Qed.

Lemma push_unless_length_le (X : Type) (b : bool) (x : X) (xs : list X) (n : nat) :
  (List.length xs <= n)%nat -> (List.length (push_unless b x xs) <= S n)%nat.
Proof.
  unfold push_unless, push. destruct b; [lia | rewrite length_app; cbn [List.length]; lia].
Qed.

(** Membership of a text in a list built by conditional pushes, as a
    formula over the conditions. *)
Ltac texts_as_flags :=
  rewrite ?has_text_push_if, ?has_text_push_unless, ?has_text_push;
  change (has_text ?t []) with false.

(** Case analysis on the booleans the goal still mentions. *)
Ltac goal_flags :=
  repeat match goal with
         | b : bool |- _ => first [clear b | destruct b]
         end.

(** X14. Two vague terms are counted twice by the legacy analysis. A prompt
    recorded for the vague term some is always recorded for unspecified
    quantities too; a prompt recorded for the vague term should never has the
    gap of an unclear expected output, since should is one of the words that
    test accepts. There are at most eight ambiguities. *)
Theorem vague_words_are_counted_twice (prompt : jsstring) :
  implb (has_text (vague_text "some") (findAmbiguities prompt))
        (has_text (lit "Unspecified quantities: How many exactly?") (findAmbiguities prompt))
  = true
  /\ implb (has_text (vague_text "should") (findAmbiguities prompt))
           (negb (has_text
                    (lit "Unclear expected output: What should the final deliverable look like?")
                    (findGaps prompt)))
     = true
  /\ (List.length (findAmbiguities prompt) <= 8)%nat.
Proof.
  assert (K1 : test_words [lit "some"] prompt = true
               -> test_words (alts "many|several|few|some") prompt = true).
  { rewrite quantity_words. apply test_words_incl. incl_list. }
  assert (K2 : test_words [lit "should"] prompt = true -> hasExpectedOutput prompt = true).
  { unfold hasExpectedOutput. rewrite expected_output_words.
    apply test_words_incl. incl_list. }
  unfold findAmbiguities, findGaps, vagueTerms. cbn [vague_loop].
  split; [| split]; [| | repeat apply push_if_length_le; apply Nat.le_refl].
  - texts_as_flags. revert K1.
    generalize (test_then_space (alts "this|that|these|those|it") prompt).
    abstract_tests prompt. intros r K1. vm_compute.
    goal_flags; try reflexivity; discriminate (K1 eq_refl).
  - texts_as_flags. revert K2.
    generalize (hasExpectedOutput prompt) (hasContext prompt) (hasSuccessCriteria prompt)
      (hasTechnicalDetails prompt) (hasUserNeeds prompt)
      (test_then_space (alts "this|that|these|those|it") prompt).
    abstract_tests prompt. intros o c s t u r K2. vm_compute.
    goal_flags; try reflexivity; discriminate (K2 eq_refl).
Qed.

(** X15. The lists of the legacy analysis are built from the same tests. For
    context, technical details and success criteria a gap is listed exactly
    when the matching strength is not, and exactly when the matching
    suggestion is; the user gap goes with the user suggestion. The
    suggestions are as many as the gaps, less the output gap, plus one for a
    prompt shorter than 50. *)
Theorem legacy_lists_agree (prompt : jsstring) :
  let a := analyze prompt in
  let gap := fun text => has_text (lit text) (gaps a) in
  let strength := fun text => has_text (lit text) (strengths a) in
  let suggestion := fun text => has_text (lit text) (suggestions a) in
  gap "Missing context: What is the background or current situation?"
  = negb (strength "Clear context provided")
  /\ gap "Missing technical details: What technologies or constraints apply?"
     = negb (strength "Technical constraints specified")
  /\ gap "No success criteria: How will you know when this is complete?"
     = negb (strength "Success criteria defined")
  /\ gap "Missing context: What is the background or current situation?"
     = suggestion "Add background: Explain the current situation or problem"
  /\ gap "Missing technical details: What technologies or constraints apply?"
     = suggestion "Add constraints: Specify technologies, integrations, or performance needs"
  /\ gap "No success criteria: How will you know when this is complete?"
     = suggestion "Define success: Specify measurable criteria for completion"
  /\ gap "No user perspective: Who will use this and what do they need?"
     = suggestion "Consider users: Who will use this and what do they need?"
  /\ (List.length (suggestions a)
      + (if gap "Unclear expected output: What should the final deliverable look like?"
         then 1 else 0)
      = List.length (gaps a) + (if (List.length prompt <? 50)%nat then 1 else 0))%nat.
Proof.
  cbv beta iota zeta delta [analyze gaps strengths suggestions].
  unfold findGaps, findStrengths, generateSuggestions.
  generalize (hasExpectedOutput prompt) (hasContext prompt) (hasSuccessCriteria prompt)
    (hasTechnicalDetails prompt) (hasUserNeeds prompt) (200 <? List.length prompt)%nat.
  abstract_tests prompt. intros.
  repeat match goal with |- _ /\ _ => split end; goal_flags; vm_compute; reflexivity.
Qed.

(** ** Deep-mode lists *)

Lemma push2_if_length (X : Type) (b : bool) (x y : X) (xs : list X) :
  List.length (push2_if b x y xs) = ((if b then 2 else 0) + List.length xs)%nat.
Proof.
  unfold push2_if, push. destruct b; [| reflexivity].
  rewrite !length_app. cbn [List.length]. lia.
Qed.

(** X16. The deep-mode lists of [improve]. Edge cases come in pairs, two for
    each group of cue words found and the two general ones exactly when no
    group is found, so the list is never empty. The potential issues about
    success criteria, technical details and users are listed exactly when
    the gap of the same name is, the first one exactly for a prompt shorter
    than 30; so there is at most one issue more than there are gaps. *)
Theorem deep_lists (prompt : jsstring) :
  let cues := count_true [test_sub (alts "user|login|auth") prompt;
                          test_sub (alts "api|endpoint|request") prompt;
                          test_sub (alts "form|input|data") prompt] in
  let issue := fun text => has_text (lit text) (identifyPotentialIssues prompt) in
  let gap := fun text => has_text (lit text) (findGaps prompt) in
  List.length (identifyEdgeCases prompt) = (2 * Nat.max 1 cues)%nat
  /\ has_text (lit "Consider error states and failure scenarios") (identifyEdgeCases prompt)
     = (cues =? 0)%nat
  /\ issue "Without success criteria, it will be hard to know when the task is complete"
     = gap "No success criteria: How will you know when this is complete?"
  /\ issue "Missing technical details may lead to incorrect technology choices"
     = gap "Missing technical details: What technologies or constraints apply?"
  /\ issue "Without user perspective, solution may not meet actual needs"
     = gap "No user perspective: Who will use this and what do they need?"
  /\ issue "Prompt may be too vague - could be interpreted in multiple ways"
     = (List.length prompt <? 30)%nat
  /\ (List.length (identifyPotentialIssues prompt) <= S (List.length (findGaps prompt)))%nat.
Proof.
  cbv zeta. unfold identifyEdgeCases, identifyPotentialIssues, findGaps.
  generalize (hasExpectedOutput prompt) (hasContext prompt) (hasSuccessCriteria prompt)
    (hasTechnicalDetails prompt) (hasUserNeeds prompt).
  abstract_tests prompt. intros.
  repeat match goal with |- _ /\ _ => split end; goal_flags; vm_compute;
    first [reflexivity | lia].
Qed.

(** ** The core requirement *)

Lemma first_alt_sound (X Y : Type) (f : X -> option Y) (xs : list X) (y : Y) :
  first_alt f xs = Some y -> exists x, In x xs /\ f x = Some y.
Proof.
  induction xs as [|x xs IH]; cbn [first_alt]; [discriminate |].
  destruct (f x) eqn:E.
  - intros H. injection H as <-. exists x. split; [left; reflexivity | exact E].
  - intros H. destruct (IH H) as (x' & I & F). exists x'. split; [right; exact I | exact F].
Qed.

Lemma trimStart_suffix (s : jsstring) : exists sp, s = sp ++ trimStart s.
Proof.
  induction s as [|c s [sp IH]]; [exists []; reflexivity |].
  cbn [trimStart]. destruct (is_space c).
  - exists (c :: sp). cbn [app]. f_equal. exact IH.
  - exists []. reflexivity.
Qed.

Lemma strip_leading_verb_suffix (verbs : list jsstring) (s : jsstring) :
  exists pre, s = pre ++ strip_leading_verb verbs s.
Proof.
  unfold strip_leading_verb.
  destruct (first_alt _ verbs) as [cleaned|] eqn:F; [| exists []; reflexivity].
  apply first_alt_sound in F as (v & _ & F).
  destruct (match_lit v None s) as [[prev [|c r]]|] eqn:M; try discriminate.
  destruct (is_space c); [| discriminate]. injection F as <-.
  apply match_lit_sound in M as (m & -> & _ & _).
  destruct (trimStart_suffix r) as [sp E].
  exists (m ++ c :: sp). rewrite <- app_assoc. cbn [app]. rewrite <- E. reflexivity.
Qed.

Lemma split_on_head (s : jsstring) :
  exists rest, s = hd [] (split_on DOT s) ++ rest
    /\ no_dot (hd [] (split_on DOT s)) = true
    /\ (hd [] (split_on DOT s) = [] -> s = [] \/ hd_error s = Some DOT).
Proof.
  induction s as [|c s (rest & E & N & Z)].
  - exists []. repeat split. intros _. left. reflexivity.
  - cbn [split_on]. destruct (c =? DOT)%N eqn:D.
    + apply N.eqb_eq in D. subst c. exists (DOT :: s). repeat split.
      intros _. right. reflexivity.
    + destruct (split_on DOT s) as [|l ls].
      * exists s. cbn [hd app]. repeat split; [| discriminate].
        unfold no_dot. cbn [forallb]. rewrite D. reflexivity.
      * cbn [hd] in *. exists rest. repeat split; [cbn [app]; f_equal; exact E | | discriminate].
        unfold no_dot in *. cbn [forallb]. rewrite D, N. reflexivity.
Qed.

(** X17. The core requirement is a contiguous piece of the prompt: a start of
    what is left once a leading verb and the white space behind it are
    removed. It contains no full stop unless it starts with one, and it is
    empty only when nothing is left behind the verb. There are always three
    alternative phrasings, and each ends with the core requirement. *)
Theorem core_requirement_is_a_piece (prompt : jsstring) :
  let core := extractCoreRequirement prompt in
  let cleaned :=
    strip_leading_verb (alts "create|build|develop|implement|add|update|fix") prompt in
  (exists pre post, prompt = pre ++ core ++ post)
  /\ (exists post, cleaned = core ++ post)
  /\ (no_dot core = true \/ hd_error core = Some DOT)
  /\ is_nil core = is_nil cleaned
  /\ (List.length core <= List.length prompt)%nat
  /\ List.length (generateAlternativePhrasings prompt) = 3%nat
  /\ Forall (fun phrasing => exists pre, phrasing = pre ++ core)
       (generateAlternativePhrasings prompt).
Proof.
  cbv zeta. unfold generateAlternativePhrasings. cbv zeta.
  generalize (or_else
                match match_leading (alts "create|build|develop|implement|add") prompt with
                | Some m => m
                | None => []
                end (lit "Implement")).
  intros mainAction.
  unfold extractCoreRequirement. cbv zeta.
  destruct (strip_leading_verb_suffix (alts "create|build|develop|implement|add|update|fix")
              prompt) as [pre P].
  revert P.
  generalize (strip_leading_verb (alts "create|build|develop|implement|add|update|fix") prompt).
  intros cleaned P.
  destruct (split_on_head cleaned) as (rest & E & N & Z).
  assert (C : exists post, cleaned = or_else (hd [] (split_on DOT cleaned))
                                       (substring0 100 cleaned) ++ post).
  { unfold or_else, substring0.
    destruct (truthy (hd [] (split_on DOT cleaned)));
      [exists rest; exact E | exists (skipn 100 cleaned); symmetry; apply firstn_skipn]. }
  revert C N Z.
  generalize (hd [] (split_on DOT cleaned)). intros first C N Z.
  assert (S : no_dot (or_else first (substring0 100 cleaned)) = true
              \/ hd_error (or_else first (substring0 100 cleaned)) = Some DOT).
  { unfold or_else. destruct first as [|c first]; [| left; exact N].
    cbn [truthy]. destruct (Z eq_refl) as [-> | H]; [left; reflexivity |].
    destruct cleaned as [|d cleaned]; [discriminate |]. right. exact H. }
  assert (I : is_nil (or_else first (substring0 100 cleaned)) = is_nil cleaned).
  { unfold or_else. destruct first as [|c first].
    - cbn [truthy]. destruct cleaned; reflexivity.
    - cbn [truthy is_nil]. destruct C as [post C]. unfold or_else in C. cbn [truthy] in C.
      rewrite C. reflexivity. }
  revert C S I. generalize (or_else first (substring0 100 cleaned)). intros core C S I.
  destruct C as [post C].
  split; [exists pre, post; rewrite P, C; reflexivity |].
  split; [exists post; exact C |].
  split; [exact S |]. split; [exact I |].
  split; [rewrite P, C, !length_app; lia |].
  split; [reflexivity |].
  unfold push. cbn [app firstn].
  repeat constructor.
  - exists (mainAction ++ lit " a solution that "). rewrite <- app_assoc. reflexivity.
  - exists (lit "Design and implement "). reflexivity.
  - exists (lit "Build a system to "). reflexivity.
Qed.

(** ** White space around the prompt *)

Lemma space_not_word (c : code_unit) : is_space c = true -> is_word_char c = false.
Proof.
  intros S. apply not_true_is_false. intros W. revert S W.
  unfold is_space, is_word_char, is_upper, is_lower, is_digit, in_range.
  rewrite ?orb_true_iff, ?andb_true_iff, ?N.eqb_eq, ?N.leb_le. lia.
Qed.

Lemma trimStart_split (s : jsstring) :
  exists sp, s = sp ++ trimStart s /\ forallb is_space sp = true.
Proof.
  induction s as [|c s (sp & E & F)]; [exists []; split; reflexivity |].
  cbn [trimStart]. destruct (is_space c) eqn:S.
  - exists (c :: sp). cbn [app forallb]. rewrite S, F, <- E. split; reflexivity.
  - exists []. split; reflexivity.
Qed.

Lemma trimEnd_split (s : jsstring) :
  exists sp, s = trimEnd s ++ sp /\ forallb is_space sp = true.
Proof.
  induction s as [|c s (sp & E & F)]; [exists []; split; reflexivity |].
  cbn [trimEnd]. destruct (trimEnd s) as [|x t].
  - cbn [app] in E. subst sp. destruct (is_space c) eqn:S.
    + exists (c :: s). cbn [app forallb]. rewrite S, F. split; reflexivity.
    + exists s. split; [reflexivity | exact F].
  - exists sp. split; [| exact F]. cbn [app]. f_equal. exact E.
Qed.

Lemma trim_split (s : jsstring) :
  exists sp sp', s = sp ++ trim s ++ sp'
    /\ forallb is_space sp = true /\ forallb is_space sp' = true.
Proof.
  destruct (trimStart_split s) as (sp & E & F).
  destruct (trimEnd_split (trimStart s)) as (sp' & E' & F').
  exists sp, sp'. unfold trim. rewrite <- E'. repeat split; assumption.
Qed.

Lemma trimEnd_head (c : code_unit) (s : jsstring) :
  is_space c = false -> exists t, trimEnd (c :: s) = c :: t.
Proof.
  intros S. cbn [trimEnd]. rewrite S. destruct (trimEnd s) as [|x t].
  - exists []. reflexivity.
  - exists (x :: t). reflexivity.
Qed.

Lemma trimStart_head (s : jsstring) :
  trimStart s = [] \/ exists c t, trimStart s = c :: t /\ is_space c = false.
Proof.
  induction s as [|c s IH]; [left; reflexivity |].
  cbn [trimStart]. destruct (is_space c) eqn:S; [exact IH |].
  right. exists c, s. split; [reflexivity | exact S].
Qed.

Lemma trimEnd_idem (s : jsstring) : trimEnd (trimEnd s) = trimEnd s.
Proof.
  induction s as [|c s IH]; [reflexivity |].
  cbn [trimEnd]. destruct (trimEnd s) as [|x t] eqn:E.
  - destruct (is_space c) eqn:S; [reflexivity |]. cbn [trimEnd]. rewrite S. reflexivity.
  - change (trimEnd (c :: x :: t)) with
      (match trimEnd (x :: t) with [] => if is_space c then [] else [c] | u => c :: u end).
    rewrite IH. reflexivity.
Qed.

Lemma trim_idem (s : jsstring) : trim (trim s) = trim s.
Proof.
  unfold trim. destruct (trimStart_head s) as [-> | (c & t & -> & S)]; [reflexivity |].
  destruct (@trimEnd_head c t S) as [u E]. rewrite E.
  cbn [trimStart]. rewrite S, <- E. apply trimEnd_idem.
Qed.

(** A word test does not see white space in front of the text. *)
Lemma test_words_lead (ws : list jsstring) (c : code_unit) (s : jsstring) :
  is_space c = true -> test_words ws (c :: s) = test_words ws s.
Proof.
  intros S. unfold test_words. cbn [search].
  unfold at_boundary at 1. cbn [hd_error word_side]. rewrite (@space_not_word _ S).
  cbn [xorb].
  apply search_ci; [| cbn [word_side]; apply space_not_word, S | reflexivity].
  intros prev prev' t t' Hp Ht. rewrite (@at_boundary_ci prev prev' t t' Hp Ht).
  destruct (at_boundary prev' t'); [| reflexivity].
  apply alt_then_boundary_ci; assumption.
Qed.

Lemma solid_match (w m : jsstring) :
  solid w = true -> ci_eq m w -> exists m' x, m = m' ++ [x] /\ is_space x = false.
Proof.
  unfold solid. intros S H.
  destruct (rev w) as [|x r] eqn:R; [discriminate |].
  assert (W : w = rev r ++ [x]).
  { rewrite <- (rev_involutive w), R. reflexivity. }
  rewrite W in H. apply ci_eq_app_split in H as (ma & mb & -> & _ & Hb).
  destruct mb as [|y mb]; [discriminate |].
  apply ci_eq_cons in Hb as [Hc Hb]. apply ci_eq_nil_r in Hb. subst mb.
  exists ma, y. split; [reflexivity |].
  rewrite (proj2 (@canon_keeps_classes _ _ Hc)).
  destruct (is_space x); [discriminate | reflexivity].
Qed.

Lemma at_boundary_snoc (prev : prev_char) (r : jsstring) (c : code_unit) :
  is_space c = true -> at_boundary prev (r ++ [c]) = at_boundary prev r.
Proof.
  intros S. destruct r as [|d r]; [| reflexivity].
  unfold at_boundary. cbn [app hd_error word_side]. rewrite (@space_not_word _ S). reflexivity.
Qed.

Lemma at_boundary_head (prev : prev_char) (m' : jsstring) (x : code_unit) (r r' : jsstring) :
  at_boundary prev ((m' ++ [x]) ++ r) = at_boundary prev ((m' ++ [x]) ++ r').
Proof. destruct m'; reflexivity. Qed.

Lemma snoc_cases (X : Type) (l : list X) : l = [] \/ exists l' a, l = l' ++ [a].
Proof.
  induction l as [|a l _] using rev_ind; [left; reflexivity | right; exists l, a; reflexivity].
Qed.

Lemma occurs_snoc (w s : jsstring) (c : code_unit) :
  solid w = true -> is_space c = true ->
  occurs_as_word w (s ++ [c]) <-> occurs_as_word w s.
Proof.
  intros W S. split.
  - intros (pre & post & E & B & m & r & -> & Hm & Br).
    destruct (@solid_match _ _ W Hm) as (m' & x & -> & Sx).
    destruct (snoc_cases r) as [-> | (r' & c' & ->)].
    + rewrite app_nil_r, app_assoc in E.
      apply app_inj_tail in E as [_ <-]. rewrite S in Sx. discriminate.
    + rewrite !app_assoc in E. apply app_inj_tail in E as [E <-].
      exists pre, ((m' ++ [x]) ++ r'). split; [rewrite E, <- !app_assoc; reflexivity |].
      split; [rewrite (@at_boundary_head _ m' x r' (r' ++ [c])); exact B |].
      exists (m' ++ [x]), r'. repeat split; [exact Hm |].
      rewrite <- (@at_boundary_snoc _ r' _ S). exact Br.
  - intros (pre & post & -> & B & m & r & -> & Hm & Br).
    destruct (@solid_match _ _ W Hm) as (m' & x & -> & Sx).
    exists pre, ((m' ++ [x]) ++ r ++ [c]). split; [rewrite <- !app_assoc; reflexivity |].
    split; [rewrite (@at_boundary_head _ m' x (r ++ [c]) r); exact B |].
    exists (m' ++ [x]), (r ++ [c]). repeat split; [exact Hm |].
    rewrite (@at_boundary_snoc _ r _ S). exact Br.
Qed.

(** Nor behind it, when no alternative ends in white space. *)
Lemma test_words_trail (ws : list jsstring) (s : jsstring) (c : code_unit) :
  forallb solid ws = true -> is_space c = true ->
  test_words ws (s ++ [c]) = test_words ws s.
Proof.
  intros W S. apply eq_true_iff_eq. rewrite !test_words_spec.
  rewrite forallb_forall in W.
  split; intros (w & Hw & O); exists w; (split; [exact Hw |]);
    apply (@occurs_snoc _ s _ (W w Hw) S); exact O.
Qed.

Lemma test_words_trim (ws : list jsstring) (s : jsstring) :
  forallb solid ws = true -> test_words ws s = test_words ws (trim s).
Proof.
  intros W. destruct (trim_split s) as (sp & sp' & E & F & F').
  rewrite E at 1. clear E. revert F F'. generalize (trim s). intros t F F'.
  induction sp as [|c sp IH].
  - cbn [app]. clear F. induction sp' as [|c sp' IH] using rev_ind.
    + rewrite app_nil_r. reflexivity.
    + rewrite forallb_app in F'. apply andb_true_iff in F' as [F1 F2].
      cbn [forallb] in F2. rewrite andb_true_r in F2.
      rewrite app_assoc, (@test_words_trail _ _ _ W F2). apply IH, F1.
  - cbn [forallb] in F. apply andb_true_iff in F as [S F].
    cbn [app]. rewrite (@test_words_lead _ _ _ S). apply IH, F.
Qed.

(** Rewrites every word test on [p] into the test on [trim p]. *)
Ltac trim_rewrite p :=
  repeat match goal with
         | |- context [test_words ?w p] =>
             let W := fresh "W" in
             assert (W : forallb solid w = true) by (vm_compute; reflexivity);
             rewrite (@test_words_trim w p W); clear W
         end.

Lemma helpers_trim (p : jsstring) :
  hasContext p = hasContext (trim p)
  /\ hasSuccessCriteria p = hasSuccessCriteria (trim p)
  /\ hasTechnicalDetails p = hasTechnicalDetails (trim p)
  /\ hasUserNeeds p = hasUserNeeds (trim p)
  /\ hasExpectedOutput p = hasExpectedOutput (trim p)
  /\ hasActionableLanguage p = hasActionableLanguage (trim p).
Proof.
  unfold hasContext, hasSuccessCriteria, hasTechnicalDetails, hasUserNeeds, hasExpectedOutput,
    hasActionableLanguage.
  trim_rewrite p. rewrite ?trim_idem. repeat split; reflexivity.
Qed.

Lemma analyzers_ignore_space (prompt : jsstring) :
  analyzeContext prompt = analyzeContext (trim prompt)
  /\ analyzeStyle prompt = analyzeStyle (trim prompt)
  /\ analyzeTone prompt = analyzeTone (trim prompt)
  /\ analyzeAudience prompt = analyzeAudience (trim prompt)
  /\ analyzeResponse prompt = analyzeResponse (trim prompt).
Proof.
  destruct (helpers_trim prompt) as (_ & _ & Ht & _ & Ho & _).
  unfold analyzeContext, analyzeStyle, analyzeTone, analyzeAudience, analyzeResponse.
  rewrite Ht, Ho. trim_rewrite prompt. repeat split; reflexivity.
Qed.

(** X18. White space around the prompt is not seen by the word tests: five
    analyzers return the same record for a prompt and for the prompt
    trimmed, and so do the goal and measurability flags of the objective
    analyzer, the count of missing critical elements and the legacy gaps. *)
Theorem analyzers_ignore_surrounding_space (prompt : jsstring) :
  analyzeContext prompt = analyzeContext (trim prompt)
  /\ analyzeStyle prompt = analyzeStyle (trim prompt)
  /\ analyzeTone prompt = analyzeTone (trim prompt)
  /\ analyzeAudience prompt = analyzeAudience (trim prompt)
  /\ analyzeResponse prompt = analyzeResponse (trim prompt)
  /\ goalClarity (analyzeObjective prompt) = goalClarity (analyzeObjective (trim prompt))
  /\ measurable (analyzeObjective prompt) = measurable (analyzeObjective (trim prompt))
  /\ countMissingCriticalElements prompt = countMissingCriticalElements (trim prompt)
  /\ findGaps prompt = findGaps (trim prompt).
Proof.
  destruct (helpers_trim prompt) as (Hx & Hs & Ht & Hn & Ho & _).
  destruct (analyzers_ignore_space prompt) as (Ac & As & At & Aa & Ar).
  assert (G : forall q, goalClarity (analyzeObjective q)
                        = test_prefix_word action_verbs (trim q)
                          || test_words (alts "objective|goal|purpose|aim|want to|need to") q)
    by reflexivity.
  assert (M : forall q, measurable (analyzeObjective q)
                        = hasSuccessCriteria q
                          || test_words (alts "measure|metric|complete when|done when|success") q)
    by reflexivity.
  rewrite !G, !M.
  unfold countMissingCriticalElements, findGaps.
  rewrite Hx, Hs, Ht, Hn, Ho, ?trim_idem. trim_rewrite prompt.
  repeat split; assumption || reflexivity.
Qed.

(** X19. The objective analyzer sees the white space around a prompt only
    through the test that the prompt is shorter than 30. When trimming does
    not change that test, the prompt and the trimmed prompt get the same
    analysis, overall score and change records. *)
Theorem analysis_of_the_trimmed_prompt (prompt : jsstring) (mode : OptimizerMode) :
  (List.length prompt <? 30)%nat = (List.length (trim prompt) <? 30)%nat ->
  analyzeObjective prompt = analyzeObjective (trim prompt)
  /\ analysis (applyCOSTARFramework prompt mode)
     = analysis (applyCOSTARFramework (trim prompt) mode)
  /\ overallScore (applyCOSTARFramework prompt mode)
     = overallScore (applyCOSTARFramework (trim prompt) mode)
  /\ changesSummary (applyCOSTARFramework prompt mode)
     = changesSummary (applyCOSTARFramework (trim prompt) mode).
Proof.
  intros L.
  destruct (helpers_trim prompt) as (_ & Hs & _).
  assert (O : analyzeObjective prompt = analyzeObjective (trim prompt)).
  { unfold analyzeObjective, hasUnrealisticScope.
    rewrite Hs, L, ?trim_idem. trim_rewrite prompt. rewrite ?trim_idem. reflexivity. }
  destruct (analyzers_ignore_space prompt) as (Ac & As & At & Aa & Ar).
  assert (A : analysis (applyCOSTARFramework prompt mode)
              = analysis (applyCOSTARFramework (trim prompt) mode)).
  { cbv beta iota zeta delta [applyCOSTARFramework analysis].
    rewrite <- Ac, <- O, <- As, <- At, <- Aa, <- Ar. reflexivity. }
  split; [exact O |]. split; [exact A |].
  split.
  { change (overall (calculateCOSTARScore (analysis (applyCOSTARFramework prompt mode)))
            = overall (calculateCOSTARScore
                         (analysis (applyCOSTARFramework (trim prompt) mode)))).
    rewrite A. reflexivity. }
  change (generateCOSTARChangesSummary prompt
            (improvedPrompt (applyCOSTARFramework prompt mode))
            (analysis (applyCOSTARFramework prompt mode))
          = generateCOSTARChangesSummary (trim prompt)
              (improvedPrompt (applyCOSTARFramework (trim prompt) mode))
              (analysis (applyCOSTARFramework (trim prompt) mode))).
  unfold generateCOSTARChangesSummary. rewrite A. reflexivity.
Qed.

Lemma analysis_of_the_trimmed_prompt_witness :
  (List.length (lit "  fix the login bug  ") <? 30)%nat
  = (List.length (trim (lit "  fix the login bug  ")) <? 30)%nat
  /\ overallScore (applyCOSTARFramework (lit "  fix the login bug  ") deep)
     = overallScore (applyCOSTARFramework (trim (lit "  fix the login bug  ")) deep).
Proof.
  split; [reflexivity |].
  exact (proj1 (proj2 (proj2 (@analysis_of_the_trimmed_prompt
                                (lit "  fix the login bug  ") deep eq_refl)))).
Defined.

(** ** Prompts that are too vague *)

Lemma too_vague_list :
  too_vague
  = [lit "build an app"; lit "build a app"; lit "create a system"; lit "make a platform"].
Proof. vm_compute. reflexivity. Qed.

Lemma quality_criteria (prompt : jsstring) :
  clearGoal (criteriaResults (assessQuality prompt)) = hasClearGoal prompt
  /\ sufficientContext (criteriaResults (assessQuality prompt)) = hasContext prompt
  /\ actionableLanguage (criteriaResults (assessQuality prompt)) = hasActionableLanguage prompt
  /\ reasonableScope (criteriaResults (assessQuality prompt)) = hasReasonableScope prompt
  /\ criteriaMetCount (assessQuality prompt)
     = count_true [hasClearGoal prompt; hasContext prompt; hasActionableLanguage prompt;
                   hasReasonableScope prompt]
  /\ isAlreadyGood (assessQuality prompt)
     = (3 <=? criteriaMetCount (assessQuality prompt))%nat.
Proof.
  cbv beta iota zeta delta
    [assessQuality criteriaResults clearGoal sufficientContext actionableLanguage
     reasonableScope criteriaMetCount isAlreadyGood criteria_values count_true].
  generalize (hasClearGoal prompt) (hasContext prompt) (hasActionableLanguage prompt)
    (hasReasonableScope prompt).
  intros. repeat split.
Qed.

Lemma objective_by_scope (prompt : jsstring) :
  achievable (analyzeObjective prompt) = negb (hasUnrealisticScope prompt)
  /\ (hasUnrealisticScope prompt = true ->
      In (o_score (analyzeObjective prompt)) [num 0; num 30; num 40; num 70]).
Proof.
  unfold analyzeObjective. cbv beta iota zeta delta [o_score achievable].
  generalize (hasUnrealisticScope prompt) (hasSuccessCriteria prompt).
  abstract_tests prompt. intros u. intros. split; [reflexivity |].
  intros ->. all_flags; in_list.
Qed.

Lemma too_vague_case (prompt : jsstring) :
  test_whole too_vague (trim prompt) = true ->
  test_prefix_word
    (alts "create|build|develop|implement|add|update|fix|refactor|design|make|write")
    (trim prompt) = true
  /\ test_whole too_broad (trim prompt) = true
  /\ hasContext (trim prompt) = false.
Proof.
  intros V.
  rewrite too_vague_list in V. apply test_whole_spec in V as (w & Hw & E).
  unfold hasContext.
  rewrite (test_prefix_word_ci _ E), (test_whole_ci _ E), (test_words_ci _ E).
  destruct Hw as [<- | [<- | [<- | [<- | []]]]]; vm_compute; repeat split; reflexivity.
Qed.

Lemma unreasonable_scope (prompt : jsstring) :
  hasReasonableScope prompt = false ->
  (List.length prompt <= 1000)%nat ->
  test_whole too_vague (trim prompt) = true.
Proof.
  unfold hasReasonableScope. cbv zeta.
  generalize (test_whole too_vague (trim prompt)). intros b R L.
  apply Nat.ltb_ge in L. rewrite L in R. destruct b; [reflexivity | discriminate].
Qed.

(** X20. A prompt of at most 1000 characters fails the reasonable-scope
    criterion only when it is one of the too-vague phrases. Such a prompt
    still counts as having a clear goal, but it has no sufficient context, so
    it meets one or two of the four criteria and is never already good; the
    objective analyzer finds it not achievable and scores it at most 70. *)
Theorem vague_prompts_are_never_good (prompt : jsstring) :
  hasReasonableScope prompt = false ->
  (List.length prompt <= 1000)%nat ->
  clearGoal (criteriaResults (assessQuality prompt)) = true
  /\ sufficientContext (criteriaResults (assessQuality prompt)) = false
  /\ isAlreadyGood (assessQuality prompt) = false
  /\ (1 <= criteriaMetCount (assessQuality prompt) <= 2)%nat
  /\ achievable (analyzeObjective prompt) = false
  /\ In (o_score (analyzeObjective prompt)) [num 0; num 30; num 40; num 70].
Proof.
  intros R L.
  destruct (too_vague_case prompt (unreasonable_scope prompt R L)) as (G & B & X).
  assert (U : hasUnrealisticScope prompt = true).
  { unfold hasUnrealisticScope. cbv zeta. rewrite B. reflexivity. }
  assert (C : hasClearGoal prompt = true).
  { unfold hasClearGoal. rewrite G. reflexivity. }
  rewrite <- (proj1 (helpers_trim prompt)) in X.
  destruct (quality_criteria prompt) as (Q1 & Q2 & _ & _ & Q5 & Q6).
  destruct (objective_by_scope prompt) as (A & S).
  rewrite Q6, Q5, Q1, Q2, A, U, C, X, R.
  generalize (hasActionableLanguage prompt). intros a.
  split; [reflexivity |]. split; [reflexivity |].
  split; [destruct a; reflexivity |].
  split; [destruct a; cbv; lia |].
  split; [reflexivity | exact (S U)].
Qed.

Lemma vague_prompts_are_never_good_witness :
  hasReasonableScope (lit "  Make a Platform ") = false
  /\ (List.length (lit "  Make a Platform ") <= 1000)%nat
  /\ isAlreadyGood (assessQuality (lit "  Make a Platform ")) = false.
Proof.
  split; [reflexivity |]. split; [vm_compute; lia |].
  apply (@vague_prompts_are_never_good (lit "  Make a Platform ")).
  - reflexivity.
  - vm_compute. lia.
Defined.

(** ** Words seen by the analyzers and by the synthesizer *)

(** [/w1|...|wn/i.test(s)] holds exactly when one of the alternatives occurs
    in [s], in any case. *)
Lemma test_sub_spec (ws : list jsstring) (s : jsstring) :
  test_sub ws s = true
  <-> exists w pre m r, In w ws /\ s = pre ++ m ++ r /\ ci_eq m w.
Proof.
  unfold test_sub. rewrite search_some. split.
  - intros (pre & post & -> & H).
    apply first_alt_some in H as (w & Hw & H).
    destruct (match_lit w (last_of None pre) post) as [[prev' r]|] eqn:E; [| discriminate].
    destruct (match_lit_sound _ _ _ E) as (m & -> & Hm & _).
    exists w, pre, m, r. repeat split; assumption.
  - intros (w & pre & m & r & Hw & -> & Hm).
    exists pre, (m ++ r). split; [reflexivity |].
    apply first_alt_some. exists w. split; [exact Hw |].
    rewrite (match_lit_complete _ _ Hm). reflexivity.
Qed.

(** A word of the text is also a piece of the text. *)
Lemma word_then_sub (w : jsstring) (ws : list jsstring) (s : jsstring) :
  In w ws -> occurs_as_word w s -> test_sub ws s = true.
Proof.
  intros I (pre & post & -> & _ & m & r & -> & Hm & _).
  apply test_sub_spec. exists w, pre, m, r. repeat split; assumption.
Qed.

Ltac seen_as alternatives O :=
  match type of O with
  | occurs_as_word ?w ?p =>
      let S := fresh "S" in
      assert (S : test_sub (alts alternatives) p = true)
        by (apply (@word_then_sub w); [in_list | exact O]);
      rewrite S; clear S
  end.

(** X21. A technology, tone, audience or deliverable found as a word by the
    analyzers is found by the synthesizer, which looks for it anywhere in
    the text: the technology stack is listed, the professional tone and the
    beginner audience are chosen, and the deliverables are not left as a
    placeholder. *)
Theorem synthesizer_sees_the_words (prompt : jsstring) :
  implb (test_words [lit "react"; lit "typescript"; lit "node"; lit "python"] prompt)
        (starts_with (lit "- Technology stack: ") (extractOrInferTechnical prompt)) = true
  /\ implb (test_words [lit "professional"] prompt)
           (jsstring_eqb (extractToneGuidance prompt) (lit "Professional tone")) = true
  /\ implb (test_words [lit "beginner"] prompt)
           (jsstring_eqb (extractAudienceDefinition prompt)
              (lit "Target audience: Beginners with basic programming knowledge")) = true
  /\ implb (test_words [lit "code"; lit "documentation"; lit "test"; lit "example"] prompt)
           (negb (jsstring_eqb (extractDeliverables prompt) (lit "- [Specify deliverables]")))
     = true.
Proof.
  split; [| split; [| split]].
  - destruct (test_words _ prompt) eqn:T; [| reflexivity].
    apply test_words_spec in T as (w & Hw & O). cbn [implb].
    unfold extractOrInferTechnical.
    destruct Hw as [<- | [<- | [<- | [<- | []]]]];
      [seen_as "react" O | seen_as "typescript" O | seen_as "node" O | seen_as "python" O];
      abstract_tests prompt; all_flags; vm_compute; reflexivity.
  - destruct (test_words _ prompt) eqn:T; [| reflexivity].
    apply test_words_spec in T as (w & [<- | []] & O). cbn [implb].
    unfold extractToneGuidance. seen_as "professional" O. vm_compute. reflexivity.
  - destruct (test_words _ prompt) eqn:T; [| reflexivity].
    apply test_words_spec in T as (w & [<- | []] & O). cbn [implb].
    unfold extractAudienceDefinition. seen_as "beginner" O. vm_compute. reflexivity.
  - destruct (test_words _ prompt) eqn:T; [| reflexivity].
    apply test_words_spec in T as (w & Hw & O). cbn [implb].
    unfold extractDeliverables.
    destruct Hw as [<- | [<- | [<- | [<- | []]]]];
      [seen_as "code" O | seen_as "documentation|docs" O | seen_as "test" O
       | seen_as "example" O];
      abstract_tests prompt; all_flags; vm_compute; reflexivity.
Qed.
